(** * MindMate: the chat endpoint and the persistence gateway

    A shallow embedding of [app.py] (the [/api/chat] view) and of
    [database.py] (the SQLite gateway), with the properties of the
    conversation routing and of the persistence contract.

    Conventions of the embedding.
    - A Python [str] is a [string] that holds its UTF-8 bytes; literals
      are the UTF-8 text of the source.  [str.strip] knows every
      whitespace character of Python, of one, two or three bytes;
      [str.lower] lowers the ASCII letters and the two other characters
      whose lowercase has an ASCII letter in it.
    - A [float] is the rational that it stands for; [AVG] and [round]
      round as binary64 does.
    - A SQLite table is the list of its rows in insertion order, together
      with its [sqlite_sequence] counter.
    - [CURRENT_TIMESTAMP] and [datetime('now', ...)] are seconds on an
      integer clock; the text form ['YYYY-MM-DD HH:MM:SS'] that SQLite
      compares is ordered the same way.
    - What a request cannot decide (the clock, the answer of the remote
      completion service, a fault of the store, the fresh uuid) is read
      from an explicit environment. *)

From Stdlib Require Import String Ascii List ZArith QArith Qabs Bool Lia Sorted.
From Stdlib Require Import Permutation.
Import ListNotations.

Local Open Scope list_scope.
Local Open Scope string_scope.

(* ===================================================================== *)
(** * Python strings *)
(* ===================================================================== *)

Module PyStr.

(** A [str] is held as its UTF-8 bytes.  The characters that [lower] and
    [strip] have to know are told apart by the values of their bytes. *)
Definition byte_is (c : ascii) (n : nat) : bool :=
  Nat.eqb (nat_of_ascii c) n.

(** [c.isupper()] on the ASCII range: 'A' .. 'Z'. *)
Definition is_upper (c : ascii) : bool :=
  let n := nat_of_ascii c in (65 <=? n)%nat && (n <=? 90)%nat.

Definition lower_char (c : ascii) : ascii :=
  if is_upper c then ascii_of_nat (nat_of_ascii c + 32) else c.

(** [s.lower()], as far as ASCII goes.  An ASCII letter is lowered.  Two
    characters outside ASCII have a lowercase with an ASCII letter in it,
    and are lowered as Python lowers them: U+212A KELVIN SIGN (bytes E2
    84 AA) to "k", and U+0130 (bytes C4 B0) to "i" followed by U+0307
    (bytes CC 87).  Every other character outside ASCII stands for its
    lowercase, which is again made of characters outside ASCII: no test
    [k in s.lower()] with an ASCII [k] can tell the two apart. *)
Fixpoint lower (s : string) : string :=
  match s with
  | EmptyString => EmptyString
  | String c1 s1 =>
      match s1 with
      | EmptyString => String (lower_char c1) EmptyString
      | String c2 s2 =>
          if byte_is c1 196 && byte_is c2 176 then
            String "i" (String "204" (String "135" (lower s2)))
          else
            match s2 with
            | EmptyString => String (lower_char c1) (lower s1)
            | String c3 s3 =>
                if byte_is c1 226 && byte_is c2 132 && byte_is c3 170 then
                  String "k" (lower s3)
                else String (lower_char c1) (lower s1)
            end
      end
  end.

(** [c.isspace()] for a character of one byte: TAB, LF, VT, FF, CR, the
    four separators FS GS RS US, and the space. *)
Definition is_space (c : ascii) : bool :=
  let n := nat_of_ascii c in
  ((9 <=? n)%nat && (n <=? 13)%nat) || ((28 <=? n)%nat && (n <=? 32)%nat).

(** [isspace()] for a character of two bytes: U+0085 and U+00A0. *)
Definition is_space2 (c1 c2 : ascii) : bool :=
  byte_is c1 194 && (byte_is c2 133 || byte_is c2 160).

(** [isspace()] for a character of three bytes: U+1680, U+2000 .. U+200A,
    U+2028, U+2029, U+202F, U+205F and U+3000. *)
Definition is_space3 (c1 c2 c3 : ascii) : bool :=
  let n3 := nat_of_ascii c3 in
  (byte_is c1 225 && byte_is c2 154 && byte_is c3 128) ||
  (byte_is c1 226 && byte_is c2 128 &&
   (((128 <=? n3)%nat && (n3 <=? 138)%nat) ||
    byte_is c3 168 || byte_is c3 169 || byte_is c3 175)) ||
  (byte_is c1 226 && byte_is c2 129 && byte_is c3 159) ||
  (byte_is c1 227 && byte_is c2 128 && byte_is c3 128).

(** Truth value of a [str]: only the empty string is falsy. *)
Definition truthy (s : string) : bool :=
  match s with
  | EmptyString => false
  | String _ _ => true
  end.

(** [s.lstrip()]: the whitespace characters at the head of [s] are
    dropped, whatever the number of their bytes. *)
Fixpoint lstrip (s : string) : string :=
  match s with
  | EmptyString => EmptyString
  | String c1 s1 =>
      if is_space c1 then lstrip s1
      else
        match s1 with
        | EmptyString => s
        | String c2 s2 =>
            if is_space2 c1 c2 then lstrip s2
            else
              match s2 with
              | EmptyString => s
              | String c3 s3 => if is_space3 c1 c2 c3 then lstrip s3 else s
              end
        end
  end.

(** [s] is made of whitespace only. *)
Definition blank (s : string) : bool := negb (truthy (lstrip s)).

(** [s.rstrip()]: the text is cut where what follows is whitespace
    only. *)
Fixpoint rstrip (s : string) : string :=
  match s with
  | EmptyString => EmptyString
  | String c s' => if blank s then EmptyString else String c (rstrip s')
  end.

(** [s.strip()] *)
Definition strip (s : string) : string := rstrip (lstrip s).

(** [needle in hay]: substring test. *)
Fixpoint contains (needle hay : string) : bool :=
  prefix needle hay ||
  match hay with
  | EmptyString => false
  | String _ hay' => contains needle hay'
  end.

(** [any(k in s for k in keys)] *)
Definition any_in (keys : list string) (s : string) : bool :=
  existsb (fun k => contains k s) keys.

End PyStr.

(* ===================================================================== *)
(** * Exceptions *)
(* ===================================================================== *)

(** A computation that returns or raises; [Raise e] carries [str(e)]. *)
Inductive exc (A : Type) : Type :=
| Ok (a : A)
| Raise (e : string).
Arguments Ok {A} a.
Arguments Raise {A} e.

Definition bind {A B : Type} (c : exc A) (k : A -> exc B) : exc B :=
  match c with
  | Ok a => k a
  | Raise e => Raise e
  end.

Notation "x <- c ;; k" := (bind c (fun x => k))
  (at level 61, c at next level, right associativity).
Notation "' p <- c ;; k" := (bind c (fun x => let p := x in k))
  (at level 61, p pattern, c at next level, right associativity).

(* ===================================================================== *)
(** * database.py *)
(* ===================================================================== *)

Module Database.

Local Open Scope Z_scope.

(** ** Tables with [INTEGER PRIMARY KEY AUTOINCREMENT] *)

(** The rows in insertion order, each with its rowid, and the table's
    entry in [sqlite_sequence]: the largest rowid ever handed out. *)
Record table (R : Type) : Type := {
  rows : list (Z * R);
  seq : Z
}.
Arguments rows {R} t.
Arguments seq {R} t.

Definition empty_table {R : Type} : table R := {| rows := []; seq := 0 |}.

Definition ids {R : Type} (t : table R) : list Z := map fst (rows t).

Definition largest_rowid {R : Type} (t : table R) : Z :=
  fold_right Z.max 0 (ids t).

(** SQLite's rowids are signed 64-bit. *)
Definition max_rowid : Z := 9223372036854775807.

(** AUTOINCREMENT: one more than the largest rowid that ever existed in
    the table; when that was the largest possible one the INSERT fails
    with SQLITE_FULL. *)
Definition new_rowid {R : Type} (t : table R) : exc Z :=
  let i := Z.max (seq t) (largest_rowid t) + 1 in
  if max_rowid <? i then Raise "database or disk is full" else Ok i.

(** [INSERT INTO t (...) VALUES (...)]; the result is [cursor.lastrowid]
    and the table after the statement. *)
Definition insert_into {R : Type} (t : table R) (r : R) : exc (Z * table R) :=
  i <- new_rowid t ;;
  Ok (i, {| rows := rows t ++ [(i, r)]; seq := i |}).

(** [INSERT OR REPLACE INTO t ...] with a UNIQUE column: the rowid is
    chosen first, then every row that conflicts with the new one is
    deleted, then the new row is stored. *)
Definition insert_or_replace {R : Type} (conflicts : R -> R -> bool)
    (t : table R) (r : R) : exc (Z * table R) :=
  i <- new_rowid t ;;
  let kept := filter (fun ir => negb (conflicts r (snd ir))) (rows t) in
  Ok (i, {| rows := kept ++ [(i, r)]; seq := i |}).

(** ** The five tables of [init_database] *)

Record mood := {
  mood_type : string;
  mood_emoji : string;
  intensity : Z;
  notes : string;
  mood_timestamp : Z
}.

Record journal_entry := {
  title : string;
  content : string;
  mood_at_time : string;
  tags : string;
  journal_timestamp : Z
}.

Record chat_conversation := {
  user_message : string;
  ai_response : string;
  conversation_id : string;
  chat_timestamp : Z
}.

Record breathing_session := {
  session_duration : Z;
  cycles_completed : Z;
  session_type : string;
  breathing_timestamp : Z
}.

Record user_setting := {
  setting_key : string;
  setting_value : string;
  updated_at : Z
}.

Record DB := {
  moods : table mood;
  journal_entries : table journal_entry;
  chat_conversations : table chat_conversation;
  breathing_sessions : table breathing_session;
  user_settings : table user_setting
}.

Definition empty_db : DB := {|
  moods := empty_table;
  journal_entries := empty_table;
  chat_conversations := empty_table;
  breathing_sessions := empty_table;
  user_settings := empty_table
|}.

(** [CREATE TABLE IF NOT EXISTS] five times: a store that has no tables
    yet ([None]) gets the empty ones, an existing one is left as it is. *)
Definition init_database (file : option DB) : DB :=
  match file with
  | None => empty_db
  | Some db => db
  end.

(** ** What a call reads from outside *)

Record StoreEnv := {
  now : Z;                 (* CURRENT_TIMESTAMP / datetime('now'), seconds *)
  strftime_now : string;   (* datetime.now().strftime('%Y%m%d_%H%M%S') *)
  fault : option string    (* the sqlite3 error this call runs into, if any *)
}.

(** [sqlite3.connect] .. [conn.commit()]: a fault of the store raises
    before anything is committed. *)
Definition connect (e : StoreEnv) : exc unit :=
  match fault e with
  | Some msg => Raise msg
  | None => Ok tt
  end.

(** A Python [int] bound to a [?] must fit SQLite's 64 bits; the binding
    raises [OverflowError] otherwise. *)
Definition bind_int (n : Z) : exc Z :=
  if (-9223372036854775808 <=? n) && (n <=? max_rowid) then Ok n
  else Raise "Python int too large to convert to SQLite INTEGER".

(** ** Writers *)

(** The values are bound as they come: text as text, and an [int] when
    it fits; no writer checks a range of its own. *)
Definition log_mood (e : StoreEnv) (mood_type mood_emoji : string)
    (intensity : Z) (notes : string) (db : DB) : exc (Z * DB) :=
  _ <- connect e ;;
  intensity <- bind_int intensity ;;
  '(mood_id, t) <- insert_into (moods db)
      {| mood_type := mood_type; mood_emoji := mood_emoji;
         intensity := intensity; notes := notes;
         mood_timestamp := now e |} ;;
  Ok (mood_id,
      {| moods := t;
         journal_entries := journal_entries db;
         chat_conversations := chat_conversations db;
         breathing_sessions := breathing_sessions db;
         user_settings := user_settings db |}).

Definition save_journal_entry (e : StoreEnv)
    (content title mood_at_time tags : string) (db : DB) : exc (Z * DB) :=
  _ <- connect e ;;
  '(entry_id, t) <- insert_into (journal_entries db)
      {| title := title; content := content;
         mood_at_time := mood_at_time; tags := tags;
         journal_timestamp := now e |} ;;
  Ok (entry_id,
      {| moods := moods db;
         journal_entries := t;
         chat_conversations := chat_conversations db;
         breathing_sessions := breathing_sessions db;
         user_settings := user_settings db |}).

(** [if not conversation_id:]: [None] and the empty string are falsy. *)
Definition conversation_id_or_default (e : StoreEnv)
    (conversation_id : option string) : string :=
  match conversation_id with
  | Some c => if PyStr.truthy c then c else "conv_" ++ strftime_now e
  | None => "conv_" ++ strftime_now e
  end.

Definition log_chat_conversation (e : StoreEnv)
    (user_message ai_response : string) (conversation_id : option string)
    (db : DB) : exc (Z * DB) :=
  _ <- connect e ;;
  let conversation_id := conversation_id_or_default e conversation_id in
  '(chat_id, t) <- insert_into (chat_conversations db)
      {| user_message := user_message; ai_response := ai_response;
         conversation_id := conversation_id;
         chat_timestamp := now e |} ;;
  Ok (chat_id,
      {| moods := moods db;
         journal_entries := journal_entries db;
         chat_conversations := t;
         breathing_sessions := breathing_sessions db;
         user_settings := user_settings db |}).

Definition log_breathing_session (e : StoreEnv)
    (duration cycles_completed : Z) (session_type : string) (db : DB)
    : exc (Z * DB) :=
  _ <- connect e ;;
  duration <- bind_int duration ;;
  cycles_completed <- bind_int cycles_completed ;;
  '(session_id, t) <- insert_into (breathing_sessions db)
      {| session_duration := duration; cycles_completed := cycles_completed;
         session_type := session_type;
         breathing_timestamp := now e |} ;;
  Ok (session_id,
      {| moods := moods db;
         journal_entries := journal_entries db;
         chat_conversations := chat_conversations db;
         breathing_sessions := t;
         user_settings := user_settings db |}).

(** ** Settings *)

(** [setting_key TEXT UNIQUE]: two rows conflict when their keys agree. *)
Definition same_key (a b : user_setting) : bool :=
  String.eqb (setting_key a) (setting_key b).

Definition update_user_setting (e : StoreEnv) (key value : string) (db : DB)
    : exc (unit * DB) :=
  _ <- connect e ;;
  '(_, t) <- insert_or_replace same_key (user_settings db)
      {| setting_key := key; setting_value := value;
         updated_at := now e |} ;;
  Ok (tt,
      {| moods := moods db;
         journal_entries := journal_entries db;
         chat_conversations := chat_conversations db;
         breathing_sessions := breathing_sessions db;
         user_settings := t |}).

(** [SELECT setting_value ... WHERE setting_key = ?] and [fetchone()];
    [result[0] if result else default_value]: a fetched row is a
    one-element tuple, which is truthy whatever its value. *)
Definition get_user_setting (e : StoreEnv) (key default_value : string)
    (db : DB) : exc string :=
  _ <- connect e ;;
  let result :=
    find (fun ir => String.eqb (setting_key (snd ir)) key)
         (rows (user_settings db)) in
  Ok (match result with
      | Some (_, r) => setting_value r
      | None => default_value
      end).

(** ** Dashboard statistics *)

(** A Python number as [get_mood_statistics] handles it: the [int]
    default, or the [float] that [AVG] yields.  A float is given by its
    value, a rational. *)
Inductive pynum :=
| PyInt (n : Z)
| PyFloat (q : Q).

(** The integer nearest to [q], ties to the even one. *)
Definition round_half_even (q : Q) : Z :=
  let d := Zpos (Qden q) in
  let f := Qnum q / d in
  match 2 * (Qnum q mod d) ?= d with
  | Lt => f
  | Gt => f + 1
  | Eq => if Z.even f then f else f + 1
  end.

(** The binary exponent of [a / b] for a positive [a]: the [e] with
    [2 ^ e <= a / b < 2 ^ (e + 1)]. *)
Definition exponent (a : Z) (b : positive) : Z :=
  let e := Z.log2 a - Z.log2 (Zpos b) in
  if a * 2 ^ Z.max 0 (- e) <? Zpos b * 2 ^ Z.max 0 e then e - 1 else e.

(** The binary64 float nearest to [q], ties to the even significand:
    [q] is scaled by [2 ^ s] to a significand of 53 bits, which is
    rounded.  The range of the exponent is not modelled; no quotient of
    a sum of 64-bit integers by a count of rows leaves it. *)
Definition to_double (q : Q) : Q :=
  let q := Qred q in
  let a := Z.abs (Qnum q) in
  if a =? 0 then 0 # 1
  else
    let s := 52 - exponent a (Qden q) in
    let m :=
      if 0 <=? s then round_half_even (a * 2 ^ s # Qden q)
      else round_half_even (a # Qden q * Z.to_pos (2 ^ (- s))) in
    let v := Z.sgn (Qnum q) * m in
    Qred (if 0 <=? s then v # Z.to_pos (2 ^ s) else v * 2 ^ (- s) # 1).

(** [SELECT AVG(col)] over integers: NULL over no rows; else the sum,
    which SQLite keeps in a float and adds to row by row ([rSum += v]),
    over the count, in floats.  (SQLite from 3.43 on sums the integers
    exactly while they fit 64 bits; the two agree while the sums stay
    below [2 ^ 53].) *)
Definition sql_avg (xs : list Z) : option Q :=
  match xs with
  | [] => None
  | _ :: _ =>
      let rSum :=
        fold_left (fun r v => to_double (r + to_double (inject_Z v)))
                  xs (0 # 1)%Q in
      Some (to_double (rSum / inject_Z (Z.of_nat (length xs))))
  end.

(** [x or 5] for [x] the fetched average: [None] and [0.0] are falsy. *)
Definition or_5 (x : option Q) : pynum :=
  match x with
  | None => PyInt 5
  | Some q => if Qnum q =? 0 then PyInt 5 else PyFloat q
  end.

(** [round(x, 1)]: an [int] is returned as it is; a [float] is rounded
    to one decimal, ties to the even one, from the exact value that the
    float has.  The result is the float nearest to that decimal and is
    given by the decimal, which is how JSON shows it. *)
Definition round_1 (x : pynum) : pynum :=
  match x with
  | PyInt n => PyInt n
  | PyFloat q => PyFloat (round_half_even (q * (10 # 1)) # 10)
  end.

(** [WHERE timestamp >= datetime('now', '-N days')] *)
Definition within_days (e : StoreEnv) (days : Z) (timestamp : Z) : bool :=
  now e - days * 86400 <=? timestamp.

(** The result of [get_mood_statistics] but for ["mood_counts"], whose
    order among equal counts SQL leaves open. *)
Record mood_statistics := {
  avg_intensity : pynum;
  total_entries : Z;
  total_breathing_sessions : Z
}.

(** The intensities that the second query averages. *)
Definition last_7_days_intensities (e : StoreEnv) (db : DB) : list Z :=
  map (fun ir => intensity (snd ir))
      (filter (fun ir => within_days e 7 (mood_timestamp (snd ir)))
              (rows (moods db))).

Definition get_mood_statistics (e : StoreEnv) (db : DB) : exc mood_statistics :=
  _ <- connect e ;;
  let avg_intensity := or_5 (sql_avg (last_7_days_intensities e db)) in
  let total_entries := Z.of_nat (length (rows (journal_entries db))) in
  let total_sessions := Z.of_nat (length (rows (breathing_sessions db))) in
  Ok {| avg_intensity := round_1 avg_intensity;
        total_entries := total_entries;
        total_breathing_sessions := total_sessions |}.

(** ** Readers *)

(** [ORDER BY key DESC].  SQL leaves the order among rows of equal key
    open; here such rows stay in the order of the table. *)
Fixpoint insert_desc {A : Type} (key : A -> Z) (x : A) (l : list A) : list A :=
  match l with
  | [] => [x]
  | y :: l' => if key y <=? key x then x :: l else y :: insert_desc key x l'
  end.

Definition order_by_desc {A : Type} (key : A -> Z) (l : list A) : list A :=
  fold_right (insert_desc key) [] l.

(** SQLite's calendar begins at noon of 24 November 4714 BC, on the
    clock of [now]: *)
Definition calendar_start : Z := -210866760000.

(** What makes ['-{} days'.format(days)] a modifier that ['now'] can take:
    [days] is not negative (for -5 the text reads ['--5 days'], which is
    no modifier), it is below SQLite's bound for a number of days, and
    the day reached is in the calendar. *)
Definition valid_window (e : StoreEnv) (days : Z) : bool :=
  (0 <=? days) && (days <? 5373485) &&
  (calendar_start <=? now e - days * 86400).

(** [datetime('now', '-{} days'.format(days))]: [days] days before now,
    or NULL ([None]). *)
Definition datetime_now_minus_days (e : StoreEnv) (days : Z) : option Z :=
  if valid_window e days then Some (now e - days * 86400) else None.

(** [WHERE timestamp >= bound]: no row compares with NULL. *)
Definition timestamp_ge (bound : option Z) (timestamp : Z) : bool :=
  match bound with
  | Some b => b <=? timestamp
  | None => false
  end.

(** The moods of the last [days] days, newest first; the columns
    selected are those of the record. *)
Definition get_mood_history (e : StoreEnv) (days : Z) (db : DB)
    : exc (list mood) :=
  _ <- connect e ;;
  let bound := datetime_now_minus_days e days in
  let moods :=
    order_by_desc mood_timestamp
      (filter (fun m => timestamp_ge bound (mood_timestamp m))
              (map snd (rows (moods db)))) in
  Ok moods.

(** [LIMIT ?]: a negative limit is no limit. *)
Definition sql_limit {A : Type} (limit : Z) (l : list A) : list A :=
  if limit <? 0 then l else firstn (Z.to_nat limit) l.

(** The newest [limit] journal entries, each with its id. *)
Definition get_journal_entries (e : StoreEnv) (limit : Z) (db : DB)
    : exc (list (Z * journal_entry)) :=
  _ <- connect e ;;
  limit <- bind_int limit ;;
  let entries :=
    sql_limit limit
      (order_by_desc (fun ir => journal_timestamp (snd ir))
                     (rows (journal_entries db))) in
  Ok entries.

(** [SELECT mood_type, COUNT( * ) ... GROUP BY mood_type] over a list of
    mood types: each type once, with the number of its occurrences. *)
Definition group_count (types : list string) : list (string * Z) :=
  map (fun t => (t, Z.of_nat (count_occ string_dec types t)))
      (nodup string_dec types).

(** The first query of [get_mood_statistics], which becomes
    ["mood_counts"]: the moods of the last 30 days counted by type, the
    largest count first.  SQL leaves the order among equal counts open;
    the order that this list has there is not that of SQLite, and no
    statement relies on it. *)
Definition mood_counts (e : StoreEnv) (db : DB) : exc (list (string * Z)) :=
  _ <- connect e ;;
  let in_window :=
    filter (fun m => within_days e 30 (mood_timestamp m))
           (map snd (rows (moods db))) in
  Ok (order_by_desc snd (group_count (map mood_type in_window))).

End Database.

(* ===================================================================== *)
(** * app.py: the chat endpoint *)
(* ===================================================================== *)

Module App.

Import Database.

Definition nl : string := String (ascii_of_nat 10) EmptyString.

Definition MINDMATE_SYSTEM_PROMPT : string :=
  "You are MindMate, a compassionate mental wellbeing companion designed to support young adults. " ++ nl ++
  nl ++
  "Core Principles:" ++ nl ++
  "- Respond with empathy, kindness, and genuine care" ++ nl ++
  "- Offer practical coping strategies and emotional support" ++ nl ++
  "- Never provide medical advice or diagnose conditions" ++ nl ++
  "- If someone mentions crisis, self-harm, or suicidal thoughts, immediately suggest emergency resources" ++ nl ++
  "- Keep responses warm, supportive, and age-appropriate for young adults" ++ nl ++
  "- Encourage healthy habits like journaling, breathing exercises, and self-care" ++ nl ++
  nl ++
  "Emergency Resources to Share When Needed:" ++ nl ++
  "- Crisis Text Line: Text HOME to 741741" ++ nl ++
  "- National Suicide Prevention Lifeline: 988" ++ nl ++
  "- International Association for Suicide Prevention: https://www.iasp.info/resources/Crisis_Centres/" ++ nl ++
  nl ++
  "Your responses should be:" ++ nl ++
  "- Supportive and validating" ++ nl ++
  "- 2-3 paragraphs maximum" ++ nl ++
  "- Include actionable suggestions when appropriate" ++ nl ++
  "- Encourage the user's strengths and resilience".

(** ** Requests and responses *)

(** What [request.get_json()] returns is an [option json_object]: [None]
    for the JSON [null], or an object whose fields are strings or [null]
    ([None]).  As in a [dict] a key occurs once; of a list that repeats
    a key, [lookup] sees the first field.  A request whose body is not
    JSON makes [get_json] raise; such requests are outside this model. *)
Definition json_object : Type := list (string * option string).

(** [data[key]] / [key in data]: the field, if it is there. *)
Fixpoint lookup {V : Type} (key : string) (d : list (string * V)) : option V :=
  match d with
  | [] => None
  | (k, v) :: d' => if String.eqb k key then Some v else lookup key d'
  end.

(** [data.get(key, default)] *)
Definition dict_get {V : Type} (d : list (string * V)) (key : string)
    (default : V) : V :=
  match lookup key d with
  | Some v => v
  | None => default
  end.

(** The values that [jsonify] is given. *)
Inductive json :=
| JNull
| JBool (b : bool)
| JStr (s : string).

Definition json_of (v : option string) : json :=
  match v with
  | Some s => JStr s
  | None => JNull
  end.

Record response := {
  status : Z;
  body : list (string * json)
}.

Definition error (code : Z) (message : string) : response :=
  {| status := code; body := [("error", JStr message)] |}.

(** ** The environment of a request *)

(** What [client.chat.completions.create(...)] followed by
    [response.choices[0].message.content] comes to: the content, which
    may be [None], or an exception (network, authentication, timeout, a
    response without choices). *)
Inductive completion :=
| Content (content : option string)
| Failure.

Record Env := {
  store : StoreEnv;
  create : string -> string -> completion;  (* system prompt, user message *)
  uuid4 : string;                           (* str(uuid.uuid4()) *)
  isoformat_now : string                    (* datetime.now().isoformat() *)
}.

(** The store and the requests sent to the completion service so far,
    each as (system content, user content). *)
Record World := {
  db : DB;
  sent : list (string * string)
}.

(** ** The crisis check *)

Definition crisis_keywords : list string :=
  ["suicide"; "kill myself"; "end it all"; "hurt myself"; "self-harm"; "crisis"].

(** [any(keyword in user_message.lower() for keyword in crisis_keywords)] *)
Definition is_crisis (user_message : string) : bool :=
  PyStr.any_in crisis_keywords (PyStr.lower user_message).

Definition crisis_response : string :=
  "I'm really concerned about you and want you to know that you're not alone. Please reach out for immediate help:" ++ nl ++
  nl ++
  "🆘 **Emergency Resources:**" ++ nl ++
  "- **Crisis Text Line**: Text HOME to 741741" ++ nl ++
  "- **National Suicide Prevention Lifeline**: Call or text 988" ++ nl ++
  "- **Emergency**: Call 911" ++ nl ++
  nl ++
  "You matter, and there are people who want to help you through this difficult time. Would you like to talk about what's making you feel this way?".

(** ** The fallback responses *)

Definition fallback_responses : list (string * string) :=
  [ ("stressed",
     "I understand you're feeling stressed. Try taking three deep breaths with me: inhale for 4 counts, hold for 7, exhale for 8. Stress is temporary, and you have the strength to work through this. What's one small thing you could do right now to feel a bit better?");
    ("anxious",
     "Anxiety can feel overwhelming, but you're not alone in this. Ground yourself by naming 5 things you can see, 4 you can touch, 3 you can hear, 2 you can smell, and 1 you can taste. Would you like to try some breathing exercises or talk about what's making you anxious?");
    ("sad",
     "I'm sorry you're feeling sad. It's okay to feel this way - your emotions are valid. Sometimes sadness helps us process important experiences. Would journaling help? Writing down your thoughts can sometimes bring clarity and relief.");
    ("happy",
     "I'm so glad to hear you're feeling good! It's wonderful when we can appreciate positive moments. What's bringing you joy today? Celebrating these feelings can help us remember them during tougher times.");
    ("tired",
     "Being tired can affect everything - your mood, thoughts, and energy. Are you getting enough sleep? Sometimes tiredness is our body's way of asking for rest or self-care. What would help you feel more energized?") ].

Definition generic_response : string :=
  "Thank you for sharing with me. I'm here to listen and support you. Sometimes it helps to talk through what we're experiencing. Would you like to tell me more about how you're feeling today?".

(** The [for emotion, response in fallback_responses.items()] loop with
    its [break]; a dict iterates in insertion order. *)
Fixpoint first_match (table : list (string * string)) (message_lower : string)
    : option string :=
  match table with
  | [] => None
  | (emotion, response) :: table' =>
      if PyStr.contains emotion message_lower then Some response
      else first_match table' message_lower
  end.

(** The body of [except Exception as openai_error]. *)
Definition fallback (user_message : string) : string :=
  let message_lower := PyStr.lower user_message in
  match first_match fallback_responses message_lower with
  | Some response =>
      if PyStr.truthy response then response else generic_response
  | None => generic_response
  end.

(** ** The completion call *)

Definition listen_response : string :=
  "I'm here to listen. Please tell me more.".

(** The inner [try] .. [except]: one request is sent; its content is
    stripped when it is truthy, replaced when it is [None] or empty; any
    exception selects the fallback. *)
Definition generate (e : Env) (user_message : string) (w : World)
    : string * World :=
  let w' := {| db := db w;
               sent := sent w ++ [(MINDMATE_SYSTEM_PROMPT, user_message)] |} in
  match create e MINDMATE_SYSTEM_PROMPT user_message with
  | Content (Some ai_response) =>
      if PyStr.truthy ai_response then (PyStr.strip ai_response, w')
      else (listen_response, w')
  | Content None => (listen_response, w')
  | Failure => (fallback user_message, w')
  end.

(** ** [chat_with_ai] *)

(** [log_chat_conversation(...)] from the view: the store of the world
    is replaced when the call returns. *)
Definition log_turn (e : Env) (user_message ai_response : string)
    (conversation_id : option string) (w : World) : exc World :=
  '(_, db') <- log_chat_conversation (store e) user_message ai_response
                 conversation_id (db w) ;;
  Ok {| db := db'; sent := sent w |}.

(** The body of the outer [try]. The world that comes with a raised
    exception is the one reached when it was raised. *)
Definition chat_with_ai_body (e : Env) (data : option json_object) (w : World)
    : exc response * World :=
  match data with
  | None => (Ok (error 400 "Missing 'message' in request"), w)
  | Some [] => (Ok (error 400 "Missing 'message' in request"), w)
  | Some d =>
      match lookup "message" d with
      | None => (Ok (error 400 "Missing 'message' in request"), w)
      | Some None =>
          (Raise "'NoneType' object has no attribute 'strip'", w)
      | Some (Some message) =>
          let user_message := PyStr.strip message in
          if negb (PyStr.truthy user_message) then
            (Ok (error 400 "Message cannot be empty"), w)
          else
            let conversation_id :=
              dict_get d "conversation_id" (Some (uuid4 e)) in
            if is_crisis user_message then
              match log_turn e user_message crisis_response
                      conversation_id w with
              | Raise x => (Raise x, w)
              | Ok w' =>
                  (Ok {| status := 200;
                         body := [("reply", JStr crisis_response);
                                  ("conversation_id", json_of conversation_id);
                                  ("is_crisis", JBool true)] |}, w')
              end
            else
              let '(ai_response, w1) := generate e user_message w in
              match log_turn e user_message ai_response
                      conversation_id w1 with
              | Raise x => (Raise x, w1)
              | Ok w' =>
                  (Ok {| status := 200;
                         body := [("reply", JStr ai_response);
                                  ("conversation_id", json_of conversation_id);
                                  ("timestamp", JStr (isoformat_now e))] |},
                   w')
              end
      end
  end.

(** [except Exception as e: return jsonify({"error": ...}), 500] *)
Definition chat_with_ai (e : Env) (data : option json_object) (w : World)
    : response * World :=
  match chat_with_ai_body e data w with
  | (Ok r, w') => (r, w')
  | (Raise x, w') => (error 500 ("Chat error: " ++ x), w')
  end.

(** ** The breathing view

    [app.py] imports [log_breathing_session] from [database] and then
    defines the view of [/api/breathing] under the same name.  Inside the
    view the name is the view, which takes no argument: the call with
    three arguments raises a [TypeError], and the outer [except] answers
    it.  The values of the fields are never looked at. *)
Definition log_breathing_session {V : Type} (data : option (list (string * V)))
    (w : World) : response * World :=
  match data with
  | None => (error 400 "Missing duration or cycles_completed", w)
  | Some [] => (error 400 "Missing duration or cycles_completed", w)
  | Some d =>
      match lookup "duration" d, lookup "cycles_completed" d with
      | Some _, Some _ =>
          (error 500 ("Breathing session error: " ++
             "log_breathing_session() takes 0 positional arguments but 3 were given"),
           w)
      | _, _ => (error 400 "Missing duration or cycles_completed", w)
      end
  end.

End App.

(* ===================================================================== *)
(** * app.py: the views of moods, journal and settings *)
(* ===================================================================== *)

Module Views.

Import Database.

(** The values these views hand to [jsonify]. *)
Inductive value :=
| VStr (s : string)
| VInt (n : Z).

Record result := {
  code : Z;
  payload : list (string * value)
}.

Definition failure (c : Z) (message : string) : result :=
  {| code := c; payload := [("error", VStr message)] |}.

(** A view may call the store several times; [store_at k] is what its
    call number [k] meets. *)
Record Env := {
  store_at : nat -> StoreEnv;
  isoformat_now : string
}.

(** ** [/api/mood] *)

(** The body of a mood request by its keys: [None] is a key that is not
    there, a key that is there carries a value of its column's type. *)
Record mood_data := {
  data_mood_type : option string;
  data_mood_emoji : option string;
  data_intensity : option Z;
  data_notes : option string
}.

Definition log_user_mood (e : Env) (data : option mood_data) (db : DB)
    : result * DB :=
  match data with
  | None => (failure 400 "Missing mood_type or mood_emoji", db)
  | Some d =>
      match data_mood_type d, data_mood_emoji d with
      | Some mood_type, Some mood_emoji =>
          let intensity :=
            match data_intensity d with Some n => n | None => 5%Z end in
          let notes :=
            match data_notes d with Some n => n | None => "" end in
          match log_mood (store_at e 0) mood_type mood_emoji intensity notes db with
          | Ok (mood_id, db') =>
              ({| code := 200;
                  payload :=
                    [("status", VStr "success");
                     ("message",
                      VStr ("Mood '" ++ mood_type ++ "' logged successfully"));
                     ("mood_id", VInt mood_id);
                     ("timestamp", VStr (isoformat_now e))] |}, db')
          | Raise x => (failure 500 ("Mood logging error: " ++ x), db)
          end
      | _, _ => (failure 400 "Missing mood_type or mood_emoji", db)
      end
  end.

(** ** [/api/journal] *)

(** The body of a journal request: an object whose fields are strings. *)
Definition save_user_journal (e : Env) (data : option (list (string * string)))
    (db : DB) : result * DB :=
  match data with
  | None => (failure 400 "Missing journal content", db)
  | Some [] => (failure 400 "Missing journal content", db)
  | Some d =>
      match App.lookup "content" d with
      | None => (failure 400 "Missing journal content", db)
      | Some c =>
          let content := PyStr.strip c in
          if negb (PyStr.truthy content) then
            (failure 400 "Journal content cannot be empty", db)
          else
            let title := PyStr.strip (App.dict_get d "title" "") in
            let mood_at_time := App.dict_get d "mood_at_time" "" in
            let tags := App.dict_get d "tags" "" in
            match save_journal_entry (store_at e 0) content title
                    mood_at_time tags db with
            | Ok (entry_id, db') =>
                ({| code := 200;
                    payload :=
                      [("status", VStr "success");
                       ("message", VStr "Journal entry saved successfully");
                       ("entry_id", VInt entry_id);
                       ("timestamp", VStr (isoformat_now e))] |}, db')
            | Raise x => (failure 500 ("Journal save error: " ++ x), db)
            end
      end
  end.

(** ** [/api/settings] *)

Inductive method := GET | POST.

(** [str(value)] for a string or [None]. *)
Definition str (value : option string) : string :=
  match value with
  | Some s => s
  | None => "None"
  end.

(** The four reads of the GET branch, in the order of the dict display. *)
Definition read_settings (e : Env) (db : DB) : exc (list (string * value)) :=
  notifications <- get_user_setting (store_at e 0) "notifications" "true" db ;;
  theme <- get_user_setting (store_at e 1) "theme" "light" db ;;
  reminder_frequency <-
    get_user_setting (store_at e 2) "reminder_frequency" "daily" db ;;
  name <- get_user_setting (store_at e 3) "name" "Friend" db ;;
  Ok [("notifications", VStr notifications);
      ("theme", VStr theme);
      ("reminder_frequency", VStr reminder_frequency);
      ("name", VStr name)].

(** [for key, value in data.items(): update_user_setting(key, str(value))]
    from call number [k] on: the exception that ends the loop, if any,
    and the store reached. *)
Fixpoint update_settings (e : Env) (k : nat) (items : App.json_object)
    (db : DB) : option string * DB :=
  match items with
  | [] => (None, db)
  | (key, value) :: items' =>
      match update_user_setting (store_at e k) key (str value) db with
      | Ok (_, db') => update_settings e (S k) items' db'
      | Raise x => (Some x, db)
      end
  end.

Definition user_settings (e : Env) (m : method) (data : option App.json_object)
    (db : DB) : result * DB :=
  match m with
  | GET =>
      match read_settings e db with
      | Ok settings => ({| code := 200; payload := settings |}, db)
      | Raise x => (failure 500 ("Settings fetch error: " ++ x), db)
      end
  | POST =>
      match data with
      | None => (failure 400 "No settings data provided", db)
      | Some [] => (failure 400 "No settings data provided", db)
      | Some d =>
          match update_settings e 0 d db with
          | (None, db') =>
              ({| code := 200;
                  payload :=
                    [("status", VStr "success");
                     ("message", VStr "Settings updated successfully")] |},
               db')
          | (Some x, db') =>
              (failure 500 ("Settings update error: " ++ x), db')
          end
      end
  end.

End Views.

(* ===================================================================== *)
(** * Vocabulary of the statements *)
(* ===================================================================== *)

Module Spec.

(** [text] has an occurrence of [phrase] up to the case of its letters. *)
Definition occurs_ci (phrase text : string) : Prop :=
  exists pre mid post,
    text = pre ++ mid ++ post /\ PyStr.lower mid = phrase.

(** The first character of [s] is there and is not a space. *)
Definition starts_nonspace (s : string) : bool :=
  match s with
  | EmptyString => false
  | String c _ => negb (PyStr.is_space c)
  end.

(** The last character of [s] is there and is not a space. *)
Fixpoint ends_nonspace (s : string) : bool :=
  match s with
  | EmptyString => false
  | String c EmptyString => negb (PyStr.is_space c)
  | String _ s' => ends_nonspace s'
  end.

(** ** Bytes of UTF-8 text *)

Definition is_ascii (c : ascii) : bool := (nat_of_ascii c <? 128)%nat.

Fixpoint ascii_only (s : string) : bool :=
  match s with
  | EmptyString => true
  | String c s' => is_ascii c && ascii_only s'
  end.

(** The last character of [s] is [x]. *)
Fixpoint ends_with (x : ascii) (s : string) : bool :=
  match s with
  | EmptyString => false
  | String c EmptyString => Ascii.eqb c x
  | String _ s' => ends_with x s'
  end.

(** The keywords of the service are of this kind: ASCII text between two
    characters that are no spaces, and not ending in "i" (the one ASCII
    letter that [lower] writes in front of a mark, for U+0130). *)
Definition keyword (k : string) : bool :=
  ascii_only k && starts_nonspace k && ends_nonspace k &&
  negb (ends_with "i" k).

(** A byte that stands second or third in a whitespace character. *)
Definition continues_space (c : ascii) : bool :=
  let n := nat_of_ascii c in
  ((128 <=? n)%nat && (n <=? 138)%nat) ||
  PyStr.byte_is c 154 || PyStr.byte_is c 159 || PyStr.byte_is c 160 ||
  PyStr.byte_is c 168 || PyStr.byte_is c 169 || PyStr.byte_is c 175.

(** A byte that stands first in a whitespace character of several
    bytes. *)
Definition leads_space (c : ascii) : bool :=
  PyStr.byte_is c 194 || PyStr.byte_is c 225 || PyStr.byte_is c 226 ||
  PyStr.byte_is c 227.

(** A byte of no whitespace character. *)
Definition solid (c : ascii) : bool :=
  negb (PyStr.is_space c || leads_space c || continues_space c).

Fixpoint has_solid (s : string) : bool :=
  match s with
  | EmptyString => false
  | String c s' => solid c || has_solid s'
  end.

Fixpoint ends_solid (s : string) : bool :=
  match s with
  | EmptyString => false
  | String c EmptyString => solid c
  | String _ s' => ends_solid s'
  end.

(** Text whose lowercase is ASCII: ASCII characters and KELVIN SIGNs. *)
Inductive plain : string -> Prop :=
| plain_nil : plain EmptyString
| plain_ascii (c : ascii) (s : string) :
    is_ascii c = true -> plain s -> plain (String c s)
| plain_kelvin (c1 c2 c3 : ascii) (s : string) :
    PyStr.byte_is c1 226 = true -> PyStr.byte_is c2 132 = true ->
    PyStr.byte_is c3 170 = true -> plain s ->
    plain (String c1 (String c2 (String c3 s))).

(** Where [lower] is not in the middle of a character: at the end of the
    text, or at a byte that is neither the last of KELVIN SIGN or of
    U+0130 nor the second of KELVIN SIGN. *)
Definition in_step (x : string) : Prop :=
  match x with
  | EmptyString => True
  | String h _ =>
      PyStr.byte_is h 132 = false /\ PyStr.byte_is h 170 = false /\
      PyStr.byte_is h 176 = false
  end.

(** Where [lstrip] stops: at a byte that continues no whitespace
    character and begins none; a byte E2 begins none when 84 follows. *)
Definition stops_lstrip (x : string) : Prop :=
  match x with
  | EmptyString => False
  | String h t =>
      PyStr.is_space h = false /\ continues_space h = false /\
      (leads_space h = true ->
       PyStr.byte_is h 226 = true /\
       match t with
       | EmptyString => False
       | String h2 _ => PyStr.byte_is h2 132 = true
       end)
  end.

(** The four creating operations of the service. *)
Inductive call :=
| RecordMood (mood_type mood_emoji : string) (intensity : Z) (notes : string)
| RecordJournalEntry (content title mood_at_time tags : string)
| RecordBreathingSession (duration cycles_completed : Z) (session_type : string)
| SubmitMessage (data : option App.json_object).

(** The append-only tables. *)
Inductive table_name := Moods | JournalEntries | ChatConversations | BreathingSessions.

Definition target (c : call) : table_name :=
  match c with
  | RecordMood _ _ _ _ => Moods
  | RecordJournalEntry _ _ _ _ => JournalEntries
  | RecordBreathingSession _ _ _ => BreathingSessions
  | SubmitMessage _ => ChatConversations
  end.

(** The rowids of a table, oldest row first. *)
Definition ids_of (t : table_name) (d : Database.DB) : list Z :=
  match t with
  | Moods => Database.ids (Database.moods d)
  | JournalEntries => Database.ids (Database.journal_entries d)
  | ChatConversations => Database.ids (Database.chat_conversations d)
  | BreathingSessions => Database.ids (Database.breathing_sessions d)
  end.

(** A gateway call made in a world: whether it returned, and the world
    after it. *)
Definition gateway (r : exc (Z * Database.DB)) (w : App.World) : bool * App.World :=
  match r with
  | Ok (_, d) => (true, {| App.db := d; App.sent := App.sent w |})
  | Raise _ => (false, w)
  end.

(** One call; it succeeds when the gateway function returns, and for the
    chat endpoint when the response has status 200. *)
Definition run (e : App.Env) (c : call) (w : App.World) : bool * App.World :=
  match c with
  | RecordMood mood_type mood_emoji intensity notes =>
      gateway (Database.log_mood (App.store e) mood_type mood_emoji
                 intensity notes (App.db w)) w
  | RecordJournalEntry content title mood_at_time tags =>
      gateway (Database.save_journal_entry (App.store e) content title
                 mood_at_time tags (App.db w)) w
  | RecordBreathingSession duration cycles_completed session_type =>
      gateway (Database.log_breathing_session (App.store e) duration
                 cycles_completed session_type (App.db w)) w
  | SubmitMessage data =>
      let '(r, w') := App.chat_with_ai e data w in
      ((App.status r =? 200)%Z, w')
  end.

(** A history of calls, each in its own environment. *)
Definition run_all (steps : list (App.Env * call)) (w : App.World) : App.World :=
  fold_left (fun w step => snd (run (fst step) (snd step) w)) steps w.

(** The world of a service that has just created its store. *)
Definition initial_world : App.World :=
  {| App.db := Database.init_database None; App.sent := [] |}.

(** A history of settings writes; a write that raises leaves the store
    as it was. *)
Definition set_all (writes : list (Database.StoreEnv * (string * string)))
    (d : Database.DB) : Database.DB :=
  fold_left
    (fun d w =>
       match Database.update_user_setting (fst w) (fst (snd w)) (snd (snd w)) d with
       | Ok (_, d') => d'
       | Raise _ => d
       end)
    writes d.

(** The rows of the settings table that carry [key]. *)
Definition rows_of_key (key : string) (d : Database.DB) : list (Z * Database.user_setting) :=
  filter (fun ir => String.eqb (Database.setting_key (snd ir)) key)
         (Database.rows (Database.user_settings d)).

(** In every append-only table the rowids grow with the rows. *)
Definition ids_increasing (w : App.World) : Prop :=
  forall t, StronglySorted Z.lt (ids_of t (App.db w)).

(** The three contact lines of the crisis response. *)
Definition emergency_contacts : list string :=
  [ "- **Crisis Text Line**: Text HOME to 741741";
    "- **National Suicide Prevention Lifeline**: Call or text 988";
    "- **Emergency**: Call 911" ].

(** Largest key first. *)
Definition newest_first {A : Type} (key : A -> Z) (l : list A) : Prop :=
  StronglySorted (fun a b => (key b <= key a)%Z) l.

(** The moods that [get_mood_history] and [mood_counts] choose from: those
    of the store whose timestamp is not before [bound]. *)
Definition moods_since (bound : Z) (d : Database.DB) : list Database.mood :=
  filter (fun m => (bound <=? Database.mood_timestamp m)%Z)
         (map snd (Database.rows (Database.moods d))).

(** The sum of a list of intensities. *)
Definition total (xs : list Z) : Z := fold_right Z.add 0%Z xs.

(** The keys that the GET branch of the settings view reads, each with
    the default it reads it with. *)
Definition settings_defaults : list (string * string) :=
  [("notifications", "true"); ("theme", "light");
   ("reminder_frequency", "daily"); ("name", "Friend")]%list.

End Spec.

(* ===================================================================== *)
(** * Sample environments *)
(* ===================================================================== *)

Module Samples.

Import Database App.

Definition store_ok : StoreEnv :=
  {| now := 1700000000; strftime_now := "20231114_221320"; fault := None |}.

Definition store_locked : StoreEnv :=
  {| now := 1700000000; strftime_now := "20231114_221320";
     fault := Some "database is locked" |}.

(** The completion service is down; the store works. *)
Definition env_offline : Env :=
  {| store := store_ok; create := fun _ _ => Failure;
     uuid4 := "3f2b8c1e-5d47-4a90-b6e1-0c9d8a7f6e55";
     isoformat_now := "2023-11-14T22:13:20.000000" |}.

(** The completion service answers [text]; the store works. *)
Definition env_online (text : string) : Env :=
  {| store := store_ok; create := fun _ _ => Content (Some text);
     uuid4 := "3f2b8c1e-5d47-4a90-b6e1-0c9d8a7f6e55";
     isoformat_now := "2023-11-14T22:13:20.000000" |}.

(** The completion service answers [text]; the store is locked. *)
Definition env_store_locked (text : string) : Env :=
  {| store := store_locked; create := fun _ _ => Content (Some text);
     uuid4 := "3f2b8c1e-5d47-4a90-b6e1-0c9d8a7f6e55";
     isoformat_now := "2023-11-14T22:13:20.000000" |}.

(** Every store call of a view works. *)
Definition view_env_ok : Views.Env :=
  {| Views.store_at := fun _ => store_ok;
     Views.isoformat_now := "2023-11-14T22:13:20.000000" |}.

(** The store is locked at call number [k] of a view; it works before
    and after. *)
Definition view_env_locked_at (k : nat) : Views.Env :=
  {| Views.store_at := fun n => if Nat.eqb n k then store_locked else store_ok;
     Views.isoformat_now := "2023-11-14T22:13:20.000000" |}.

(** The store a week after [store_ok]. *)
Definition store_week_later : StoreEnv :=
  {| now := 1700604800; strftime_now := "20231121_221320"; fault := None |}.

(** The store that a gateway call leaves: the new one when it returned,
    the old one when it raised. *)
Definition after {A : Type} (r : exc (A * DB)) (d : DB) : DB :=
  match r with
  | Ok (_, d') => d'
  | Raise _ => d
  end.

(** A mood logged at the time of [store_ok]. *)
Definition db_one_mood : DB :=
  after (log_mood store_ok "happy" ":)" 8 "test" (init_database None))
        (init_database None).

(** And a second mood, logged a week later. *)
Definition db_two_moods : DB :=
  after (log_mood store_week_later "calm" ":]" 6 "" db_one_mood) db_one_mood.

(** Three happy moods and two sad ones, logged at the time of
    [store_ok]. *)
Definition db_five_moods : DB :=
  fold_left
    (fun d m => after (log_mood store_ok (fst m) (fst (snd m)) (snd (snd m)) "" d) d)
    [("happy", (":)", 9%Z)); ("sad", (":(", 2%Z)); ("happy", (":)", 7%Z));
     ("happy", (":)", 8%Z)); ("sad", (":(", 3%Z))]%list
    (init_database None).

(** The average of a statistics result. *)
Definition fmap_avg (r : exc mood_statistics) : option pynum :=
  match r with
  | Ok s => Some (avg_intensity s)
  | Raise _ => None
  end.

(** U+00A0 NO-BREAK SPACE, U+2003 EM SPACE and U+212A KELVIN SIGN in
    UTF-8. *)
Definition nbsp : string := String "194" (String "160" "").
Definition em_space : string := String "226" (String "128" (String "131" "")).
Definition kelvin_sign : string :=
  String "226" (String "132" (String "170" "")).

(** Moods with the given intensities, logged a week after [store_ok]. *)
Definition db_intensities (xs : list Z) : DB :=
  fold_left
    (fun d x => after (log_mood store_week_later "mood" ":|" x "" d) d)
    xs (init_database None).

(** Seventeen moods of intensity 1 and three of intensity 2: their mean
    is 1.15, which no float is. *)
Definition db_tie : DB :=
  db_intensities (repeat 1%Z 17 ++ repeat 2%Z 3)%list.

(** A store with a theme and a name, written at the time of [store_ok]. *)
Definition db_two_settings : DB :=
  after (update_user_setting store_ok "name" "Sam"
           (after (update_user_setting store_ok "theme" "light"
                     (init_database None)) (init_database None)))
        (init_database None).

End Samples.

(* ===================================================================== *)
(** * Facts about strings *)
(* ===================================================================== *)

Module PyStrFacts.

Import PyStr Spec.

Lemma append_assoc (a b c : string) : (a ++ b) ++ c = a ++ b ++ c.
Proof. induction a as [|x a IH]; simpl; [reflexivity | now rewrite IH]. Qed.

Lemma append_nil_r (a : string) : a ++ "" = a.
Proof. induction a as [|x a IH]; simpl; [reflexivity | now rewrite IH]. Qed.

Lemma truthy_append_r (a b : string) : truthy b = true -> truthy (a ++ b) = true.
Proof. destruct a; simpl; auto. Qed.

Lemma truthy_true (s : string) : truthy s = true <-> s <> "".
Proof. destruct s; simpl; split; intro H; auto; try discriminate; congruence. Qed.

(** Induction on the length of a string: [lower] and [lstrip] step over
    one, two or three bytes. *)
Lemma string_length_ind (P : string -> Prop) :
  (forall s, (forall t, (String.length t < String.length s)%nat -> P t) -> P s) ->
  forall s, P s.
Proof.
  intros H s.
  assert (G : forall n t, (String.length t < n)%nat -> P t).
  { induction n as [|n IH]; intros t Ht; [lia|].
    apply H. intros u Hu. apply IH. lia. }
  apply (G (S (String.length s))). lia.
Qed.

(** ** Bytes *)

(** The tests on bytes are turned into arithmetic on their codes. *)
Ltac bytes :=
  unfold keyword, solid, leads_space, continues_space, is_ascii,
    is_space, is_space2, is_space3, is_upper, byte_is in *;
  cbv zeta in *;
  try match goal with
  | |- ?b = true => destruct b eqn:?; [reflexivity | exfalso]
  | |- ?b = false => destruct b eqn:?; [exfalso | reflexivity]
  end;
  repeat match goal with
  | H : _ = true |- _ =>
      first [ apply andb_true_iff in H | apply orb_true_iff in H
            | apply negb_true_iff in H | apply Nat.eqb_eq in H
            | apply Nat.leb_le in H | apply Nat.ltb_lt in H ]
  | H : _ = false |- _ =>
      first [ apply andb_false_iff in H | apply orb_false_iff in H
            | apply negb_false_iff in H | apply Nat.eqb_neq in H
            | apply Nat.leb_gt in H | apply Nat.ltb_ge in H ]
  | H : _ /\ _ |- _ => destruct H
  | H : _ \/ _ |- _ => destruct H
  end;
  try lia.

Lemma nat_of_lower_char (c : ascii) :
  nat_of_ascii (lower_char c) =
  if is_upper c then (nat_of_ascii c + 32)%nat else nat_of_ascii c.
Proof.
  unfold lower_char. destruct (is_upper c) eqn:E; [|reflexivity].
  apply nat_ascii_embedding. bytes.
Qed.

Lemma is_ascii_lower_char (c : ascii) : is_ascii (lower_char c) = is_ascii c.
Proof.
  unfold is_ascii. rewrite nat_of_lower_char.
  destruct (is_upper c) eqn:E; [|reflexivity].
  assert (H1 : (nat_of_ascii c <? 128)%nat = true) by bytes.
  assert (H2 : (nat_of_ascii c + 32 <? 128)%nat = true) by bytes.
  congruence.
Qed.

Lemma is_space_lower_char (c : ascii) : is_space (lower_char c) = is_space c.
Proof.
  unfold is_space. cbv zeta. rewrite nat_of_lower_char.
  destruct (is_upper c) eqn:E; [|reflexivity].
  assert (65 <= nat_of_ascii c <= 90)%nat by bytes.
  repeat match goal with
  | |- context [(?a <=? ?b)%nat] =>
      let L := fresh in destruct (Nat.leb_spec a b) as [L|L]
  end; try reflexivity; lia.
Qed.

Lemma is_ascii_solid (c : ascii) :
  is_ascii c = true -> solid c = negb (is_space c).
Proof.
  intro H. unfold solid. f_equal.
  assert (L : leads_space c = false) by bytes.
  assert (C : continues_space c = false).
  { bytes. }
  now rewrite L, C, !orb_false_r.
Qed.

(** ** Substring test *)

Lemma prefix_append (n post : string) : prefix n (n ++ post) = true.
Proof.
  induction n as [|c n IH]; simpl.
  - destruct post; reflexivity.
  - destruct (ascii_dec c c); [assumption | congruence].
Qed.

Lemma prefix_split (n h : string) :
  prefix n h = true -> exists post, h = n ++ post.
Proof.
  revert h; induction n as [|c n IH]; intros h H.
  - exists h; reflexivity.
  - destruct h as [|d h]; simpl in H; [discriminate|].
    destruct (ascii_dec c d) as [->|]; [|discriminate].
    destruct (IH _ H) as [post ->]. exists post; reflexivity.
Qed.

Lemma prefix_cons (x : ascii) (k : string) (c : ascii) (h : string) :
  prefix (String x k) (String c h) = true -> x = c /\ prefix k h = true.
Proof.
  simpl. destruct (ascii_dec x c); [auto | discriminate].
Qed.

Lemma contains_prefix (n h : string) :
  prefix n h = true -> contains n h = true.
Proof. intro H. destruct h; cbn [contains]; rewrite H; reflexivity. Qed.

Lemma contains_cons (n : string) (c : ascii) (h : string) :
  contains n (String c h) = true ->
  prefix n (String c h) = true \/ contains n h = true.
Proof. cbn [contains]. intro H. now apply orb_true_iff in H. Qed.

Lemma contains_intro (pre n post : string) :
  contains n (pre ++ n ++ post) = true.
Proof.
  induction pre as [|c pre IH]; simpl.
  - apply contains_prefix, prefix_append.
  - rewrite IH. apply orb_true_r.
Qed.

Lemma contains_split (n h : string) :
  contains n h = true -> exists pre post, h = pre ++ n ++ post.
Proof.
  induction h as [|c h IH]; cbn [contains]; intro H.
  - rewrite orb_false_r in H. destruct (prefix_split _ _ H) as [post E].
    exists "", post; exact E.
  - apply orb_true_iff in H as [H|H].
    + destruct (prefix_split _ _ H) as [post E]. exists "", post; exact E.
    + destruct (IH H) as (pre & post & ->). exists (String c pre), post.
      reflexivity.
Qed.

Lemma contains_spec (n h : string) :
  contains n h = true <-> exists pre post, h = pre ++ n ++ post.
Proof.
  split; [apply contains_split|].
  intros (pre & post & ->). apply contains_intro.
Qed.

(** ** [lower] *)

(** The four steps of [lower]. *)
Lemma lower_cases (s : string) :
  s = "" \/
  (exists c t, s = String c t /\
     lower s = String (lower_char c) (lower t)) \/
  (exists c1 c2 t, s = String c1 (String c2 t) /\
     byte_is c1 196 = true /\ byte_is c2 176 = true /\
     lower s = String "i" (String "204" (String "135" (lower t)))) \/
  (exists c1 c2 c3 t, s = String c1 (String c2 (String c3 t)) /\
     byte_is c1 226 = true /\ byte_is c2 132 = true /\
     byte_is c3 170 = true /\
     lower s = String "k" (lower t)).
Proof.
  destruct s as [|c1 [|c2 s2]]; [now left | right .. ].
  - left. exists c1, "". auto.
  - cbn [lower]. destruct (byte_is c1 196 && byte_is c2 176) eqn:E2.
    + right; left. apply andb_true_iff in E2 as [? ?].
      exists c1, c2, s2. auto.
    + destruct s2 as [|c3 s3].
      * left. exists c1, (String c2 ""). auto.
      * destruct (byte_is c1 226 && byte_is c2 132 && byte_is c3 170) eqn:E3.
        -- right; right. apply andb_true_iff in E3 as [E3 ?].
           apply andb_true_iff in E3 as [? ?].
           exists c1, c2, c3, s3. auto.
        -- left. exists c1, (String c2 (String c3 s3)). auto.
Qed.

Lemma lower_ascii (c : ascii) (s : string) :
  is_ascii c = true -> lower (String c s) = String (lower_char c) (lower s).
Proof.
  intro H.
  assert (E1 : byte_is c 196 = false) by bytes.
  assert (E2 : byte_is c 226 = false) by bytes.
  destruct s as [|c2 [|c3 s3]]; cbn [lower]; rewrite ?E1, ?E2; reflexivity.
Qed.

Lemma lower_kelvin (c1 c2 c3 : ascii) (s : string) :
  byte_is c1 226 = true -> byte_is c2 132 = true -> byte_is c3 170 = true ->
  lower (String c1 (String c2 (String c3 s))) = String "k" (lower s).
Proof.
  intros H1 H2 H3.
  assert (E1 : byte_is c1 196 = false) by bytes.
  cbn [lower]. now rewrite E1, H1, H2, H3.
Qed.

Lemma lower_nonempty (s : string) : s <> "" -> lower s <> "".
Proof.
  intro H. destruct (lower_cases s) as [E|[(c & t & _ & E)|[(c1 & c2 & t & _ & _ & _ & E)|(c1 & c2 & c3 & t & _ & _ & _ & _ & E)]]];
    [contradiction | rewrite E; discriminate ..].
Qed.

Lemma lower_app_in_step (pre x : string) :
  in_step x -> lower (pre ++ x) = lower pre ++ lower x.
Proof.
  intro Hx. destruct x as [|h t]; [now rewrite !append_nil_r|].
  destruct Hx as (H1 & H2 & H3).
  induction pre as [pre IH] using string_length_ind.
  destruct pre as [|c1 [|c2 [|c3 p3]]].
  - reflexivity.
  - change (String c1 "" ++ String h t) with (String c1 (String h t)).
    cbn [lower]. rewrite H3, andb_false_r.
    destruct t; [reflexivity|]. now rewrite H1, andb_false_r.
  - change (String c1 (String c2 "") ++ String h t)
      with (String c1 (String c2 "" ++ String h t)).
    assert (E : lower (String c2 "" ++ String h t)
                = lower (String c2 "") ++ lower (String h t))
      by (apply IH; simpl; lia).
    change (String c2 "" ++ String h t) with (String c2 (String h t)) in *.
    cbn [lower] in *.
    destruct (byte_is c1 196 && byte_is c2 176); [reflexivity|].
    rewrite H2, andb_false_r. cbn [append]. f_equal. exact E.
  - change (String c1 (String c2 (String c3 p3)) ++ String h t)
      with (String c1 (String c2 (String c3 (p3 ++ String h t)))).
    assert (E1 : lower (String c2 (String c3 p3) ++ String h t)
                 = lower (String c2 (String c3 p3)) ++ lower (String h t))
      by (apply IH; simpl; lia).
    assert (E2 : lower (String c3 p3 ++ String h t)
                 = lower (String c3 p3) ++ lower (String h t))
      by (apply IH; simpl; lia).
    assert (E3 : lower (p3 ++ String h t) = lower p3 ++ lower (String h t))
      by (apply IH; simpl; lia).
    change (String c2 (String c3 p3) ++ String h t)
      with (String c2 (String c3 (p3 ++ String h t))) in E1.
    change (String c3 p3 ++ String h t)
      with (String c3 (p3 ++ String h t)) in E2.
    change (lower (String c1 (String c2 (String c3 (p3 ++ String h t)))))
      with (if byte_is c1 196 && byte_is c2 176
            then String "i" (String "204" (String "135"
                   (lower (String c3 (p3 ++ String h t)))))
            else if byte_is c1 226 && byte_is c2 132 && byte_is c3 170
                 then String "k" (lower (p3 ++ String h t))
                 else String (lower_char c1)
                        (lower (String c2 (String c3 (p3 ++ String h t))))).
    change (lower (String c1 (String c2 (String c3 p3))))
      with (if byte_is c1 196 && byte_is c2 176
            then String "i" (String "204" (String "135"
                   (lower (String c3 p3))))
            else if byte_is c1 226 && byte_is c2 132 && byte_is c3 170
                 then String "k" (lower p3)
                 else String (lower_char c1)
                        (lower (String c2 (String c3 p3)))).
    rewrite E1, E2, E3.
    destruct (byte_is c1 196 && byte_is c2 176); [reflexivity|].
    destruct (byte_is c1 226 && byte_is c2 132 && byte_is c3 170);
      reflexivity.
Qed.

Lemma plain_lower_app (mid post : string) :
  plain mid -> lower (mid ++ post) = lower mid ++ lower post.
Proof.
  induction 1 as [|c s Hc _ IH|c1 c2 c3 s H1 H2 H3 _ IH]; cbn [append].
  - reflexivity.
  - now rewrite !lower_ascii, IH.
  - now rewrite !lower_kelvin, IH.
Qed.

Lemma plain_in_step (mid post : string) :
  plain mid -> mid <> "" -> in_step (mid ++ post).
Proof.
  intros [|c s Hc _|c1 c2 c3 s H1 H2 H3 _] Hne; [contradiction| |];
    cbn [append in_step]; repeat split; bytes.
Qed.

(** Text with an ASCII lowercase is plain. *)
Lemma lower_plain (k : string) :
  ascii_only k = true -> forall mid, lower mid = k -> plain mid.
Proof.
  induction k as [|x k IH]; intros Hk mid E.
  - destruct mid as [|c mid]; [constructor|].
    exfalso. revert E. apply lower_nonempty. discriminate.
  - cbn [ascii_only] in Hk. apply andb_true_iff in Hk as [Hx Hk].
    destruct (lower_cases mid) as [->|[(c & t & -> & L)|[(c1 & c2 & t & -> & _ & _ & L)|(c1 & c2 & c3 & t & -> & H1 & H2 & H3 & L)]]];
      try rewrite L in E; try discriminate.
    + injection E as <- E. rewrite is_ascii_lower_char in Hx.
      apply plain_ascii; auto.
    + injection E as _ E. subst k. discriminate.
    + injection E as _ E. apply plain_kelvin; auto.
Qed.

Lemma ends_with_tail (x y : ascii) (k : string) :
  ends_with x (String y k) = false -> k = "" \/ ends_with x k = false.
Proof. destruct k; simpl; auto. Qed.

(** An ASCII phrase at the head of [lower s] is the lowercase of a head
    of [s]. *)
Lemma prefix_lower_split (k : string) :
  ascii_only k = true -> ends_with "i" k = false ->
  forall s, prefix k (lower s) = true ->
  exists mid post, s = mid ++ post /\ lower mid = k.
Proof.
  induction k as [|x k IH]; intros Hk Hi s H.
  - exists "", s. auto.
  - cbn [ascii_only] in Hk. apply andb_true_iff in Hk as [Hx Hk].
    assert (IH' : forall t, prefix k (lower t) = true ->
                  exists mid post, t = mid ++ post /\ lower mid = k).
    { intros t Ht. destruct (ends_with_tail _ _ _ Hi) as [->|Hi'].
      - exists "", t. auto.
      - now apply IH. }
    destruct (lower_cases s) as [->|[(c & t & -> & L)|[(c1 & c2 & t & -> & _ & _ & L)|(c1 & c2 & c3 & t & -> & H1 & H2 & H3 & L)]]];
      try (rewrite L in H; clear L).
    + discriminate.
    + apply prefix_cons in H as [-> H]. rewrite is_ascii_lower_char in Hx.
      destruct (IH' _ H) as (mid & post & -> & E).
      exists (String c mid), post. split; [reflexivity|].
      now rewrite lower_ascii, E.
    + apply prefix_cons in H as [-> H]. destruct k as [|y k].
      * discriminate.
      * apply prefix_cons in H as [-> _]. discriminate.
    + apply prefix_cons in H as [-> H].
      destruct (IH' _ H) as (mid & post & -> & E).
      exists (String c1 (String c2 (String c3 mid))), post.
      split; [reflexivity|]. now rewrite lower_kelvin, E.
Qed.

Lemma occurs_ci_cons (k : string) (c : ascii) (s : string) :
  occurs_ci k s -> occurs_ci k (String c s).
Proof.
  intros (pre & mid & post & -> & E). exists (String c pre), mid, post. auto.
Qed.

Lemma contains_lower_split (k : string) :
  ascii_only k = true -> ends_with "i" k = false ->
  forall s, contains k (lower s) = true -> occurs_ci k s.
Proof.
  intros Hk Hi s. induction s as [s IH] using string_length_ind.
  destruct k as [|x k].
  { intros _. exists "", "", s. auto. }
  assert (Hx : is_ascii x = true).
  { cbn [ascii_only] in Hk. now apply andb_true_iff in Hk as [? _]. }
  assert (Hp : prefix (String x k) (lower s) = true -> occurs_ci (String x k) s).
  { intro H. destruct (prefix_lower_split _ Hk Hi _ H) as (mid & post & E & L).
    exists "", mid, post. auto. }
  intro H.
  destruct (lower_cases s) as [->|[(c & t & -> & L)|[(c1 & c2 & t & -> & _ & _ & L)|(c1 & c2 & c3 & t & -> & H1 & H2 & H3 & L)]]].
  - discriminate.
  - rewrite L in H, Hp. apply contains_cons in H as [H|H]; [now apply Hp|].
    apply occurs_ci_cons, IH; [simpl; lia | exact H].
  - rewrite L in H, Hp. apply contains_cons in H as [H|H]; [now apply Hp|].
    apply contains_cons in H as [H|H].
    { apply prefix_cons in H as [-> _]. discriminate. }
    apply contains_cons in H as [H|H].
    { apply prefix_cons in H as [-> _]. discriminate. }
    apply occurs_ci_cons, occurs_ci_cons, IH; [simpl; lia | exact H].
  - rewrite L in H, Hp. apply contains_cons in H as [H|H]; [now apply Hp|].
    apply occurs_ci_cons, occurs_ci_cons, occurs_ci_cons, IH;
      [simpl; lia | exact H].
Qed.

(** The test the code runs, [k in text.lower()], is an occurrence of the
    keyword [k] in [text] up to case. *)
Lemma contains_lower_iff (k text : string) :
  keyword k = true ->
  contains k (lower text) = true <-> occurs_ci k text.
Proof.
  intro K. unfold keyword in K.
  apply andb_true_iff in K as [K Hi]. apply andb_true_iff in K as [K _].
  apply andb_true_iff in K as [Hk Hs]. apply negb_true_iff in Hi.
  split; [now apply contains_lower_split|].
  intros (pre & mid & post & -> & E).
  assert (P : plain mid) by exact (lower_plain k Hk mid E).
  assert (Hne : mid <> "").
  { intros ->. subst k. discriminate. }
  rewrite lower_app_in_step by now apply plain_in_step.
  rewrite plain_lower_app, E by exact P.
  apply contains_intro.
Qed.

(** ** [lstrip] *)

(** The steps of [lstrip]: it stops, or it drops a whitespace character
    of one, two or three bytes. *)
Lemma lstrip_cases (s : string) :
  lstrip s = s \/
  (exists c t, s = String c t /\ is_space c = true /\ lstrip s = lstrip t) \/
  (exists c1 c2 t, s = String c1 (String c2 t) /\
     is_space2 c1 c2 = true /\ lstrip s = lstrip t) \/
  (exists c1 c2 c3 t, s = String c1 (String c2 (String c3 t)) /\
     is_space3 c1 c2 c3 = true /\ lstrip s = lstrip t).
Proof.
  destruct s as [|c1 s1]; [now left|].
  cbn [lstrip]. destruct (is_space c1) eqn:E1.
  { right; left. exists c1, s1. auto. }
  destruct s1 as [|c2 s2]; [now left|].
  destruct (is_space2 c1 c2) eqn:E2.
  { right; right; left. exists c1, c2, s2. auto. }
  destruct s2 as [|c3 s3]; [now left|].
  destruct (is_space3 c1 c2 c3) eqn:E3.
  { right; right; right. exists c1, c2, c3, s3. auto. }
  now left.
Qed.

Lemma lstrip_suffix (s : string) : exists a, s = a ++ lstrip s.
Proof.
  induction s as [s IH] using string_length_ind.
  destruct (lstrip_cases s) as [E|[(c & t & -> & _ & E)|[(c1 & c2 & t & -> & _ & E)|(c1 & c2 & c3 & t & -> & _ & E)]]];
    rewrite E.
  - exists "". reflexivity.
  - destruct (IH t) as [a Ha]; [simpl; lia|].
    exists (String c a). simpl. now rewrite <- Ha.
  - destruct (IH t) as [a Ha]; [simpl; lia|].
    exists (String c1 (String c2 a)). simpl. now rewrite <- Ha.
  - destruct (IH t) as [a Ha]; [simpl; lia|].
    exists (String c1 (String c2 (String c3 a))). simpl. now rewrite <- Ha.
Qed.

(** [lstrip] drops no solid byte. *)
Lemma has_solid_lstrip (s : string) : has_solid (lstrip s) = has_solid s.
Proof.
  induction s as [s IH] using string_length_ind.
  destruct (lstrip_cases s) as [E|[(c & t & -> & S1 & E)|[(c1 & c2 & t & -> & S2 & E)|(c1 & c2 & c3 & t & -> & S3 & E)]]];
    rewrite E; [reflexivity | rewrite IH by (simpl; lia); cbn [has_solid] ..].
  - assert (solid c = false) as -> by bytes. reflexivity.
  - assert (solid c1 = false) as -> by bytes.
    assert (solid c2 = false) as -> by bytes. reflexivity.
  - assert (solid c1 = false) as -> by bytes.
    assert (solid c2 = false) as -> by bytes.
    assert (solid c3 = false) as -> by bytes. reflexivity.
Qed.

Lemma has_solid_not_blank (s : string) : has_solid s = true -> blank s = false.
Proof.
  intro H. rewrite <- has_solid_lstrip in H. unfold blank.
  destruct (lstrip s); [discriminate | reflexivity].
Qed.

Lemma has_solid_app_r (a b : string) :
  has_solid b = true -> has_solid (a ++ b) = true.
Proof.
  intro H. induction a as [|c a IH]; simpl; [exact H|].
  rewrite IH. apply orb_true_r.
Qed.

Lemma ends_solid_has_solid (n post : string) :
  ends_solid n = true -> has_solid (n ++ post) = true.
Proof.
  induction n as [|c n IH]; intro H; [discriminate|].
  destruct n as [|d n].
  - simpl in *. now rewrite H.
  - change (has_solid (String c (String d n ++ post)) = true).
    cbn [has_solid]. rewrite (IH H). apply orb_true_r.
Qed.

Lemma stops_lstrip_fixed (x : string) : stops_lstrip x -> lstrip x = x.
Proof.
  destruct x as [|h t]; [contradiction|]. intros (H1 & H2 & H3).
  cbn [lstrip]. rewrite H1.
  destruct t as [|h2 t2]; [reflexivity|].
  destruct (is_space2 h h2) eqn:E2.
  { exfalso. assert (L : leads_space h = true) by bytes.
    destruct (H3 L) as [? _]. bytes. }
  destruct t2 as [|h3 t3]; [reflexivity|].
  destruct (is_space3 h h2 h3) eqn:E3; [|reflexivity].
  exfalso. assert (L : leads_space h = true) by bytes.
  destruct (H3 L) as [? ?]. bytes.
Qed.

Lemma lstrip_keeps (pre x : string) :
  stops_lstrip x -> exists pre', lstrip (pre ++ x) = pre' ++ x.
Proof.
  intro Hx. pose proof (stops_lstrip_fixed x Hx) as Hfix.
  destruct x as [|h t]; [contradiction|]. destruct Hx as (H1 & H2 & _).
  induction pre as [pre IH] using string_length_ind.
  destruct pre as [|c1 [|c2 [|c3 p3]]].
  - exists "". exact Hfix.
  - change (String c1 "" ++ String h t) with (String c1 (String h t)).
    cbn [lstrip]. destruct (is_space c1).
    { exists "". exact Hfix. }
    assert (E2 : is_space2 c1 h = false) by bytes. rewrite E2.
    destruct t as [|h3 t3]; [now exists (String c1 "")|].
    assert (E3 : is_space3 c1 h h3 = false) by bytes. rewrite E3.
    now exists (String c1 "").
  - change (String c1 (String c2 "") ++ String h t)
      with (String c1 (String c2 (String h t))).
    cbn [lstrip]. destruct (is_space c1).
    { apply (IH (String c2 "")). simpl; lia. }
    destruct (is_space2 c1 c2).
    { exists "". exact Hfix. }
    assert (E3 : is_space3 c1 c2 h = false) by bytes. rewrite E3.
    now exists (String c1 (String c2 "")).
  - change (String c1 (String c2 (String c3 p3)) ++ String h t)
      with (String c1 (String c2 (String c3 (p3 ++ String h t)))).
    cbn [lstrip]. destruct (is_space c1).
    { apply (IH (String c2 (String c3 p3))). simpl; lia. }
    destruct (is_space2 c1 c2).
    { apply (IH (String c3 p3)). simpl; lia. }
    destruct (is_space3 c1 c2 c3).
    { apply (IH p3). simpl; lia. }
    now exists (String c1 (String c2 (String c3 p3))).
Qed.

(** ** [rstrip] *)

Lemma rstrip_prefix (s : string) : exists b, s = rstrip s ++ b.
Proof.
  induction s as [|c s [b IH]]; cbn [rstrip].
  - exists "". reflexivity.
  - destruct (blank (String c s)).
    + exists (String c s). reflexivity.
    + exists b. simpl. now rewrite <- IH.
Qed.

Lemma rstrip_app (a b : string) :
  has_solid b = true -> rstrip (a ++ b) = a ++ rstrip b.
Proof.
  intro Hb. induction a as [|c a IH]; [reflexivity|].
  change (String c a ++ b) with (String c (a ++ b)). cbn [rstrip].
  rewrite has_solid_not_blank.
  - now rewrite IH.
  - apply (has_solid_app_r (String c a)), Hb.
Qed.

Lemma rstrip_keeps (n post : string) :
  ends_solid n = true -> rstrip (n ++ post) = n ++ rstrip post.
Proof.
  induction n as [|c n IH]; intro Hn; [discriminate|].
  change (String c n ++ post) with (String c (n ++ post)). cbn [rstrip].
  rewrite (has_solid_not_blank (String c (n ++ post)))
    by exact (ends_solid_has_solid (String c n) post Hn).
  destruct n as [|d n]; [reflexivity|].
  now rewrite IH.
Qed.

(** ** [strip] keeps the occurrences of a keyword *)

Lemma plain_stops_lstrip (mid post : string) :
  plain mid -> starts_nonspace (lower mid) = true ->
  stops_lstrip (mid ++ post).
Proof.
  intros [|c s Hc _|c1 c2 c3 s H1 H2 H3 _] Hs.
  - discriminate.
  - rewrite lower_ascii in Hs by exact Hc. cbn [starts_nonspace] in Hs.
    rewrite is_space_lower_char in Hs. cbn [append stops_lstrip].
    repeat split; try (intro L; exfalso); bytes.
  - cbn [append stops_lstrip]. repeat split; bytes.
Qed.

Lemma plain_ends_solid (mid : string) :
  plain mid -> ends_nonspace (lower mid) = true -> ends_solid mid = true.
Proof.
  induction 1 as [|c s Hc P IH|c1 c2 c3 s H1 H2 H3 P IH]; intro He.
  - discriminate.
  - rewrite lower_ascii in He by exact Hc.
    destruct s as [|d s].
    + cbn in He. rewrite is_space_lower_char in He.
      cbn. now rewrite is_ascii_solid.
    + assert (N : lower (String d s) <> "") by (apply lower_nonempty; discriminate).
      destruct (lower (String d s)) as [|y l] eqn:E; [contradiction|].
      apply IH. exact He.
  - rewrite lower_kelvin in He by assumption.
    destruct s as [|d s].
    + cbn. bytes.
    + assert (N : lower (String d s) <> "") by (apply lower_nonempty; discriminate).
      destruct (lower (String d s)) as [|y l] eqn:E; [contradiction|].
      apply IH. exact He.
Qed.

(** A keyword that occurs in [text] up to case occurs in [strip text] as
    well. *)
Lemma occurs_ci_strip (k text : string) :
  keyword k = true -> occurs_ci k text -> occurs_ci k (strip text).
Proof.
  intros K (pre & mid & post & -> & E). unfold keyword in K.
  apply andb_true_iff in K as [K _]. apply andb_true_iff in K as [K He].
  apply andb_true_iff in K as [Hk Hs].
  assert (P : plain mid) by exact (lower_plain k Hk mid E).
  rewrite <- E in Hs, He.
  pose proof (plain_ends_solid mid P He) as Hsolid.
  destruct (lstrip_keeps pre (mid ++ post) (plain_stops_lstrip mid post P Hs))
    as [pre' L].
  exists pre', mid, (rstrip post). split; [|exact E].
  unfold strip. rewrite L.
  rewrite rstrip_app by now apply ends_solid_has_solid.
  now rewrite rstrip_keeps.
Qed.

(** ** [strip] cuts a piece out of its argument *)

Lemma strip_infix (s : string) : exists a b, s = a ++ strip s ++ b.
Proof.
  unfold strip. destruct (lstrip_suffix s) as [a Ha].
  destruct (rstrip_prefix (lstrip s)) as [b Hb].
  exists a, b. now rewrite <- Hb.
Qed.

Lemma occurs_ci_of_strip (k text : string) :
  occurs_ci k (strip text) -> occurs_ci k text.
Proof.
  intros (pre & mid & post & H & Hk).
  destruct (strip_infix text) as (a & b & E).
  exists (a ++ pre), mid, (post ++ b). split; [|exact Hk].
  rewrite E at 1. rewrite H. now rewrite !append_assoc.
Qed.

(** ** What [strip] leaves *)

(** A text of whitespace only is stripped to the empty string, and only
    such a text is. *)
Lemma strip_empty_iff (s : string) : strip s = "" <-> blank s = true.
Proof.
  unfold strip, blank. destruct (lstrip s) as [|c t] eqn:E.
  - split; reflexivity.
  - split; [|discriminate]. cbn [rstrip]. unfold blank.
    assert (F : lstrip (String c t) = String c t).
    { rewrite <- E. clear E c t.
      induction s as [s IH] using string_length_ind.
      destruct (lstrip_cases s) as [E|[(c & t & -> & _ & E)|[(c1 & c2 & t & -> & _ & E)|(c1 & c2 & c3 & t & -> & _ & E)]]];
        rewrite E; [now rewrite E | apply IH; simpl; lia ..]. }
    rewrite F. discriminate.
Qed.

End PyStrFacts.

(* ===================================================================== *)
(** * Facts about the store *)
(* ===================================================================== *)

Module DatabaseFacts.

Import Database.
Local Open Scope Z_scope.
Local Open Scope list_scope.

Section Tables.

Context {R : Type}.
Implicit Types (t : table R) (r : R) (i j : Z).

Lemma le_largest_rowid t j : In j (ids t) -> j <= largest_rowid t.
Proof.
  unfold largest_rowid. induction (ids t) as [|x l IH]; simpl; [tauto|].
  intros [->|H]; [|specialize (IH H)]; lia.
Qed.

(** A new rowid is larger than every rowid in the table and than the
    sequence counter. *)
Lemma new_rowid_fresh t i :
  new_rowid t = Ok i ->
  seq t < i /\ Forall (fun j => j < i) (ids t).
Proof.
  unfold new_rowid. destruct (max_rowid <? _); [discriminate|].
  intros [= <-]. split; [lia|].
  apply Forall_forall. intros j Hj. apply le_largest_rowid in Hj. lia.
Qed.

Lemma insert_into_Ok t r i t' :
  insert_into t r = Ok (i, t') ->
  t' = {| rows := rows t ++ [(i, r)]; seq := i |} /\
  Forall (fun j => j < i) (ids t).
Proof.
  unfold insert_into, bind. destruct (new_rowid t) as [k|] eqn:E; [|discriminate].
  intros [= <- <-]. split; [reflexivity|]. apply (new_rowid_fresh _ _ E).
Qed.

Lemma ids_insert_into t r i t' :
  insert_into t r = Ok (i, t') ->
  ids t' = ids t ++ [i] /\ Forall (fun j => j < i) (ids t).
Proof.
  intro H. apply insert_into_Ok in H as [-> H]. split; [|exact H].
  unfold ids; simpl. now rewrite map_app.
Qed.

End Tables.

Lemma sorted_snoc (l : list Z) (i : Z) :
  StronglySorted Z.lt l -> Forall (fun j => j < i) l ->
  StronglySorted Z.lt (l ++ [i]).
Proof.
  induction 1 as [|x l Hs IH Hx]; intro Hi; simpl.
  - repeat constructor.
  - inversion Hi; subst. constructor; [auto|].
    apply Forall_app. split; [assumption | repeat constructor; assumption].
Qed.

(** ** The four writers append one row to their own table *)

Ltac writer H :=
  unfold log_mood, save_journal_entry, log_chat_conversation,
    log_breathing_session, connect, bind_int, bind in H;
  destruct (fault _); [discriminate|];
  repeat match type of H with
  | context [if ?c then Ok _ else Raise _] => destruct c; [|discriminate]
  end;
  match type of H with
  | context [insert_into ?t ?r] =>
      let E := fresh "E" in
      destruct (insert_into t r) as [[? ?]|] eqn:E; [|discriminate];
      injection H as <- <-; apply ids_insert_into in E as [? ?]
  end.

Lemma log_mood_Ok e a b n s d i d' :
  log_mood e a b n s d = Ok (i, d') ->
  ids (moods d') = ids (moods d) ++ [i] /\
  Forall (fun j => j < i) (ids (moods d)) /\
  journal_entries d' = journal_entries d /\
  chat_conversations d' = chat_conversations d /\
  breathing_sessions d' = breathing_sessions d /\
  user_settings d' = user_settings d.
Proof. intro H. writer H. simpl. auto 10. Qed.

(** The row that [log_mood] stores; its intensity fits 64 bits. *)
Lemma log_mood_row e a b n s d i d' :
  log_mood e a b n s d = Ok (i, d') ->
  bind_int n = Ok n /\
  rows (moods d') =
  rows (moods d) ++
  [(i, {| mood_type := a; mood_emoji := b; intensity := n; notes := s;
          mood_timestamp := now e |})].
Proof.
  unfold log_mood, connect, bind. destruct (fault e); [discriminate|].
  unfold bind_int at 1.
  destruct (_ && _) eqn:B; [|discriminate].
  destruct (insert_into _ _) as [[k t]|] eqn:E; [|discriminate].
  intros [= <- <-]. apply insert_into_Ok in E as [-> _].
  split; [|reflexivity]. unfold bind_int. now rewrite B.
Qed.

(** An intensity that does not fit 64 bits is not stored. *)
Lemma log_mood_overflow e a b n s d :
  fault e = None ->
  n < - 2 ^ 63 \/ 2 ^ 63 <= n ->
  log_mood e a b n s d =
  Raise "Python int too large to convert to SQLite INTEGER".
Proof.
  intros He Hn. unfold log_mood, connect, bind, bind_int, max_rowid.
  rewrite He. change (2 ^ 63) with 9223372036854775808 in Hn.
  destruct (Z.leb_spec (-9223372036854775808) n);
    destruct (Z.leb_spec n 9223372036854775807); cbn [andb];
    try reflexivity; lia.
Qed.

Lemma save_journal_entry_Ok e a b c t d i d' :
  save_journal_entry e a b c t d = Ok (i, d') ->
  ids (journal_entries d') = ids (journal_entries d) ++ [i] /\
  Forall (fun j => j < i) (ids (journal_entries d)) /\
  moods d' = moods d /\
  chat_conversations d' = chat_conversations d /\
  breathing_sessions d' = breathing_sessions d /\
  user_settings d' = user_settings d.
Proof. intro H. writer H. simpl. auto 10. Qed.

Lemma log_breathing_session_Ok e a b c d i d' :
  log_breathing_session e a b c d = Ok (i, d') ->
  ids (breathing_sessions d') = ids (breathing_sessions d) ++ [i] /\
  Forall (fun j => j < i) (ids (breathing_sessions d)) /\
  moods d' = moods d /\
  journal_entries d' = journal_entries d /\
  chat_conversations d' = chat_conversations d /\
  user_settings d' = user_settings d.
Proof. intro H. writer H. simpl. auto 10. Qed.

Lemma log_chat_conversation_Ok e m a c d i d' :
  log_chat_conversation e m a c d = Ok (i, d') ->
  ids (chat_conversations d') = ids (chat_conversations d) ++ [i] /\
  Forall (fun j => j < i) (ids (chat_conversations d)) /\
  moods d' = moods d /\
  journal_entries d' = journal_entries d /\
  breathing_sessions d' = breathing_sessions d /\
  user_settings d' = user_settings d.
Proof. intro H. writer H. simpl. auto 10. Qed.

(** The row that [log_chat_conversation] stores. *)
Lemma log_chat_conversation_row e m a c d i d' :
  log_chat_conversation e m a c d = Ok (i, d') ->
  rows (chat_conversations d') =
  rows (chat_conversations d) ++
    [(i, {| user_message := m; ai_response := a;
            conversation_id := conversation_id_or_default e c;
            chat_timestamp := now e |})].
Proof.
  unfold log_chat_conversation, connect, bind. destruct (fault e); [discriminate|].
  destruct (insert_into _ _) as [[k t]|] eqn:E; [|discriminate].
  intros [= <- <-]. apply insert_into_Ok in E as [-> _]. reflexivity.
Qed.

(** ** Settings *)

Lemma find_replaced {A : Type} (p q : A -> bool) (l : list A) (x : A) :
  (forall y, p y = true -> q y = true) -> p x = true ->
  find p (filter (fun y => negb (q y)) l ++ [x]) = Some x.
Proof.
  intros Hpq Hx. induction l as [|y l IH]; simpl.
  - now rewrite Hx.
  - destruct (q y) eqn:Hq; simpl; [exact IH|].
    destruct (p y) eqn:Hp; [|exact IH].
    apply Hpq in Hp. congruence.
Qed.

Lemma update_user_setting_Ok e k v d u d' :
  update_user_setting e k v d = Ok (u, d') ->
  exists i,
    rows (user_settings d') =
    filter (fun ir => negb (String.eqb k (setting_key (snd ir))))
           (rows (user_settings d))
    ++ [(i, {| setting_key := k; setting_value := v; updated_at := now e |})].
Proof.
  unfold update_user_setting, insert_or_replace, connect, bind.
  destruct (fault e); [discriminate|].
  destruct (new_rowid _) as [i|]; [|discriminate].
  intros [= <- <-]. exists i. reflexivity.
Qed.

(** After a write that returned, its key reads as written. *)
Lemma get_after_update e e' k v d0 d u d' :
  update_user_setting e k v d = Ok (u, d') -> fault e' = None ->
  get_user_setting e' k d0 d' = Ok v.
Proof.
  intros H He'. apply update_user_setting_Ok in H as [i H].
  unfold get_user_setting, connect, bind. rewrite He', H.
  rewrite (find_replaced _ (fun ir => String.eqb k (setting_key (snd ir)))).
  - reflexivity.
  - intros y Hy. now rewrite String.eqb_sym.
  - simpl. apply String.eqb_refl.
Qed.

(** A write to another key leaves the rows of [k] as they are. *)
Lemma rows_of_key_update e k' v d u d' k :
  update_user_setting e k' v d = Ok (u, d') -> k' <> k ->
  Spec.rows_of_key k d' = Spec.rows_of_key k d.
Proof.
  intros H Hk. apply update_user_setting_Ok in H as [i H].
  unfold Spec.rows_of_key. rewrite H, filter_app. simpl.
  apply String.eqb_neq in Hk. rewrite Hk, app_nil_r. clear H.
  induction (rows (user_settings d)) as [|y l IH]; simpl; [reflexivity|].
  destruct (String.eqb k' (setting_key (snd y))) eqn:E1; simpl.
  - apply String.eqb_eq in E1. rewrite <- E1, Hk. exact IH.
  - destruct (String.eqb (setting_key (snd y)) k); [f_equal|]; exact IH.
Qed.

Lemma rows_of_key_set_all writes k d :
  ~ In k (map (fun w => fst (snd w)) writes) ->
  Spec.rows_of_key k (Spec.set_all writes d) = Spec.rows_of_key k d.
Proof.
  revert d. induction writes as [|[e [k' v]] writes IH]; intros d Hk; [reflexivity|].
  simpl in Hk. unfold Spec.set_all in *. simpl.
  destruct (update_user_setting e k' v d) as [[u d']|] eqn:E.
  - rewrite IH by tauto. apply (rows_of_key_update _ _ _ _ _ _ _ E). tauto.
  - apply IH. tauto.
Qed.

Lemma get_unset e k d0 d :
  Spec.rows_of_key k d = [] -> fault e = None ->
  get_user_setting e k d0 d = Ok d0.
Proof.
  unfold Spec.rows_of_key, get_user_setting, connect, bind. intros H ->.
  induction (rows (user_settings d)) as [|y l IH]; simpl in *; [reflexivity|].
  destruct (String.eqb (setting_key (snd y)) k); [discriminate|]. auto.
Qed.

(** ** Statistics *)

(** [round_half_even] yields a nearest integer. *)
Lemma round_half_even_nearest (q : Q) :
  2 * Z.abs (round_half_even q * Zpos (Qden q) - Qnum q) <= Zpos (Qden q).
Proof.
  unfold round_half_even.
  pose proof (Z.div_mod (Qnum q) (Zpos (Qden q)) ltac:(lia)) as Hdm.
  pose proof (Z.mod_pos_bound (Qnum q) (Zpos (Qden q)) ltac:(lia)) as Hb.
  set (d := Zpos (Qden q)) in *. set (f := Qnum q / d) in *.
  set (r := Qnum q mod d) in *.
  destruct (2 * r ?= d) eqn:E;
    [apply Z.compare_eq in E | rewrite Z.compare_lt_iff in E
     | rewrite Z.compare_gt_iff in E];
    try destruct (Z.even f); nia.
Qed.

Lemma round_half_even_between (q : Q) (a b : Z) :
  a * Zpos (Qden q) <= Qnum q <= b * Zpos (Qden q) ->
  a <= round_half_even q <= b.
Proof.
  intros [Ha Hb]. unfold round_half_even.
  pose proof (Z.div_mod (Qnum q) (Zpos (Qden q)) ltac:(lia)) as Hdm.
  pose proof (Z.mod_pos_bound (Qnum q) (Zpos (Qden q)) ltac:(lia)) as Hr.
  set (dd := Zpos (Qden q)) in *. set (f := Qnum q / dd) in *.
  set (r := Qnum q mod dd) in *.
  assert (Hfa : a <= f) by nia.
  assert (Hfb : f <= b) by nia.
  destruct (2 * r ?= dd) eqn:E;
    [apply Z.compare_eq in E | rewrite Z.compare_lt_iff in E
     | rewrite Z.compare_gt_iff in E];
    try destruct (Z.even f); nia.
Qed.

(** A rational that is an integer is its own rounding. *)
Lemma round_half_even_integer (q : Q) (z : Z) :
  Qnum q = z * Zpos (Qden q) -> round_half_even q = z.
Proof.
  intro H. pose proof (round_half_even_between q z z) as B. lia.
Qed.

(** [exponent a b] is the exponent of [a / b]. *)
Lemma exponent_spec (a : Z) (b : positive) :
  0 < a ->
  let e := exponent a b in
  (0 <= e -> Zpos b * 2 ^ e <= a) /\
  (e < 0 -> Zpos b <= a * 2 ^ (- e)).
Proof.
  intro Ha. unfold exponent. cbv zeta.
  pose proof (Z.log2_spec a Ha) as [La Ua].
  pose proof (Z.log2_spec (Zpos b) ltac:(lia)) as [Lb Ub].
  pose proof (Z.log2_nonneg a) as Na.
  pose proof (Z.log2_nonneg (Zpos b)) as Nb.
  set (la := Z.log2 a) in *. set (lb := Z.log2 (Zpos b)) in *.
  rewrite Z.pow_succ_r in Ua, Ub by assumption.
  destruct (Z.ltb_spec (a * 2 ^ Z.max 0 (- (la - lb)))
                       (Zpos b * 2 ^ Z.max 0 (la - lb))) as [C|C].
  - (* e = la - lb - 1 *)
    split; intro He.
    + replace la with (lb + 1 + (la - lb - 1)) in La by lia.
      rewrite !Z.pow_add_r, Z.pow_1_r in La by lia.
      assert (0 < 2 ^ (la - lb - 1)) by (apply Z.pow_pos_nonneg; lia).
      nia.
    + replace (- (la - lb - 1)) with (lb - la + 1) by lia.
      assert (P : 2 ^ la * 2 ^ (lb - la + 1) = 2 * 2 ^ lb).
      { rewrite <- Z.pow_add_r by lia.
        replace (la + (lb - la + 1)) with (Z.succ lb) by lia.
        now rewrite Z.pow_succ_r by lia. }
      assert (0 < 2 ^ (lb - la + 1)) by (apply Z.pow_pos_nonneg; lia).
      nia.
  - split; intro He.
    + rewrite (Z.max_l 0 (- (la - lb))), (Z.max_r 0 (la - lb)) in C by lia.
      rewrite Z.pow_0_r in C. lia.
    + rewrite (Z.max_r 0 (- (la - lb))), (Z.max_l 0 (la - lb)) in C by lia.
      rewrite Z.pow_0_r in C. lia.
Qed.

Lemma Qred_factor (q : Q) :
  exists g, 0 < g /\ Qnum q = g * Qnum (Qred q) /\
            Zpos (Qden q) = g * Zpos (Qden (Qred q)).
Proof.
  destruct q as [n d]. unfold Qred.
  pose proof (Z.ggcd_correct_divisors n (Zpos d)) as H.
  pose proof (Z.ggcd_gcd n (Zpos d)) as G.
  pose proof (Z.gcd_nonneg n (Zpos d)) as N.
  destruct (Z.ggcd n (Zpos d)) as [g [aa bb]]. cbn [fst snd] in *.
  destruct H as [H1 H2]. exists g. cbn [Qnum Qden]. rewrite <- G in N.
  assert (0 < g) by (destruct (Z.eq_dec g 0) as [->|]; lia).
  assert (0 < bb) by nia.
  rewrite Z2Pos.id by assumption. auto.
Qed.

Lemma to_double_comp (p q : Q) : (p == q)%Q -> to_double p = to_double q.
Proof. intro H. unfold to_double. now rewrite (Qred_complete p q H). Qed.

Lemma to_double_zero (q : Q) : Qnum q = 0 -> to_double q = (0 # 1)%Q.
Proof.
  intro H. rewrite (to_double_comp q (0 # 1)%Q); [reflexivity|].
  unfold Qeq. cbn. lia.
Qed.


(** The significand and the scale of a rational in lowest terms that is
    not 0 and lies below [2 ^ 53] in magnitude. *)
Lemma to_double_core (q : Q) :
  Qnum q <> 0 -> Z.abs (Qnum q) < 9007199254740992 * Zpos (Qden q) ->
  let p := Qnum (Qred q) in
  let r := Qden (Qred q) in
  let s := 52 - exponent (Z.abs p) r in
  let m := round_half_even (Z.abs p * 2 ^ s # r) in
  p <> 0 /\ 0 <= s /\ Zpos r * 2 ^ 52 <= Z.abs p * 2 ^ s /\
  to_double q = Qred (Z.sgn p * m # Z.to_pos (2 ^ s)).
Proof.
  intros Hn Hb. cbv zeta.
  destruct (Qred_factor q) as (g & Hg & Hp & Hr).
  set (p := Qnum (Qred q)) in *. set (r := Qden (Qred q)) in *.
  assert (Hp0 : p <> 0) by nia.
  assert (Hpb : Z.abs p < 9007199254740992 * Zpos r).
  { rewrite Hp, Hr, Z.abs_mul, (Z.abs_eq g) in Hb by lia. nia. }
  pose proof (exponent_spec (Z.abs p) r ltac:(lia)) as [E1 E2].
  cbv zeta in E1, E2. set (e := exponent (Z.abs p) r) in *.
  assert (He : e <= 52).
  { destruct (Z.le_gt_cases e 52) as [|C]; [assumption|exfalso].
    specialize (E1 ltac:(lia)).
    assert (9007199254740992 <= 2 ^ e).
    { change 9007199254740992 with (2 ^ 53). apply Z.pow_le_mono_r; lia. }
    nia. }
  split; [exact Hp0|]. split; [lia|]. split.
  - destruct (Z.le_gt_cases 0 e) as [P|P].
    + specialize (E1 P).
      replace 52 with ((52 - e) + e) at 1 by lia.
      rewrite Z.pow_add_r by lia.
      assert (0 < 2 ^ (52 - e)) by (apply Z.pow_pos_nonneg; lia). nia.
    + specialize (E2 P).
      replace (52 - e) with (52 + - e) by lia.
      rewrite Z.pow_add_r by lia.
      assert (0 < 2 ^ 52) by reflexivity. nia.
  - unfold to_double. cbv zeta. fold p r.
    destruct (Z.eqb_spec (Z.abs p) 0) as [C|_]; [lia|].
    fold e. destruct (Z.leb_spec 0 (52 - e)) as [_|C]; [reflexivity | lia].
Qed.

Lemma two_pow_pos (s : Z) : 0 <= s -> Zpos (Z.to_pos (2 ^ s)) = 2 ^ s.
Proof. intro H. apply Z2Pos.id, Z.pow_pos_nonneg; lia. Qed.

(** An integer below [2 ^ 53] in magnitude is a float. *)
Lemma to_double_integer (k : Z) :
  Z.abs k < 9007199254740992 -> (to_double (inject_Z k) == inject_Z k)%Q.
Proof.
  intro Hk. destruct (Z.eq_dec k 0) as [->|Hk0]; [reflexivity|].
  destruct (to_double_core (inject_Z k)) as (Hp0 & Hs & _ & ->);
    [exact Hk0 | cbn [inject_Z Qnum Qden]; lia |].
  destruct (Qred_factor (inject_Z k)) as (g & Hg & Hp & Hr).
  cbn [inject_Z Qnum Qden] in Hp, Hr.
  set (p := Qnum (Qred (inject_Z k))) in *.
  set (r := Qden (Qred (inject_Z k))) in *.
  set (s := 52 - exponent (Z.abs p) r) in *.
  assert (g = 1) as ->.
  { destruct (Z.eq_dec g 1); [assumption|]. assert (2 <= g) by lia. nia. }
  assert (Hr1 : Zpos r = 1) by lia.
  rewrite Qred_correct.
  rewrite (round_half_even_integer _ (Z.abs p * 2 ^ s))
    by (cbn [Qnum Qden]; rewrite Hr1; lia).
  unfold Qeq, inject_Z. cbn [Qnum Qden]. rewrite two_pow_pos by assumption.
  rewrite Hp. replace (1 * p) with p by lia.
  rewrite Z.mul_assoc, <- Z.abs_sgn. lia.
Qed.

(** Rounding to a float keeps a positive rational between the integers
    that it lies between. *)
Lemma to_double_between (q : Q) (lo hi : Z) :
  0 < lo -> hi < 9007199254740992 ->
  (inject_Z lo <= q)%Q -> (q <= inject_Z hi)%Q ->
  (inject_Z lo <= to_double q)%Q /\ (to_double q <= inject_Z hi)%Q.
Proof.
  intros Hlo Hhi L U. destruct q as [n d].
  unfold Qle, inject_Z in L, U. cbn [Qnum Qden] in L, U.
  destruct (to_double_core (n # d)) as (Hp0 & Hs & _ & ->);
    [cbn [Qnum Qden]; nia | cbn [Qnum Qden]; nia |].
  destruct (Qred_factor (n # d)) as (g & Hg & Hp & Hr).
  cbn [Qnum Qden] in Hp, Hr.
  set (p := Qnum (Qred (n # d))) in *.
  set (r := Qden (Qred (n # d))) in *.
  set (s := 52 - exponent (Z.abs p) r) in *.
  assert (Hpos : 0 < p) by nia.
  rewrite Z.abs_eq, Z.sgn_pos by lia.
  assert (P2 : 0 < 2 ^ s) by (apply Z.pow_pos_nonneg; lia).
  pose proof (round_half_even_between (p * 2 ^ s # r) (lo * 2 ^ s) (hi * 2 ^ s))
    as B. cbn [Qnum Qden] in B.
  destruct B as [B1 B2]; [nia|].
  split; rewrite Qred_correct; unfold Qle, inject_Z; cbn [Qnum Qden];
    rewrite two_pow_pos by assumption; lia.
Qed.

(** The error of rounding to a float is at most [2 ^ -53] of the
    value. *)
Lemma to_double_error (q : Q) :
  Qnum q <> 0 -> Z.abs (Qnum q) < 9007199254740992 * Zpos (Qden q) ->
  (Qabs (to_double q - q) <= Qabs q * (1 # 9007199254740992))%Q.
Proof.
  intros Hn Hb.
  destruct (to_double_core q Hn Hb) as (Hp0 & Hs & Hlow & ->).
  assert (Hq : (q == Qnum (Qred q) # Qden (Qred q))%Q).
  { rewrite <- (Qred_correct q) at 1. now destruct (Qred q). }
  set (p := Qnum (Qred q)) in *. set (r := Qden (Qred q)) in *.
  set (s := 52 - exponent (Z.abs p) r) in *.
  set (m := round_half_even (Z.abs p * 2 ^ s # r)).
  pose proof (round_half_even_nearest (Z.abs p * 2 ^ s # r)) as N.
  cbn [Qnum Qden] in N. fold m in N.
  rewrite Qred_correct, Hq.
  unfold Qle, Qabs, Qminus, Qplus, Qopp, Qmult. cbn [Qnum Qden].
  rewrite !Pos2Z.inj_mul, two_pow_pos by assumption.
  assert (P2 : 0 < 2 ^ s) by (apply Z.pow_pos_nonneg; lia).
  set (D := Z.abs (m * Zpos r - Z.abs p * 2 ^ s)) in *.
  assert (HD : Z.abs (Z.sgn p * m * Zpos r + - p * 2 ^ s) = D).
  { unfold D. destruct (Z.sgn_spec p) as [[? ->]|[[? ?]|[? ->]]]; [|lia|];
      lia. }
  rewrite HD.
  assert (H53 : D * 9007199254740992 <= Z.abs p * 2 ^ s).
  { change 9007199254740992 with (2 * 2 ^ 52). nia. }
  change (Zpos 9007199254740992) with 9007199254740992.
  assert (0 < Zpos r) by lia. nia.
Qed.

Lemma exponent_upper (a : Z) (b : positive) :
  0 < a ->
  let e := exponent a b in
  (0 <= e + 1 -> a < Zpos b * 2 ^ (e + 1)) /\
  (e + 1 < 0 -> a * 2 ^ (- (e + 1)) < Zpos b).
Proof.
  intro Ha. unfold exponent. cbv zeta.
  pose proof (Z.log2_spec a Ha) as [La Ua].
  pose proof (Z.log2_spec (Zpos b) ltac:(lia)) as [Lb Ub].
  pose proof (Z.log2_nonneg a) as Na.
  pose proof (Z.log2_nonneg (Zpos b)) as Nb.
  set (la := Z.log2 a) in *. set (lb := Z.log2 (Zpos b)) in *.
  rewrite Z.pow_succ_r in Ua, Ub by assumption.
  destruct (Z.ltb_spec (a * 2 ^ Z.max 0 (- (la - lb)))
                       (Zpos b * 2 ^ Z.max 0 (la - lb))) as [C|C].
  - (* e = la - lb - 1: the comparison is the bound *)
    replace (la - lb - 1 + 1) with (la - lb) by lia. split; intro He.
    + rewrite (Z.max_l 0 (- (la - lb))), (Z.max_r 0 (la - lb)) in C by lia.
      rewrite Z.pow_0_r in C. lia.
    + rewrite (Z.max_r 0 (- (la - lb))), (Z.max_l 0 (la - lb)) in C by lia.
      rewrite Z.pow_0_r in C. lia.
  - (* e = la - lb *)
    split; intro He.
    + assert (P : 2 ^ lb * 2 ^ (la - lb + 1) = 2 * 2 ^ la).
      { rewrite <- Z.pow_add_r by lia.
        replace (lb + (la - lb + 1)) with (Z.succ la) by lia.
        now rewrite Z.pow_succ_r by lia. }
      assert (0 < 2 ^ (la - lb + 1)) by (apply Z.pow_pos_nonneg; lia).
      nia.
    + assert (P : 2 ^ la * 2 ^ (- (la - lb + 1)) * 2 = 2 ^ lb).
      { rewrite <- Z.pow_add_r by lia.
        replace (la + - (la - lb + 1)) with (lb - 1) by lia.
        replace lb with (Z.succ (lb - 1)) at 2 by lia.
        rewrite Z.pow_succ_r by lia. lia. }
      assert (0 < 2 ^ (- (la - lb + 1))) by (apply Z.pow_pos_nonneg; lia).
      nia.
Qed.

(** The significand that [to_double] rounds to has 53 bits. *)
Lemma significand_53_bits (q : Q) :
  Qnum q <> 0 -> Z.abs (Qnum q) < 9007199254740992 * Zpos (Qden q) ->
  let p := Qnum (Qred q) in
  let r := Qden (Qred q) in
  let s := 52 - exponent (Z.abs p) r in
  2 ^ 52 <= round_half_even (Z.abs p * 2 ^ s # r) <= 2 ^ 53.
Proof.
  intros Hn Hb. cbv zeta.
  destruct (to_double_core q Hn Hb) as (Hp0 & Hs & Hlow & _).
  set (p := Qnum (Qred q)) in *. set (r := Qden (Qred q)) in *.
  pose proof (exponent_upper (Z.abs p) r ltac:(lia)) as [U1 U2].
  cbv zeta in U1, U2. set (e := exponent (Z.abs p) r) in *.
  apply round_half_even_between. cbn [Qnum Qden]. split; [lia|].
  destruct (Z.le_gt_cases 0 (e + 1)) as [P|P].
  - specialize (U1 P).
    replace 53 with ((52 - e) + (e + 1)) by lia.
    rewrite Z.pow_add_r by lia.
    assert (0 < 2 ^ (52 - e)) by (apply Z.pow_pos_nonneg; lia). nia.
  - specialize (U2 P).
    replace (52 - e) with (53 + - (e + 1)) by lia.
    rewrite Z.pow_add_r by lia.
    assert (0 < 2 ^ 53) by reflexivity. nia.
Qed.

(** ** The running sum *)

Lemma total_bound (B : Z) (xs : list Z) :
  Forall (fun x => Z.abs x <= B) xs ->
  Z.abs (Spec.total xs) <= Z.of_nat (length xs) * B.
Proof.
  induction 1 as [|x xs Hx _ IH]; [simpl; lia|].
  unfold Spec.total in *. cbn [fold_right].
  rewrite length_cons, Nat2Z.inj_succ, Z.mul_succ_l. lia.
Qed.

(** While the sums stay below [2 ^ 53] the running sum of [AVG] is
    exact. *)
Lemma running_sum_exact (B : Z) (xs : list Z) :
  Forall (fun x => Z.abs x <= B) xs ->
  forall (acc : Q) (z : Z),
    (acc == inject_Z z)%Q ->
    Z.abs z + Z.of_nat (length xs) * B < 9007199254740992 ->
    (fold_left (fun r v => to_double (r + to_double (inject_Z v))) xs acc
     == inject_Z (z + Spec.total xs))%Q.
Proof.
  induction 1 as [|x xs Hx _ IH]; intros acc z Hacc Hb.
  - cbn. now rewrite Z.add_0_r.
  - cbn [fold_left Spec.total fold_right]. fold (Spec.total xs).
    rewrite length_cons, Nat2Z.inj_succ in Hb.
    assert (HB : 0 <= B) by lia.
    assert (Hn : 0 <= Z.of_nat (length xs) * B) by nia.
    replace (z + (x + Spec.total xs)) with ((z + x) + Spec.total xs) by lia.
    apply IH; [|nia].
    rewrite (to_double_comp _ (inject_Z (z + x))).
    + apply to_double_integer. lia.
    + rewrite to_double_integer by lia. rewrite Hacc, inject_Z_plus.
      reflexivity.
Qed.

Lemma sql_avg_exact (B : Z) (xs : list Z) :
  xs <> [] ->
  Forall (fun x => Z.abs x <= B) xs ->
  Z.of_nat (length xs) * B < 9007199254740992 ->
  sql_avg xs = Some (to_double (Spec.total xs # Pos.of_nat (length xs))).
Proof.
  intros Hne Hall Hb. destruct xs as [|x xs]; [congruence|].
  unfold sql_avg. f_equal. apply to_double_comp.
  rewrite (running_sum_exact B (x :: xs) Hall (0 # 1)%Q 0);
    [|reflexivity|simpl Z.abs; lia].
  rewrite Z.add_0_l. rewrite length_cons, <- Pos.of_nat_succ.
  unfold Qeq, Qdiv, Qmult, Qinv, inject_Z. cbn [Qnum Qden Z.of_nat].
  rewrite Pos2Z.inj_mul. lia.
Qed.

Lemma total_between (xs : list Z) (lo hi : Z) :
  Forall (fun x => lo <= x <= hi) xs ->
  lo * Z.of_nat (length xs) <= Spec.total xs <= hi * Z.of_nat (length xs).
Proof.
  unfold Spec.total.
  induction 1 as [|x xs Hx _ IH]; simpl fold_right; [simpl; lia|].
  rewrite length_cons, Nat2Z.inj_succ. lia.
Qed.

Lemma pos_of_length (A : Type) (xs : list A) :
  xs <> [] -> Zpos (Pos.of_nat (length xs)) = Z.of_nat (length xs).
Proof.
  intro H. rewrite <- positive_nat_Z, Nat2Pos.id; [reflexivity|].
  destruct xs; [congruence | discriminate].
Qed.

(** The reported average of intensities between two positive bounds. *)
Lemma average_between (xs : list Z) (lo hi : Z) :
  xs <> [] -> 0 < lo ->
  Forall (fun x => lo <= x <= hi) xs ->
  hi * Z.of_nat (length xs) < 2 ^ 53 ->
  exists tenths,
    round_1 (or_5 (sql_avg xs)) = PyFloat (tenths # 10) /\
    10 * lo <= tenths <= 10 * hi.
Proof.
  intros Hne Hlo Hall Hb. change (2 ^ 53) with 9007199254740992 in Hb.
  pose proof (total_between _ _ _ Hall) as Hsum.
  pose proof (pos_of_length _ xs Hne) as Hpos.
  assert (Hlen : 0 < Z.of_nat (length xs)) by lia.
  rewrite (sql_avg_exact hi xs Hne); [| |lia].
  2:{ eapply Forall_impl; [|exact Hall]. cbv beta. intros; lia. }
  destruct (to_double_between (Spec.total xs # Pos.of_nat (length xs)) lo hi)
    as [L U]; [lia | nia | unfold Qle; cbn [inject_Z Qnum Qden]; lia .. |].
  destruct (to_double _) as [px rx].
  unfold Qle in L, U. cbn [inject_Z Qnum Qden] in L, U.
  unfold or_5. cbn [Qnum].
  destruct (Z.eqb_spec px 0) as [C|_]; [nia|].
  cbn [round_1]. eexists. split; [reflexivity|].
  apply round_half_even_between. cbn [Qnum Qden Qmult].
  rewrite Pos.mul_1_r. lia.
Qed.

(** The reported average is the default when the intensities sum to 0,
    and else a float with one decimal, at most 0.05 off their mean. *)
Lemma average_near_mean (xs : list Z) (B : Z) :
  Forall (fun x => Z.abs x <= B) xs ->
  20 * (Z.of_nat (length xs) * B) < 2 ^ 53 ->
  (Spec.total xs = 0 -> round_1 (or_5 (sql_avg xs)) = PyInt 5) /\
  (Spec.total xs <> 0 ->
   exists tenths,
     round_1 (or_5 (sql_avg xs)) = PyFloat (tenths # 10) /\
     2 * Z.abs (tenths * Z.of_nat (length xs) - 10 * Spec.total xs)
     <= Z.of_nat (length xs)).
Proof.
  intros Hall Hb. change (2 ^ 53) with 9007199254740992 in Hb.
  pose proof (total_bound B xs Hall) as HS.
  destruct xs as [|x0 xs0] eqn:Exs; [split; [reflexivity | intro H; now elim H]|].
  rewrite <- Exs in *.
  assert (Hne : xs <> []) by (rewrite Exs; discriminate).
  pose proof (pos_of_length _ xs Hne) as Hpos.
  assert (Hlen : 0 < Z.of_nat (length xs)) by lia.
  rewrite (sql_avg_exact B xs Hne Hall) by lia.
  set (n := Pos.of_nat (length xs)) in *. split.
  - intro H0. rewrite H0, to_double_zero by reflexivity. reflexivity.
  - intro HS0.
    pose proof (to_double_error (Spec.total xs # n) HS0) as Herr.
    cbn [Qnum Qden] in Herr. specialize (Herr ltac:(lia)).
    destruct (to_double (Spec.total xs # n)) as [px rx].
    unfold Qle, Qabs, Qminus, Qplus, Qopp, Qmult in Herr.
    cbn [Qnum Qden] in Herr. rewrite !Pos2Z.inj_mul in Herr.
    set (S := Spec.total xs) in *. rewrite Hpos in *.
    set (N := Z.of_nat (length xs)) in *.
    set (E := px * N + - S * Zpos rx) in *.
    assert (HE : Z.abs E * 9007199254740992 <= Z.abs S * Zpos rx) by nia.
    unfold or_5. cbn [Qnum].
    destruct (Z.eqb_spec px 0) as [C|_].
    { exfalso. subst px. unfold E in HE.
      rewrite Z.add_0_l, Z.abs_mul, Z.abs_opp, (Z.abs_eq (Zpos rx)) in HE by lia.
      assert (0 < Z.abs S) by lia. nia. }
    cbn [round_1]. eexists. split; [reflexivity|].
    pose proof (round_half_even_nearest ((px # rx) * (10 # 1))) as Hr.
    cbn [Qnum Qden Qmult] in Hr. rewrite Pos.mul_1_r in Hr.
    set (t := round_half_even ((px # rx) * (10 # 1))) in *.
    set (F := t * Zpos rx - px * 10) in *.
    set (G := t * N - 10 * S).
    assert (HG : G * Zpos rx = N * F + 10 * E) by (unfold G, F, E; ring).
    destruct (Z.le_gt_cases (2 * Z.abs G) N) as [|C]; [assumption|exfalso].
    assert (H1 : 2 * Z.abs G * Zpos rx <= N * Zpos rx + 20 * Z.abs E).
    { rewrite <- Z.mul_assoc, <- (Z.abs_eq (Zpos rx)) at 1 by lia.
      rewrite <- Z.abs_mul, HG.
      pose proof (Z.abs_triangle (N * F) (10 * E)) as T.
      rewrite !Z.abs_mul, (Z.abs_eq N), (Z.abs_eq 10) in T by lia. nia. }
    assert (H2 : Zpos rx <= 20 * Z.abs E) by nia.
    nia.
Qed.

(** The average that the statistics report. *)
Lemma avg_intensity_eq e d s :
  get_mood_statistics e d = Ok s ->
  avg_intensity s = round_1 (or_5 (sql_avg (last_7_days_intensities e d))).
Proof.
  unfold get_mood_statistics, connect, bind. destruct (fault e); [discriminate|].
  now intros [= <-].
Qed.

(** No row in the window: the default, an [int]. *)
Lemma avg_intensity_no_rows e d s :
  get_mood_statistics e d = Ok s -> last_7_days_intensities e d = [] ->
  avg_intensity s = PyInt 5.
Proof.
  intros H E. rewrite (avg_intensity_eq e d s H), E. reflexivity.
Qed.

End DatabaseFacts.

(* ===================================================================== *)
(** * Facts about the chat endpoint *)
(* ===================================================================== *)

Module AppFacts.

Import Database App Spec PyStr PyStrFacts DatabaseFacts.

(** ** The crisis check *)

Lemma any_in_true (keys : list string) (s : string) :
  any_in keys s = true <-> exists k, In k keys /\ contains k s = true.
Proof. unfold any_in. apply existsb_exists. Qed.

(** Every crisis phrase is a keyword. *)
Lemma crisis_keywords_keyword (k : string) :
  In k crisis_keywords -> keyword k = true.
Proof.
  assert (H : forallb keyword crisis_keywords = true) by reflexivity.
  rewrite forallb_forall in H. exact (H k).
Qed.

Lemma is_crisis_iff (text : string) :
  is_crisis text = true <-> exists k, In k crisis_keywords /\ occurs_ci k text.
Proof.
  unfold is_crisis. rewrite any_in_true.
  split; intros (k & Hk & H); exists k; (split; [exact Hk|]);
    now apply (contains_lower_iff k text (crisis_keywords_keyword k Hk)).
Qed.

(** The check sees the same in the message as in the stripped message. *)
Lemma is_crisis_strip (message : string) :
  is_crisis (strip message) = is_crisis message.
Proof.
  apply eq_true_iff_eq. rewrite !is_crisis_iff.
  split; intros (k & Hk & H); exists k; (split; [exact Hk|]).
  - now apply occurs_ci_of_strip.
  - now apply occurs_ci_strip; [apply crisis_keywords_keyword|].
Qed.

(** ** The fallback responses *)

Lemma first_match_split (table before after : list (string * string))
    (s k r : string) :
  table = (before ++ (k, r) :: after)%list ->
  contains k s = true ->
  (forall k', In k' (map fst before) -> contains k' s = false) ->
  first_match table s = Some r.
Proof.
  intros -> Hk. induction before as [|[k0 r0] before IH]; simpl; intro Hb.
  - now rewrite Hk.
  - rewrite (Hb k0) by auto. apply IH. auto.
Qed.

Lemma first_match_none (table : list (string * string)) (s : string) :
  (forall k, In k (map fst table) -> contains k s = false) ->
  first_match table s = None.
Proof.
  induction table as [|[k r] table IH]; simpl; intro H; [reflexivity|].
  rewrite (H k) by auto. apply IH. auto.
Qed.

Lemma first_match_In (table : list (string * string)) (s r : string) :
  first_match table s = Some r -> In r (map snd table).
Proof.
  induction table as [|[k r0] table IH]; simpl; [discriminate|].
  destruct (contains k s); [intros [= ->]|]; auto.
Qed.

(** Every key of the fallback table is a keyword. *)
Lemma fallback_keys_keyword (k : string) :
  In k (map fst fallback_responses) -> keyword k = true.
Proof.
  assert (H : forallb keyword (map fst fallback_responses) = true)
    by reflexivity.
  rewrite forallb_forall in H. exact (H k).
Qed.

Lemma fallback_responses_truthy (r : string) :
  In r (map snd fallback_responses) -> truthy r = true.
Proof.
  assert (H : forallb truthy (map snd fallback_responses) = true) by reflexivity.
  rewrite forallb_forall in H. apply H.
Qed.

Lemma fallback_truthy (text : string) : truthy (fallback text) = true.
Proof.
  unfold fallback. destruct (first_match _ _) as [r|] eqn:E; [|reflexivity].
  apply first_match_In, fallback_responses_truthy in E. now rewrite E.
Qed.

(** ** The view, case by case *)

Lemma is_crisis_truthy (user_message : string) :
  is_crisis user_message = true -> truthy user_message = true.
Proof. destruct user_message; [discriminate | reflexivity]. Qed.

Lemma log_turn_Ok e um r cid w i d' :
  log_chat_conversation (store e) um r cid (db w) = Ok (i, d') ->
  log_turn e um r cid w = Ok {| db := d'; sent := sent w |}.
Proof. unfold log_turn, bind. now intros ->. Qed.

Lemma log_turn_Raise e um r cid w x :
  log_chat_conversation (store e) um r cid (db w) = Raise x ->
  log_turn e um r cid w = Raise x.
Proof. unfold log_turn, bind. now intros ->. Qed.

Lemma log_turn_sent e um r cid w w' :
  log_turn e um r cid w = Ok w' -> sent w' = sent w.
Proof.
  unfold log_turn, bind.
  destruct (log_chat_conversation _ _ _ _ _) as [[i d']|]; [|discriminate].
  now intros [= <-].
Qed.

(** The request that [generate] sends, whatever comes back. *)
Lemma generate_world e um w :
  snd (generate e um w) =
  {| db := db w; sent := (sent w ++ [(MINDMATE_SYSTEM_PROMPT, um)])%list |}.
Proof.
  unfold generate. destruct (create e _ _) as [[c|]|]; [destruct (truthy c)| |];
    reflexivity.
Qed.

Lemma generate_Failure e um w :
  create e MINDMATE_SYSTEM_PROMPT um = Failure ->
  fst (generate e um w) = fallback um.
Proof. unfold generate. now intros ->. Qed.

Lemma generate_Content e um w c :
  create e MINDMATE_SYSTEM_PROMPT um = Content c ->
  fst (generate e um w) =
  match c with
  | Some text => if truthy text then strip text else listen_response
  | None => listen_response
  end.
Proof.
  unfold generate. intros ->. destruct c as [text|]; [|reflexivity].
  now destruct (truthy text).
Qed.

Lemma chat_empty e (d : json_object) m w :
  lookup "message" d = Some (Some m) -> truthy (strip m) = false ->
  chat_with_ai e (Some d) w = (error 400 "Message cannot be empty", w).
Proof.
  intros Hm Hs. unfold chat_with_ai, chat_with_ai_body.
  destruct d as [|p d]; [discriminate|]. now rewrite Hm, Hs.
Qed.

Lemma chat_crisis e (d : json_object) m w :
  lookup "message" d = Some (Some m) -> is_crisis (strip m) = true ->
  chat_with_ai e (Some d) w =
  let conversation_id := dict_get d "conversation_id" (Some (uuid4 e)) in
  match log_turn e (strip m) crisis_response conversation_id w with
  | Raise x => (error 500 ("Chat error: " ++ x), w)
  | Ok w' =>
      ({| status := 200;
          body := [("reply", JStr crisis_response);
                   ("conversation_id", json_of conversation_id);
                   ("is_crisis", JBool true)] |}, w')
  end.
Proof.
  intros Hm Hc. unfold chat_with_ai, chat_with_ai_body.
  destruct d as [|p d]; [discriminate|].
  rewrite Hm, (is_crisis_truthy _ Hc), Hc. cbn [negb]. cbv zeta.
  now destruct (log_turn _ _ _ _ _).
Qed.

Lemma chat_normal e (d : json_object) m w :
  lookup "message" d = Some (Some m) -> truthy (strip m) = true ->
  is_crisis (strip m) = false ->
  chat_with_ai e (Some d) w =
  let conversation_id := dict_get d "conversation_id" (Some (uuid4 e)) in
  let ai_response := fst (generate e (strip m) w) in
  let w1 := snd (generate e (strip m) w) in
  match log_turn e (strip m) ai_response conversation_id w1 with
  | Raise x => (error 500 ("Chat error: " ++ x), w1)
  | Ok w' =>
      ({| status := 200;
          body := [("reply", JStr ai_response);
                   ("conversation_id", json_of conversation_id);
                   ("timestamp", JStr (isoformat_now e))] |}, w')
  end.
Proof.
  intros Hm Ht Hc. unfold chat_with_ai, chat_with_ai_body.
  destruct d as [|p d]; [discriminate|].
  rewrite Hm, Ht, Hc. cbn [negb]. cbv zeta.
  destruct (generate e (strip m) w) as [ai w1]. cbn [fst snd].
  now destruct (log_turn _ _ _ _ _).
Qed.

Lemma log_turn_inv e um r cid w w' :
  log_turn e um r cid w = Ok w' ->
  exists i d',
    log_chat_conversation (store e) um r cid (db w) = Ok (i, d') /\
    w' = {| db := d'; sent := sent w |}.
Proof.
  unfold log_turn, bind.
  destruct (log_chat_conversation _ _ _ _ _) as [[i d']|]; [|discriminate].
  intros [= <-]. eauto.
Qed.

(** What a turn that is answered with status 200 has done: it computed a
    reply, in a world [w1] that has the store of [w], and logged it. *)
Lemma chat_200 e (d : json_object) m w r w' :
  lookup "message" d = Some (Some m) ->
  chat_with_ai e (Some d) w = (r, w') -> status r = 200%Z ->
  exists reply w1 i d',
    db w1 = db w /\
    log_chat_conversation (store e) (strip m) reply
      (dict_get d "conversation_id" (Some (uuid4 e))) (db w) = Ok (i, d') /\
    w' = {| db := d'; sent := sent w1 |} /\
    lookup "reply" (body r) = Some (JStr reply) /\
    lookup "conversation_id" (body r) =
      Some (json_of (dict_get d "conversation_id" (Some (uuid4 e)))).
Proof.
  intros Hm Hchat Hst.
  destruct (truthy (strip m)) eqn:Ht.
  2:{ rewrite (chat_empty e d m w Hm Ht) in Hchat.
      injection Hchat as <- <-. discriminate. }
  destruct (is_crisis (strip m)) eqn:Hc.
  - rewrite (chat_crisis e d m w Hm Hc) in Hchat. cbv zeta in Hchat.
    destruct (log_turn _ _ _ _ _) as [w2|x] eqn:E.
    + injection Hchat as <- <-. apply log_turn_inv in E as (i & d' & E & ->).
      exists crisis_response, w, i, d'. auto.
    + injection Hchat as <- <-. discriminate.
  - rewrite (chat_normal e d m w Hm Ht Hc) in Hchat. cbv zeta in Hchat.
    destruct (log_turn _ _ _ _ _) as [w2|x] eqn:E.
    + injection Hchat as <- <-. apply log_turn_inv in E as (i & d' & E & ->).
      rewrite generate_world in E. cbn [db] in E.
      exists (fst (generate e (strip m) w)), (snd (generate e (strip m) w)), i, d'.
      rewrite generate_world at 1. auto.
    + injection Hchat as <- <-. discriminate.
Qed.

(** A turn that is not answered with status 200 leaves the store as it
    was. *)
Lemma chat_not_200 e (data : option json_object) w r w' :
  chat_with_ai e data w = (r, w') -> status r <> 200%Z -> db w' = db w.
Proof.
  intros Hchat Hst. unfold chat_with_ai, chat_with_ai_body in Hchat.
  destruct data as [[|p d]|]; try (injection Hchat as <- <-; reflexivity).
  destruct (lookup "message" (p :: d)) as [[m|]|];
    try (injection Hchat as <- <-; reflexivity).
  destruct (negb (truthy (strip m)));
    [injection Hchat as <- <-; reflexivity|].
  destruct (is_crisis (strip m)).
  - destruct (log_turn _ _ _ _ _) as [w2|x];
      injection Hchat as <- <-; [now elim Hst | reflexivity].
  - destruct (generate e (strip m) w) as [ai w1] eqn:G.
    destruct (log_turn _ _ _ _ _) as [w2|x];
      injection Hchat as <- <-; [now elim Hst|].
    change w1 with (snd (ai, w1)). rewrite <- G, generate_world. reflexivity.
Qed.

(** Only a request with a string as message is answered with status 200. *)
Lemma chat_200_message e (data : option json_object) w r w' :
  chat_with_ai e data w = (r, w') -> status r = 200%Z ->
  exists d m, data = Some d /\ lookup "message" d = Some (Some m).
Proof.
  intros Hchat Hst. unfold chat_with_ai, chat_with_ai_body in Hchat.
  destruct data as [[|p d]|]; try (injection Hchat as <- <-; discriminate).
  destruct (lookup "message" (p :: d)) as [[m|]|] eqn:Hm;
    try (injection Hchat as <- <-; discriminate).
  eauto.
Qed.

(** ** Calls and the rowids of the tables *)

Local Open Scope Z_scope.

Lemma gateway_true r w w' :
  gateway r w = (true, w') -> exists i d', r = Ok (i, d') /\ db w' = d'.
Proof.
  destruct r as [[i d']|x]; simpl; [|discriminate].
  intros [= <-]. eauto.
Qed.

Lemma gateway_false r w w' : gateway r w = (false, w') -> w' = w.
Proof. destruct r as [[i d']|x]; simpl; [discriminate|]. now intros [= <-]. Qed.

Lemma run_true e c w w' :
  run e c w = (true, w') ->
  exists i,
    ids_of (target c) (db w') = (ids_of (target c) (db w) ++ [i])%list /\
    Forall (fun j => j < i) (ids_of (target c) (db w)) /\
    forall t, t <> target c -> ids_of t (db w') = ids_of t (db w).
Proof.
  destruct c as [a b n s|a b c s|a b s|data]; cbn [run target]; intro H.
  - apply gateway_true in H as (i & d' & H & ->).
    apply log_mood_Ok in H as (H1 & H2 & H3 & H4 & H5 & _).
    exists i. repeat split; auto.
    intros [] Ht; cbn [ids_of]; congruence.
  - apply gateway_true in H as (i & d' & H & ->).
    apply save_journal_entry_Ok in H as (H1 & H2 & H3 & H4 & H5 & _).
    exists i. repeat split; auto.
    intros [] Ht; cbn [ids_of]; congruence.
  - apply gateway_true in H as (i & d' & H & ->).
    apply log_breathing_session_Ok in H as (H1 & H2 & H3 & H4 & H5 & _).
    exists i. repeat split; auto.
    intros [] Ht; cbn [ids_of]; congruence.
  - destruct (chat_with_ai e data w) as [r w2] eqn:Hchat.
    injection H as Hst <-. apply Z.eqb_eq in Hst.
    destruct (chat_200_message _ _ _ _ _ Hchat Hst) as (d & m & -> & Hm).
    destruct (chat_200 e d m w r w2 Hm Hchat Hst)
      as (reply & w1 & i & d' & _ & Hlog & -> & _).
    apply log_chat_conversation_Ok in Hlog as (H1 & H2 & H3 & H4 & H5 & _).
    exists i. repeat split; auto.
    intros [] Ht; cbn [ids_of db]; congruence.
Qed.

Lemma run_false e c w w' : run e c w = (false, w') -> db w' = db w.
Proof.
  destruct c as [a b n s|a b c s|a b s|data]; cbn [run]; intro H;
    try (apply gateway_false in H; now subst).
  destruct (chat_with_ai e data w) as [r w2] eqn:Hchat.
  injection H as Hst <-. apply Z.eqb_neq in Hst.
  apply (chat_not_200 _ _ _ _ _ Hchat Hst).
Qed.

Lemma table_name_eq_dec (t u : table_name) : {t = u} + {t <> u}.
Proof. decide equality. Defined.

Lemma run_increasing e c w :
  ids_increasing w -> ids_increasing (snd (run e c w)).
Proof.
  intros Hw t. destruct (run e c w) as [[|] w'] eqn:H; cbn [snd].
  - apply run_true in H as (i & H1 & H2 & H3).
    destruct (table_name_eq_dec t (target c)) as [->|Ht].
    + rewrite H1. apply sorted_snoc; [apply Hw | exact H2].
    + rewrite (H3 t Ht). apply Hw.
  - apply run_false in H. rewrite H. apply Hw.
Qed.

Lemma run_all_increasing steps w :
  ids_increasing w -> ids_increasing (run_all steps w).
Proof.
  revert w. induction steps as [|[e c] steps IH]; intros w Hw; [exact Hw|].
  apply IH, run_increasing, Hw.
Qed.

Lemma initial_world_increasing : ids_increasing initial_world.
Proof. intros []; constructor. Qed.

(** ** The breathing view never reaches the store *)

Lemma breathing_view_never_succeeds {V : Type}
    (data : option (list (string * V))) (w : World) :
  status (fst (App.log_breathing_session data w)) <> 200 /\
  snd (App.log_breathing_session data w) = w.
Proof.
  unfold App.log_breathing_session.
  destruct data as [[|p d]|]; try (split; [discriminate | reflexivity]).
  destruct (lookup "duration" (p :: d)), (lookup "cycles_completed" (p :: d));
    split; (discriminate || reflexivity).
Qed.

End AppFacts.

(* ===================================================================== *)
(** * The properties of the specification *)
(* ===================================================================== *)

Import Database App Spec Samples PyStr PyStrFacts DatabaseFacts AppFacts.

(** ** Crisis routing *)

(** C2, as stated, fails: the message holds a crisis phrase, the store
    is locked when the turn is logged, and the caller gets the 500 error
    and no crisis reply. *)
Lemma crisis_reply_needs_the_turn_logged :
  let e := env_store_locked "Take a short walk." in
  let r := chat_with_ai e (Some [("message", Some "I want to end it all")])
             initial_world in
  is_crisis "I want to end it all" = true /\
  log_chat_conversation (store e) "I want to end it all" crisis_response
    (Some (uuid4 e)) (db initial_world) = Raise "database is locked" /\
  fst r = error 500 "Chat error: database is locked" /\
  lookup "reply" (body (fst r)) = None /\
  lookup "is_crisis" (body (fst r)) = None.
Proof. cbv zeta. repeat split; reflexivity. Qed.

(** C2, amended. A message in which one of the six crisis phrases
    occurs, in any case and at any place, is classified as a crisis,
    before and after stripping.  The view then sends nothing to the
    completion service, whatever that service would answer.  When the
    turn is logged it returns the fixed crisis response, which holds the
    three emergency contact lines, with ["is_crisis": True]; when
    logging the turn raises it returns the 500 error with the text of
    the exception, and no reply. *)
Theorem crisis_phrase_short_circuits (e : Env) (d : json_object)
    (m k : string) (w : World) :
  lookup "message" d = Some (Some m) ->
  In k crisis_keywords ->
  occurs_ci k m ->
  let conversation_id := dict_get d "conversation_id" (Some (uuid4 e)) in
  is_crisis m = true /\
  is_crisis (strip m) = true /\
  sent (snd (chat_with_ai e (Some d) w)) = sent w /\
  (forall i d',
     log_chat_conversation (store e) (strip m) crisis_response
       conversation_id (db w) = Ok (i, d') ->
     chat_with_ai e (Some d) w =
     ({| status := 200;
         body := [("reply", JStr crisis_response);
                  ("conversation_id", json_of conversation_id);
                  ("is_crisis", JBool true)] |},
      {| db := d'; sent := sent w |})) /\
  forallb (fun c => contains c crisis_response) emergency_contacts = true /\
  (forall x,
     log_chat_conversation (store e) (strip m) crisis_response
       conversation_id (db w) = Raise x ->
     chat_with_ai e (Some d) w = (error 500 ("Chat error: " ++ x), w)).
Proof.
  intros Hm Hk Hocc cid.
  assert (Hc : is_crisis m = true) by (apply is_crisis_iff; eauto).
  assert (Hs : is_crisis (strip m) = true) by now rewrite is_crisis_strip.
  pose proof (chat_crisis e d m w Hm Hs) as Hchat. cbv zeta in Hchat.
  fold cid in Hchat.
  split; [exact Hc|]. split; [exact Hs|].
  split; [|split; [|split; [reflexivity|]]].
  - rewrite Hchat.
    destruct (log_turn e (strip m) crisis_response cid w) as [w'|x] eqn:E;
      [|reflexivity].
    apply (log_turn_sent _ _ _ _ _ _ E).
  - intros i d' Hlog. now rewrite Hchat, (log_turn_Ok _ _ _ _ _ _ _ Hlog).
  - intros x Hlog. now rewrite Hchat, (log_turn_Raise _ _ _ _ _ x).
Qed.

Lemma crisis_phrase_short_circuits_witness :
  is_crisis "Some days I just want to End It All." = true /\
  fst (chat_with_ai env_offline
         (Some [("message", Some "Some days I just want to End It All.")])
         initial_world) =
  {| status := 200;
     body := [("reply", JStr crisis_response);
              ("conversation_id", JStr "3f2b8c1e-5d47-4a90-b6e1-0c9d8a7f6e55");
              ("is_crisis", JBool true)] |} /\
  is_crisis (kelvin_sign ++ "ILL MYSELF") = true.
Proof.
  destruct (crisis_phrase_short_circuits env_offline
              [("message", Some "Some days I just want to End It All.")]
              "Some days I just want to End It All." "end it all"
              initial_world)
    as (H1 & _ & _ & H4 & _).
  - reflexivity.
  - simpl; tauto.
  - exists "Some days I just want to ", "End It All", ".".
    split; reflexivity.
  - split; [exact H1|]. split; [exact (f_equal fst (H4 _ _ eq_refl))|].
    refine (proj1 (crisis_phrase_short_circuits env_offline
                     [("message", Some (kelvin_sign ++ "ILL MYSELF"))]
                     (kelvin_sign ++ "ILL MYSELF") "kill myself"
                     initial_world eq_refl _ _)).
    + simpl; tauto.
    + exists "", (kelvin_sign ++ "ILL MYSELF"), "". split; reflexivity.
Defined.

(** ** Rejected input *)

(** C5. A message that is empty after stripping, that is, one made of
    whitespace characters only, is answered with the 400 error "Message
    cannot be empty"; the store and the log of sent requests are what
    they were. *)
Theorem empty_message_is_rejected (e : Env) (d : json_object) (m : string)
    (w : World) :
  lookup "message" d = Some (Some m) ->
  strip m = "" ->
  chat_with_ai e (Some d) w = (error 400 "Message cannot be empty", w).
Proof.
  intros Hm Hs. apply (chat_empty e d m w Hm). now rewrite Hs.
Qed.

Lemma empty_message_is_rejected_witness :
  chat_with_ai env_offline (Some [("message", Some "")]) initial_world =
    (error 400 "Message cannot be empty", initial_world) /\
  chat_with_ai env_offline (Some [("message", Some "   ")]) initial_world =
    (error 400 "Message cannot be empty", initial_world) /\
  chat_with_ai env_offline
    (Some [("message", Some (nbsp ++ " " ++ em_space))]) initial_world =
    (error 400 "Message cannot be empty", initial_world).
Proof.
  split; [|split].
  - apply (empty_message_is_rejected env_offline [("message", Some "")] "");
      reflexivity.
  - apply (empty_message_is_rejected env_offline [("message", Some "   ")] "   ");
      reflexivity.
  - apply (empty_message_is_rejected env_offline
             [("message", Some (nbsp ++ " " ++ em_space))]
             (nbsp ++ " " ++ em_space));
      reflexivity.
Defined.

(** ** The fallback responder *)

(** C4. [fallback] is a function of the text alone.  Its table lists
    "stressed", "anxious", "sad", "happy", "tired" in this order; the
    reply is that of the first keyword of the table that occurs in the
    text in any case, and the generic reply when none occurs; it is never
    empty.  A text with both "stressed" and "sad" gets the reply of
    "stressed". *)
Theorem fallback_first_match_wins (text : string) :
  map fst fallback_responses = ["stressed"; "anxious"; "sad"; "happy"; "tired"] /\
  (forall (before after : list (string * string)) (k r : string),
     fallback_responses = (before ++ (k, r) :: after)%list ->
     occurs_ci k text ->
     (forall k', In k' (map fst before) -> ~ occurs_ci k' text) ->
     fallback text = r) /\
  ((forall k, In k (map fst fallback_responses) -> ~ occurs_ci k text) ->
   fallback text = generic_response) /\
  fallback text <> "" /\
  (occurs_ci "stressed" text -> occurs_ci "sad" text ->
   Some (fallback text) = lookup "stressed" fallback_responses).
Proof.
  assert (Hno : forall k, In k (map fst fallback_responses) ->
                 ~ occurs_ci k text -> contains k (lower text) = false).
  { intros k Hk H. destruct (contains k (lower text)) eqn:E; [|reflexivity].
    now apply (contains_lower_iff k text (fallback_keys_keyword k Hk)) in E. }
  assert (Hfirst : forall (before after : list (string * string)) (k r : string),
     fallback_responses = (before ++ (k, r) :: after)%list ->
     occurs_ci k text ->
     (forall k', In k' (map fst before) -> ~ occurs_ci k' text) ->
     fallback text = r).
  { intros before after k r Htab Hk Hb. unfold fallback.
    assert (Hin : In k (map fst fallback_responses)).
    { rewrite Htab, map_app. apply in_or_app. right. now left. }
    rewrite (first_match_split _ before after (lower text) k r Htab).
    - rewrite fallback_responses_truthy; [reflexivity|].
      rewrite Htab, map_app. apply in_or_app. right. now left.
    - now apply (contains_lower_iff k text (fallback_keys_keyword k Hin)).
    - intros k' Hk'. apply Hno; [|exact (Hb k' Hk')].
      rewrite Htab, map_app. apply in_or_app. now left. }
  split; [reflexivity|]. split; [exact Hfirst|]. split; [|split].
  - intro H. unfold fallback. rewrite first_match_none; [reflexivity|].
    intros k Hk. apply Hno; [exact Hk | exact (H k Hk)].
  - apply truthy_true, fallback_truthy.
  - intros Hs _. cbn [lookup fallback_responses String.eqb]. simpl. f_equal.
    eapply (Hfirst [] _ "stressed"); [reflexivity | exact Hs |].
    intros k' [].
Qed.

Lemma fallback_first_match_wins_witness :
  Some (fallback "Sad news made me STRESSED, I feel so stressed today")
  = lookup "stressed" fallback_responses.
Proof.
  apply (fallback_first_match_wins
           "Sad news made me STRESSED, I feel so stressed today").
  - exists "Sad news made me ", "STRESSED", ", I feel so stressed today".
    split; reflexivity.
  - exists "", "Sad", " news made me STRESSED, I feel so stressed today".
    split; reflexivity.
Defined.

(** ** The reply when the completion service fails *)

(** C3, as stated, fails: the result of a turn answered by the fallback
    has no ["is_crisis"] field, so the field is not [False]. *)
Lemma fallback_result_has_no_is_crisis_field :
  let r := fst (chat_with_ai env_offline
                  (Some [("message", Some "I had a long day")])
                  initial_world) in
  is_crisis "I had a long day" = false /\
  status r = 200%Z /\
  lookup "reply" (body r) = Some (JStr (fallback "I had a long day")) /\
  lookup "is_crisis" (body r) = None /\
  lookup "is_crisis" (body r) <> Some (JBool false).
Proof. cbv zeta. repeat split; try reflexivity. discriminate. Qed.

(** C3, amended. For a message that is not empty after stripping and is
    no crisis, when the completion call raises and the turn is logged,
    the view returns status 200 with the fallback response to the
    stripped message as ["reply"], which is never empty, with the
    conversation id and a timestamp, and with no ["is_crisis"] field. *)
Theorem fallback_reply_when_remote_fails (e : Env) (d : json_object)
    (m : string) (w : World) (i : Z) (d' : DB) :
  lookup "message" d = Some (Some m) ->
  truthy (strip m) = true ->
  is_crisis m = false ->
  create e MINDMATE_SYSTEM_PROMPT (strip m) = Failure ->
  let conversation_id := dict_get d "conversation_id" (Some (uuid4 e)) in
  log_chat_conversation (store e) (strip m) (fallback (strip m))
    conversation_id (db w) = Ok (i, d') ->
  chat_with_ai e (Some d) w =
  ({| status := 200;
      body := [("reply", JStr (fallback (strip m)));
               ("conversation_id", json_of conversation_id);
               ("timestamp", JStr (isoformat_now e))] |},
   {| db := d';
      sent := (sent w ++ [(MINDMATE_SYSTEM_PROMPT, strip m)])%list |}) /\
  fallback (strip m) <> "" /\
  lookup "is_crisis" (body (fst (chat_with_ai e (Some d) w))) = None.
Proof.
  intros Hm Ht Hc Hfail cid Hlog.
  rewrite <- is_crisis_strip in Hc.
  assert (Hchat : chat_with_ai e (Some d) w =
    ({| status := 200;
        body := [("reply", JStr (fallback (strip m)));
                 ("conversation_id", json_of cid);
                 ("timestamp", JStr (isoformat_now e))] |},
     {| db := d';
        sent := (sent w ++ [(MINDMATE_SYSTEM_PROMPT, strip m)])%list |})).
  { rewrite (chat_normal e d m w Hm Ht Hc). cbv zeta. fold cid.
    rewrite (generate_Failure _ _ _ Hfail), generate_world.
    now rewrite (log_turn_Ok _ _ _ _ _ i d'). }
  split; [exact Hchat|]. split.
  - apply truthy_true, fallback_truthy.
  - rewrite Hchat. reflexivity.
Qed.

Lemma fallback_reply_when_remote_fails_witness :
  fst (chat_with_ai env_offline
         (Some [("message", Some "  I am so tired of Mondays ")])
         initial_world) =
  {| status := 200;
     body := [("reply", JStr (fallback "I am so tired of Mondays"));
              ("conversation_id", JStr "3f2b8c1e-5d47-4a90-b6e1-0c9d8a7f6e55");
              ("timestamp", JStr "2023-11-14T22:13:20.000000")] |}.
Proof.
  refine (f_equal fst
    (proj1 (fallback_reply_when_remote_fails env_offline
              [("message", Some "  I am so tired of Mondays ")]
              "  I am so tired of Mondays " initial_world _ _
              eq_refl eq_refl eq_refl eq_refl eq_refl))).
Defined.

(** ** A store that fails while the turn is logged *)

(** C1, as stated, fails: the completion service has answered, the store
    is locked when the turn is logged, and the caller gets the 500 error
    instead of the reply. *)
Lemma storage_error_is_not_swallowed :
  let e := env_store_locked "Take a short walk." in
  let r := chat_with_ai e (Some [("message", Some "I had a long day")])
             initial_world in
  is_crisis "I had a long day" = false /\
  fst (generate e "I had a long day" initial_world) = "Take a short walk." /\
  log_chat_conversation (store e) "I had a long day" "Take a short walk."
    (Some (uuid4 e)) (db initial_world) = Raise "database is locked" /\
  fst r = error 500 "Chat error: database is locked" /\
  lookup "reply" (body (fst r)) = None /\
  db (snd r) = db initial_world.
Proof. cbv zeta. repeat split; reflexivity. Qed.

(** C1, amended. For a message that is not empty after stripping and is
    no crisis, when logging the turn raises, the view returns the 500
    error "Chat error: " followed by the text of the exception; the
    computed reply is not returned and the store is unchanged. *)
Theorem storage_error_fails_the_request (e : Env) (d : json_object)
    (m : string) (w : World) (x : string) :
  lookup "message" d = Some (Some m) ->
  truthy (strip m) = true ->
  is_crisis m = false ->
  log_chat_conversation (store e) (strip m) (fst (generate e (strip m) w))
    (dict_get d "conversation_id" (Some (uuid4 e))) (db w) = Raise x ->
  chat_with_ai e (Some d) w =
  (error 500 ("Chat error: " ++ x),
   {| db := db w;
      sent := (sent w ++ [(MINDMATE_SYSTEM_PROMPT, strip m)])%list |}) /\
  lookup "reply" (body (fst (chat_with_ai e (Some d) w))) = None.
Proof.
  intros Hm Ht Hc Hlog. rewrite <- is_crisis_strip in Hc.
  assert (Hchat : chat_with_ai e (Some d) w =
    (error 500 ("Chat error: " ++ x),
     {| db := db w;
        sent := (sent w ++ [(MINDMATE_SYSTEM_PROMPT, strip m)])%list |})).
  { rewrite (chat_normal e d m w Hm Ht Hc). cbv zeta.
    rewrite generate_world.
    now rewrite (log_turn_Raise _ _ _ _ _ x). }
  split; [exact Hchat|]. rewrite Hchat. reflexivity.
Qed.

Lemma storage_error_fails_the_request_witness :
  fst (chat_with_ai (env_store_locked "Take a short walk.")
         (Some [("message", Some "I had a long day")]) initial_world) =
  error 500 "Chat error: database is locked".
Proof.
  refine (f_equal fst
    (proj1 (storage_error_fails_the_request
              (env_store_locked "Take a short walk.")
              [("message", Some "I had a long day")]
              "I had a long day" initial_world "database is locked"
              eq_refl eq_refl eq_refl eq_refl))).
Defined.

(** The same on the crisis path: the turn is logged before the crisis
    response is returned, and an exception there is answered with the
    500 error as well. *)
Lemma storage_error_on_crisis_path (e : Env) (d : json_object) (m : string)
    (w : World) (x : string) :
  lookup "message" d = Some (Some m) ->
  is_crisis m = true ->
  log_chat_conversation (store e) (strip m) crisis_response
    (dict_get d "conversation_id" (Some (uuid4 e))) (db w) = Raise x ->
  chat_with_ai e (Some d) w = (error 500 ("Chat error: " ++ x), w).
Proof.
  intros Hm Hc Hlog. rewrite <- is_crisis_strip in Hc.
  rewrite (chat_crisis e d m w Hm Hc). cbv zeta.
  now rewrite (log_turn_Raise _ _ _ _ _ x).
Qed.

(** ** The reply when the completion service answers *)

(** For a message that is not empty after stripping and is no crisis,
    when the completion call returns and the turn is logged, the reply
    is the stripped content when the content is not empty, and the fixed
    substitute when the content is [None] or empty. *)
Lemma reply_when_remote_answers (e : Env) (d : json_object) (m : string)
    (w : World) (c : option string) (r : response) (w' : World) :
  lookup "message" d = Some (Some m) ->
  truthy (strip m) = true ->
  is_crisis m = false ->
  create e MINDMATE_SYSTEM_PROMPT (strip m) = Content c ->
  chat_with_ai e (Some d) w = (r, w') -> status r = 200%Z ->
  lookup "reply" (body r) =
  Some (JStr match c with
             | Some text => if truthy text then strip text else listen_response
             | None => listen_response
             end).
Proof.
  intros Hm Ht Hc Hcreate Hchat Hst. rewrite <- is_crisis_strip in Hc.
  rewrite (chat_normal e d m w Hm Ht Hc) in Hchat. cbv zeta in Hchat.
  rewrite (generate_Content _ _ _ _ Hcreate) in Hchat.
  destruct (log_turn _ _ _ _ _);
    injection Hchat as <- <-; [reflexivity | discriminate].
Qed.

(** C6: the code at a completion of spaces only.  The content is truthy,
    so it is stripped and not replaced: the reply that is returned, and
    logged, is the empty string. *)
Theorem blank_completion_gives_empty_reply :
  let e := env_online "   " in
  let r := chat_with_ai e (Some [("message", Some "I had a long day")])
             initial_world in
  is_crisis "I had a long day" = false /\
  create e MINDMATE_SYSTEM_PROMPT "I had a long day" = Content (Some "   ") /\
  status (fst r) = 200%Z /\
  lookup "reply" (body (fst r)) = Some (JStr "") /\
  map (fun ir => ai_response (snd ir))
      (rows (chat_conversations (db (snd r)))) = [""].
Proof. cbv zeta. repeat split; reflexivity. Qed.

(** ** Conversation ids *)

(** C10. When the request carries ["conversation_id": ""] and the turn is
    answered with status 200, the result carries the empty string as
    conversation id, while the row logged for the turn carries
    "conv_" followed by the formatted time, which is not the empty
    string: selecting by the returned id does not select this row. *)
Theorem empty_conversation_id_is_not_the_stored_one (e : Env)
    (d : json_object) (m : string) (w : World) (r : response) (w' : World) :
  lookup "message" d = Some (Some m) ->
  lookup "conversation_id" d = Some (Some "") ->
  chat_with_ai e (Some d) w = (r, w') ->
  status r = 200%Z ->
  lookup "conversation_id" (body r) = Some (JStr "") /\
  exists i row,
    rows (chat_conversations (db w')) =
      (rows (chat_conversations (db w)) ++ [(i, row)])%list /\
    user_message row = strip m /\
    lookup "reply" (body r) = Some (JStr (ai_response row)) /\
    conversation_id row = "conv_" ++ strftime_now (store e) /\
    conversation_id row <> "" /\
    String.eqb (conversation_id row) "" = false.
Proof.
  intros Hm Hcid Hchat Hst.
  destruct (chat_200 e d m w r w' Hm Hchat Hst)
    as (reply & w1 & i & d' & Hdb & Hlog & -> & Hreply & Hc).
  unfold dict_get in Hc, Hlog. rewrite Hcid in Hc, Hlog.
  split; [exact Hc|].
  apply log_chat_conversation_row in Hlog.
  eexists i, _. split; [exact Hlog|]. cbn.
  repeat split; try assumption; discriminate.
Qed.

Lemma empty_conversation_id_is_not_the_stored_one_witness :
  let d := [("message", Some "hello"); ("conversation_id", Some "")] in
  let r := chat_with_ai env_offline (Some d) initial_world in
  lookup "conversation_id" (body (fst r)) = Some (JStr "") /\
  exists i row,
    rows (chat_conversations (db (snd r))) =
      (rows (chat_conversations (db initial_world)) ++ [(i, row)])%list /\
    user_message row = strip "hello" /\
    lookup "reply" (body (fst r)) = Some (JStr (ai_response row)) /\
    conversation_id row = "conv_" ++ strftime_now (store env_offline) /\
    conversation_id row <> "" /\
    String.eqb (conversation_id row) "" = false.
Proof.
  exact (empty_conversation_id_is_not_the_stored_one env_offline
           [("message", Some "hello"); ("conversation_id", Some "")]
           "hello" initial_world _ _ eq_refl eq_refl eq_refl eq_refl).
Defined.

(** ** Dashboard statistics *)

(** C7: the code at a store whose only mood of the last seven days has
    intensity 0.  The mean of the window is 0, and it is the default 5
    that is reported: [AVG] yields 0.0, which [or] takes for missing. *)
Theorem zero_mean_reports_the_default :
  exists i d,
    log_mood store_ok "numb" ":|" 0 "" (init_database None) = Ok (i, d) /\
    last_7_days_intensities store_ok d = [0%Z] /\
    sql_avg (last_7_days_intensities store_ok d) = Some (0 # 1) /\
    get_mood_statistics store_ok d =
    Ok {| avg_intensity := PyInt 5;
          total_entries := 0;
          total_breathing_sessions := 0 |}.
Proof. eexists _, _. repeat split; reflexivity. Qed.

(** ** Settings *)

(** C8. A setting that was written reads as written, whatever the
    default and whatever the key held before; a key that no write has
    named reads as the default. *)
Theorem settings_upsert_round_trip :
  (forall (e e' : StoreEnv) (k v default : string) (d d' : DB) (u : unit),
     update_user_setting e k v d = Ok (u, d') ->
     fault e' = None ->
     get_user_setting e' k default d' = Ok v) /\
  (forall (writes : list (StoreEnv * (string * string))) (e' : StoreEnv)
          (k default : string),
     fault e' = None ->
     ~ In k (map (fun w => fst (snd w)) writes) ->
     get_user_setting e' k default (set_all writes (init_database None))
     = Ok default).
Proof.
  split.
  - intros e e' k v default d d' u H He'.
    apply (get_after_update e e' k v default d u d' H He').
  - intros writes e' k default He' Hk. apply get_unset; [|exact He'].
    now rewrite rows_of_key_set_all.
Qed.

Lemma settings_upsert_round_trip_witness :
  let d := set_all [(store_ok, ("theme", "light")); (store_ok, ("name", "Sam"));
                    (store_ok, ("theme", "dark"))] (init_database None) in
  get_user_setting store_ok "theme" "light" d = Ok "dark" /\
  get_user_setting store_ok "unset_key" "fallback" d = Ok "fallback".
Proof.
  split.
  - refine (proj1 settings_upsert_round_trip store_ok store_ok "theme" "dark"
              "light"
              (set_all [(store_ok, ("theme", "light"));
                        (store_ok, ("name", "Sam"))] (init_database None))
              _ tt eq_refl eq_refl).
  - apply (proj2 settings_upsert_round_trip); [reflexivity|].
    simpl. intros [H|[H|[H|[]]]]; discriminate.
Defined.

(** ** Rowids *)

(** C9. A call of one of the four creating operations that succeeds adds
    exactly one row, to its own table, with a rowid above every rowid of
    that table, and adds none to the other tables; a call that does not
    succeed leaves the store as it was.  So after any history of calls
    the rowids of each table are strictly increasing in the order of
    insertion, and none occurs twice. *)
Theorem append_only_rowids :
  (forall (e : Env) (c : call) (w w' : World),
     run e c w = (true, w') ->
     exists i,
       ids_of (target c) (db w') = (ids_of (target c) (db w) ++ [i])%list /\
       Forall (fun j => (j < i)%Z) (ids_of (target c) (db w)) /\
       forall t, t <> target c -> ids_of t (db w') = ids_of t (db w)) /\
  (forall (e : Env) (c : call) (w w' : World),
     run e c w = (false, w') -> db w' = db w) /\
  (forall (steps : list (Env * call)) (t : table_name),
     StronglySorted Z.lt (ids_of t (db (run_all steps initial_world))) /\
     NoDup (ids_of t (db (run_all steps initial_world)))).
Proof.
  split; [exact run_true|]. split; [exact run_false|].
  intros steps t.
  pose proof (run_all_increasing steps _ initial_world_increasing t) as H.
  split; [exact H|].
  induction H as [|x l Hs IH Hx]; constructor; [|exact IH].
  intro Hin. rewrite Forall_forall in Hx. specialize (Hx x Hin). lia.
Qed.

Lemma append_only_rowids_witness :
  let w := run_all [(env_offline, RecordMood "happy" ":)" 8 "test");
                    (env_offline, SubmitMessage (Some [("message", Some "hello")]));
                    (env_store_locked "x", RecordMood "sad" ":(" 3 "");
                    (env_offline, SubmitMessage (Some [("message", Some " ")]))]
             initial_world in
  ids_of Moods (db w) = [1%Z] /\
  ids_of ChatConversations (db w) = [1%Z] /\
  exists i,
    ids_of Moods
      (db (snd (run env_offline (RecordMood "calm" ":)" 6 "") w))) =
    (ids_of Moods (db w) ++ [i])%list /\
    Forall (fun j => (j < i)%Z) (ids_of Moods (db w)) /\
    forall t, t <> Moods ->
      ids_of t (db (snd (run env_offline (RecordMood "calm" ":)" 6 "") w))) =
      ids_of t (db w).
Proof.
  cbv zeta. split; [reflexivity|]. split; [reflexivity|].
  match goal with
  | |- context [run ?e ?c ?w] =>
      exact (proj1 append_only_rowids e c w (snd (run e c w)) eq_refl)
  end.
Defined.

(* ===================================================================== *)
(** * Facts about the readers *)
(* ===================================================================== *)

Module ReadFacts.

Import Database Spec.
Local Open Scope Z_scope.
Local Open Scope list_scope.

Section Ordering.

Context {A : Type} (key : A -> Z).

Lemma insert_desc_perm (x : A) (l : list A) :
  Permutation (insert_desc key x l) (x :: l).
Proof.
  induction l as [|y l IH]; simpl; [reflexivity|].
  destruct (key y <=? key x); [reflexivity|].
  rewrite IH. apply perm_swap.
Qed.

Lemma order_by_desc_perm (l : list A) : Permutation (order_by_desc key l) l.
Proof.
  induction l as [|x l IH]; simpl; [reflexivity|].
  rewrite insert_desc_perm. now constructor.
Qed.

Lemma insert_desc_sorted (x : A) (l : list A) :
  newest_first key l -> newest_first key (insert_desc key x l).
Proof.
  unfold newest_first. induction 1 as [|y l Hs IH Hy]; simpl.
  - repeat constructor.
  - destruct (key y <=? key x) eqn:E.
    + apply Z.leb_le in E. constructor; [now constructor|].
      constructor; [exact E|].
      eapply Forall_impl; [|exact Hy]. simpl. intros b Hb. lia.
    + apply Z.leb_gt in E. constructor; [exact IH|].
      apply Forall_forall. intros b Hb.
      apply (Permutation_in _ (insert_desc_perm x l)) in Hb as [<-|Hb]; [lia|].
      rewrite Forall_forall in Hy. now apply Hy.
Qed.

Lemma order_by_desc_sorted (l : list A) : newest_first key (order_by_desc key l).
Proof.
  induction l as [|x l IH]; simpl; [constructor|].
  now apply insert_desc_sorted.
Qed.

Lemma order_by_desc_In (l : list A) (x : A) :
  In x (order_by_desc key l) <-> In x l.
Proof.
  split; apply Permutation_in;
    [|symmetry]; apply order_by_desc_perm.
Qed.

(** What the front of a sorted list leaves behind is no newer. *)
Lemma firstn_newest (n : nat) (l : list A) :
  newest_first key l ->
  forall x y, In x (firstn n l) -> In y (skipn n l) -> key y <= key x.
Proof.
  unfold newest_first. intro Hs. revert n.
  induction Hs as [|a l Hs IH Ha]; intros n x y Hx Hy.
  - destruct n; simpl in Hx; contradiction.
  - destruct n as [|n]; simpl in Hx, Hy; [contradiction|].
    destruct Hx as [<-|Hx].
    + rewrite Forall_forall in Ha. apply Ha.
      rewrite <- (firstn_skipn n l). apply in_or_app. now right.
    + eapply IH; eassumption.
Qed.

End Ordering.

Lemma datetime_now_minus_days_Some e days :
  valid_window e days = true ->
  datetime_now_minus_days e days = Some (now e - days * 86400).
Proof. intro H. unfold datetime_now_minus_days. now rewrite H. Qed.

Lemma get_mood_history_Ok e days d l :
  get_mood_history e days d = Ok l ->
  fault e = None /\
  l = order_by_desc mood_timestamp
        (filter (fun m => timestamp_ge (datetime_now_minus_days e days)
                            (mood_timestamp m))
                (map snd (rows (moods d)))).
Proof.
  unfold get_mood_history, connect, bind.
  destruct (fault e); [discriminate|]. now intros [= <-].
Qed.

Lemma get_journal_entries_Ok e limit d l :
  get_journal_entries e limit d = Ok l ->
  fault e = None /\
  l = sql_limit limit
        (order_by_desc (fun ir => journal_timestamp (snd ir))
                       (rows (journal_entries d))).
Proof.
  unfold get_journal_entries, connect, bind_int, bind.
  destruct (fault e); [discriminate|].
  destruct (_ && _); [|discriminate]. now intros [= <-].
Qed.

(** ** Counting by type *)

Lemma count_occ_map_filter (l : list mood) (t : string) :
  count_occ string_dec (map mood_type l) t =
  length (filter (fun m => String.eqb (mood_type m) t) l).
Proof.
  induction l as [|m l IH]; simpl; [reflexivity|].
  destruct (string_dec (mood_type m) t) as [E|E].
  - apply String.eqb_eq in E. rewrite E. simpl. now rewrite IH.
  - apply String.eqb_neq in E. now rewrite E.
Qed.

Lemma group_count_In (types : list string) (t : string) (n : Z) :
  In (t, n) (group_count types) <->
  In t types /\ n = Z.of_nat (count_occ string_dec types t).
Proof.
  unfold group_count. rewrite in_map_iff. split.
  - intros (t' & [= <- <-] & H). apply nodup_In in H. auto.
  - intros (H & ->). exists t. split; [reflexivity|]. now apply nodup_In.
Qed.

Lemma group_count_NoDup (types : list string) :
  NoDup (map fst (group_count types)).
Proof.
  unfold group_count. rewrite map_map. simpl. rewrite map_id.
  apply NoDup_nodup.
Qed.

End ReadFacts.

(* ===================================================================== *)
(** * Further properties: the readers of the store *)
(* ===================================================================== *)

Import ReadFacts.

Local Open Scope Z_scope.

(** For a number of [days] that makes a window, the history is the moods
    of the store that are not older than the window, each as often as the
    store has it, the newest first. *)
Theorem mood_history_is_the_window (e : StoreEnv) (days : Z) (d : DB)
    (l : list mood) :
  valid_window e days = true ->
  get_mood_history e days d = Ok l ->
  Permutation l (moods_since (now e - days * 86400) d) /\
  newest_first mood_timestamp l.
Proof.
  intros Hd H. apply get_mood_history_Ok in H as [_ ->].
  rewrite (datetime_now_minus_days_Some e days Hd). split.
  - apply order_by_desc_perm.
  - apply order_by_desc_sorted.
Qed.

Lemma mood_history_is_the_window_witness :
  exists l,
    get_mood_history store_week_later 7 db_two_moods = Ok l /\
    map mood_type l = ["calm"; "happy"]%list /\
    Permutation l (moods_since (now store_week_later - 7 * 86400) db_two_moods) /\
    newest_first mood_timestamp l.
Proof.
  eexists. split; [reflexivity|]. split; [reflexivity|].
  apply (mood_history_is_the_window store_week_later 7 db_two_moods);
    reflexivity.
Defined.

(** A mood that was logged is in every history read later whose window
    reaches back to the time of logging. *)
Theorem logged_mood_is_in_history (e e' : StoreEnv)
    (mood_type mood_emoji : string) (intensity : Z) (notes : string)
    (d d' : DB) (i days : Z) :
  log_mood e mood_type mood_emoji intensity notes d = Ok (i, d') ->
  fault e' = None ->
  valid_window e' days = true ->
  now e' - days * 86400 <= now e ->
  exists l,
    get_mood_history e' days d' = Ok l /\
    In {| Database.mood_type := mood_type; Database.mood_emoji := mood_emoji;
          Database.intensity := intensity; Database.notes := notes;
          mood_timestamp := now e |} l.
Proof.
  intros Hlog He' Hd Hw.
  unfold get_mood_history, connect, bind. rewrite He'.
  eexists. split; [reflexivity|].
  apply order_by_desc_In, filter_In.
  rewrite (datetime_now_minus_days_Some e' days Hd). split.
  - unfold log_mood, connect, bind_int, bind in Hlog.
    destruct (fault e); [discriminate|].
    destruct (_ && _); [|discriminate].
    destruct (insert_into _ _) as [[k t]|] eqn:E; [|discriminate].
    injection Hlog as <- <-. apply insert_into_Ok in E as [-> _].
    cbn [moods rows]. rewrite map_app. apply in_or_app. right. now left.
  - cbn [timestamp_ge mood_timestamp]. now apply Z.leb_le.
Qed.

Lemma logged_mood_is_in_history_witness :
  exists l,
    get_mood_history store_week_later 30 db_one_mood = Ok l /\
    In {| Database.mood_type := "happy"; Database.mood_emoji := ":)";
          Database.intensity := 8; Database.notes := "test";
          mood_timestamp := now store_ok |} l.
Proof.
  apply (logged_mood_is_in_history store_ok store_week_later
           "happy" ":)" 8 "test" (init_database None) db_one_mood 1 30);
    [reflexivity | reflexivity | reflexivity | vm_compute; discriminate].
Defined.

(** With a number of days that makes no window, a negative one above
    all, the history is empty whatever the store holds. *)
Theorem no_window_no_history (e : StoreEnv) (days : Z) (d : DB) :
  valid_window e days = false ->
  fault e = None ->
  get_mood_history e days d = Ok [].
Proof.
  intros Hd He. unfold get_mood_history, connect, bind. rewrite He.
  unfold datetime_now_minus_days. rewrite Hd. cbn [timestamp_ge].
  induction (map snd (rows (moods d))) as [|m l IH]; [reflexivity|exact IH].
Qed.

Lemma no_window_no_history_witness :
  get_mood_history store_week_later (-1) db_two_moods = Ok [] /\
  get_mood_history store_week_later 3000000 db_two_moods = Ok [].
Proof.
  split.
  - apply (no_window_no_history store_week_later (-1) db_two_moods);
      reflexivity.
  - apply (no_window_no_history store_week_later 3000000 db_two_moods);
      reflexivity.
Defined.

(** ** Journal entries *)

Lemma newest_first_firstn {A : Type} (key : A -> Z) (n : nat) (l : list A) :
  newest_first key l -> newest_first key (firstn n l).
Proof.
  unfold newest_first. intro Hs. revert n.
  induction Hs as [|a l Hs IH Ha]; intro n; destruct n; simpl;
    try constructor; auto.
  rewrite Forall_forall in *. intros x Hx. apply Ha.
  rewrite <- (firstn_skipn n l). apply in_or_app. now left.
Qed.

(** The entries returned and the entries left out make up the table; the
    returned ones come newest first, none of them is older than one that
    is left out, and their number is the limit or the size of the table,
    whichever is less.  A negative limit leaves nothing out. *)
Theorem journal_entries_are_the_newest (e : StoreEnv) (limit : Z) (d : DB)
    (l : list (Z * journal_entry)) :
  get_journal_entries e limit d = Ok l ->
  exists rest,
    Permutation (l ++ rest) (rows (journal_entries d)) /\
    newest_first (fun ir => journal_timestamp (snd ir)) l /\
    (forall x y, In x l -> In y rest ->
                 journal_timestamp (snd y) <= journal_timestamp (snd x)) /\
    (limit < 0 -> rest = []) /\
    (0 <= limit ->
     Z.of_nat (length l) =
     Z.min limit (Z.of_nat (length (rows (journal_entries d))))).
Proof.
  intro H. apply get_journal_entries_Ok in H as [_ ->].
  set (key := fun ir : Z * journal_entry => journal_timestamp (snd ir)).
  set (s := order_by_desc key (rows (journal_entries d))).
  assert (Hp : Permutation s (rows (journal_entries d)))
    by apply order_by_desc_perm.
  assert (Hs : newest_first key s) by apply order_by_desc_sorted.
  unfold sql_limit. destruct (limit <? 0) eqn:E.
  - apply Z.ltb_lt in E. exists []. rewrite app_nil_r.
    repeat split; auto; try lia. intros x y _ [].
  - apply Z.ltb_ge in E. exists (skipn (Z.to_nat limit) s).
    rewrite firstn_skipn. split; [exact Hp|].
    split; [now apply newest_first_firstn|].
    split; [apply (firstn_newest key _ _ Hs)|].
    split; [lia|]. intros _.
    rewrite length_firstn, <- (Permutation_length Hp). lia.
Qed.

Lemma journal_entries_are_the_newest_witness :
  let d := after (save_journal_entry store_week_later "second" "" "" ""
                    (after (save_journal_entry store_ok "first" "" "" ""
                              (init_database None)) (init_database None)))
                 (init_database None) in
  exists l rest,
    get_journal_entries store_week_later 1 d = Ok l /\
    map (fun ir => content (snd ir)) l = ["second"]%list /\
    Permutation (l ++ rest) (rows (journal_entries d)) /\
    Z.of_nat (length l) = Z.min 1 (Z.of_nat (length (rows (journal_entries d)))).
Proof.
  cbv zeta. eexists.
  edestruct (journal_entries_are_the_newest store_week_later 1) 
    as (rest & H1 & _ & _ & _ & H5); [reflexivity|].
  exists rest. split; [reflexivity|]. split; [reflexivity|].
  split; [exact H1|]. apply H5. lia.
Defined.

(** An entry that was saved is returned, with the id it was saved under
    and the fields it was saved with, by every later read whose limit is
    negative or not below the size of the table. *)
Theorem saved_entry_is_returned (e e' : StoreEnv)
    (content title mood_at_time tags : string) (d d' : DB) (i limit : Z) :
  save_journal_entry e content title mood_at_time tags d = Ok (i, d') ->
  fault e' = None ->
  bind_int limit = Ok limit ->
  limit < 0 \/ Z.of_nat (length (rows (journal_entries d'))) <= limit ->
  exists l,
    get_journal_entries e' limit d' = Ok l /\
    Permutation l (rows (journal_entries d')) /\
    In (i, {| Database.title := title; Database.content := content;
              Database.mood_at_time := mood_at_time; Database.tags := tags;
              journal_timestamp := now e |}) l.
Proof.
  intros Hsave He' Hfit Hlim.
  unfold get_journal_entries, connect, bind. rewrite He', Hfit.
  eexists. split; [reflexivity|].
  set (key := fun ir : Z * journal_entry => journal_timestamp (snd ir)).
  assert (Hp : Permutation
                 (sql_limit limit (order_by_desc key (rows (journal_entries d'))))
                 (rows (journal_entries d'))).
  { unfold sql_limit. destruct (limit <? 0) eqn:E.
    - apply order_by_desc_perm.
    - apply Z.ltb_ge in E. rewrite firstn_all2; [apply order_by_desc_perm|].
      rewrite (Permutation_length (order_by_desc_perm key _)). lia. }
  split; [exact Hp|].
  apply (Permutation_in _ (Permutation_sym Hp)).
  unfold save_journal_entry, connect, bind in Hsave.
  destruct (fault e); [discriminate|].
  destruct (insert_into _ _) as [[k t]|] eqn:E; [|discriminate].
  injection Hsave as <- <-. apply insert_into_Ok in E as [-> _].
  cbn [journal_entries rows]. apply in_or_app. right. now left.
Qed.

Lemma saved_entry_is_returned_witness :
  exists l,
    get_journal_entries store_week_later 20
      (after (save_journal_entry store_ok "Dear diary" "Monday" "happy" "a,b"
                (init_database None)) (init_database None)) = Ok l /\
    l = [(1, {| Database.title := "Monday"; Database.content := "Dear diary";
                Database.mood_at_time := "happy"; Database.tags := "a,b";
                journal_timestamp := now store_ok |})]%list.
Proof.
  destruct (saved_entry_is_returned store_ok store_week_later
              "Dear diary" "Monday" "happy" "a,b" (init_database None)
              (after (save_journal_entry store_ok "Dear diary" "Monday"
                        "happy" "a,b" (init_database None))
                     (init_database None))
              1 20 eq_refl eq_refl eq_refl) as (l & H1 & _ & _).
  - right. vm_compute. discriminate.
  - exists l. split; [exact H1|].
    vm_compute in H1. now injection H1 as <-.
Defined.

(** ** Dashboard statistics *)

(** The mood counts name every mood type of the last 30 days once, with
    the number of moods of that type in those days, and no other type;
    the largest count comes first. *)
Theorem mood_counts_count_the_window (e : StoreEnv) (d : DB)
    (l : list (string * Z)) :
  mood_counts e d = Ok l ->
  NoDup (map fst l) /\
  newest_first snd l /\
  forall t n,
    In (t, n) l <->
    0 < n /\
    n = Z.of_nat (length (filter (fun m => String.eqb (mood_type m) t)
                                 (moods_since (now e - 30 * 86400) d))).
Proof.
  unfold mood_counts, connect, bind. destruct (fault e); [discriminate|].
  intros [= <-].
  change (filter (fun m => within_days e 30 (mood_timestamp m))
                 (map snd (rows (moods d))))
    with (moods_since (now e - 30 * 86400) d).
  set (w := moods_since (now e - 30 * 86400) d).
  pose proof (order_by_desc_perm snd (group_count (map mood_type w))) as Hp.
  split; [|split].
  - apply (Permutation_NoDup (Permutation_map fst (Permutation_sym Hp))).
    apply group_count_NoDup.
  - apply order_by_desc_sorted.
  - intros t n. rewrite order_by_desc_In, group_count_In.
    rewrite (count_occ_In string_dec), count_occ_map_filter.
    split; intros [H ->]; split; try reflexivity; lia.
Qed.

Lemma mood_counts_count_the_window_witness :
  let l := [("happy", 3); ("sad", 2)]%list in
  mood_counts store_week_later db_five_moods = Ok l /\
  NoDup (map fst l) /\
  newest_first snd l /\
  forall t n,
    In (t, n) l <->
    0 < n /\
    n = Z.of_nat (length (filter (fun m => String.eqb (mood_type m) t)
                                 (moods_since (now store_week_later - 30 * 86400)
                                              db_five_moods))).
Proof.
  cbv zeta. split; [reflexivity|].
  exact (mood_counts_count_the_window store_week_later db_five_moods
           [("happy", 3); ("sad", 2)]%list eq_refl).
Defined.

(** When the moods of the last seven days have intensities between two
    positive bounds, and their sum stays below [2 ^ 53] (where the float
    sum of [AVG] is exact), the average reported is a float with one
    decimal that lies between these bounds. *)
Theorem average_stays_between_the_intensities (e : StoreEnv) (d : DB)
    (s : mood_statistics) (lo hi : Z) :
  get_mood_statistics e d = Ok s ->
  last_7_days_intensities e d <> [] ->
  0 < lo ->
  Forall (fun x => lo <= x <= hi) (last_7_days_intensities e d) ->
  hi * Z.of_nat (length (last_7_days_intensities e d)) < 2 ^ 53 ->
  exists tenths,
    avg_intensity s = PyFloat (tenths # 10) /\
    10 * lo <= tenths <= 10 * hi.
Proof.
  intros Hs Hne Hlo Hall Hb. rewrite (avg_intensity_eq e d s Hs).
  now apply average_between.
Qed.

Lemma average_stays_between_the_intensities_witness :
  exists s tenths,
    get_mood_statistics store_week_later db_two_moods = Ok s /\
    avg_intensity s = PyFloat (tenths # 10) /\
    10 * 1 <= tenths <= 10 * 10.
Proof.
  eexists.
  edestruct (average_stays_between_the_intensities store_week_later
               db_two_moods _ 1 10 eq_refl) as (tenths & H1 & H2).
  - vm_compute. discriminate.
  - lia.
  - vm_compute. repeat constructor; discriminate.
  - vm_compute. reflexivity.
  - exists tenths. split; [reflexivity|]. split; assumption.
Defined.

(** A journal entry or a breathing session that was saved raises its own
    total by one and leaves the other total and the average alone. *)
Theorem totals_count_the_saved_rows (e e' : StoreEnv) (d : DB)
    (s : mood_statistics) :
  get_mood_statistics e' d = Ok s ->
  (forall content title mood_at_time tags i d',
     save_journal_entry e content title mood_at_time tags d = Ok (i, d') ->
     get_mood_statistics e' d' =
     Ok {| avg_intensity := avg_intensity s;
           total_entries := total_entries s + 1;
           total_breathing_sessions := total_breathing_sessions s |}) /\
  (forall duration cycles_completed session_type i d',
     Database.log_breathing_session e duration cycles_completed session_type d
     = Ok (i, d') ->
     get_mood_statistics e' d' =
     Ok {| avg_intensity := avg_intensity s;
           total_entries := total_entries s;
           total_breathing_sessions := total_breathing_sessions s + 1 |}).
Proof.
  unfold get_mood_statistics, connect, bind.
  destruct (fault e'); [discriminate|]. intros [= <-]. split.
  - intros content title mood_at_time tags i d' H.
    unfold save_journal_entry, connect, bind in H.
    destruct (fault e); [discriminate|].
    destruct (insert_into _ _) as [[k t]|] eqn:E; [|discriminate].
    injection H as <- <-. apply insert_into_Ok in E as [-> _].
    unfold last_7_days_intensities. cbn [moods journal_entries
      breathing_sessions rows avg_intensity total_entries
      total_breathing_sessions].
    rewrite length_app, Nat2Z.inj_add. reflexivity.
  - intros duration cycles_completed session_type i d' H.
    unfold Database.log_breathing_session, connect, bind_int, bind in H.
    destruct (fault e); [discriminate|].
    destruct (_ && _); [|discriminate].
    destruct (_ && _); [|discriminate].
    destruct (insert_into _ _) as [[k t]|] eqn:E; [|discriminate].
    injection H as <- <-. apply insert_into_Ok in E as [-> _].
    unfold last_7_days_intensities. cbn [moods journal_entries
      breathing_sessions rows avg_intensity total_entries
      total_breathing_sessions].
    rewrite length_app, Nat2Z.inj_add. reflexivity.
Qed.

Lemma totals_count_the_saved_rows_witness :
  exists s,
    get_mood_statistics store_week_later db_two_moods = Ok s /\
    get_mood_statistics store_week_later
      (after (save_journal_entry store_ok "Dear diary" "" "" "" db_two_moods)
             db_two_moods) =
    Ok {| avg_intensity := avg_intensity s;
          total_entries := total_entries s + 1;
          total_breathing_sessions := total_breathing_sessions s |}.
Proof.
  eexists. split; [reflexivity|].
  refine (proj1 (totals_count_the_saved_rows store_ok store_week_later
                   db_two_moods _ eq_refl)
            "Dear diary" "" "" "" 1 _ eq_refl).
Defined.

(** ** Settings *)

Lemma find_is_first_of_filter {A : Type} (p : A -> bool) (l : list A) :
  find p l = hd_error (filter p l).
Proof.
  induction l as [|x l IH]; simpl; [reflexivity|].
  destruct (p x); [reflexivity | exact IH].
Qed.

Lemma rows_of_key_written (e : StoreEnv) (k v : string) (d d' : DB) (u : unit) :
  update_user_setting e k v d = Ok (u, d') ->
  exists i,
    rows_of_key k d' =
      [(i, {| setting_key := k; setting_value := v; updated_at := now e |})]%list /\
    Forall (fun j => j < i) (ids (user_settings d)).
Proof.
  unfold update_user_setting, insert_or_replace, connect, bind.
  destruct (fault e); [discriminate|].
  destruct (new_rowid (user_settings d)) as [i|] eqn:E; [|discriminate].
  intros [= <- <-]. exists i. split; [|apply (new_rowid_fresh _ _ E)].
  unfold rows_of_key. cbn [user_settings rows same_key setting_key].
  rewrite filter_app. cbn [filter snd setting_key]. rewrite String.eqb_refl.
  replace (filter _ (filter _ _)) with (@nil (Z * user_setting)); [reflexivity|].
  unfold same_key. cbn [setting_key].
  induction (rows (user_settings d)) as [|y l IH]; [reflexivity|].
  cbn [filter]. destruct (String.eqb k (setting_key (snd y))) eqn:Ek.
  - exact IH.
  - cbn [negb filter]. rewrite String.eqb_sym, Ek. exact IH.
Qed.

(** After a write the table holds exactly one row for the key, with the
    value written, under a rowid above every rowid the table held. *)
Theorem setting_write_replaces_the_row (e : StoreEnv) (k v : string)
    (d d' : DB) (u : unit) :
  update_user_setting e k v d = Ok (u, d') ->
  exists i,
    rows_of_key k d' =
      [(i, {| setting_key := k; setting_value := v; updated_at := now e |})]%list /\
    Forall (fun j => j < i) (ids (user_settings d)) /\
    moods d' = moods d /\
    journal_entries d' = journal_entries d /\
    chat_conversations d' = chat_conversations d /\
    breathing_sessions d' = breathing_sessions d.
Proof.
  intro H. destruct (rows_of_key_written e k v d d' u H) as (i & H1 & H2).
  exists i. split; [exact H1|]. split; [exact H2|].
  unfold update_user_setting, connect, bind in H.
  destruct (fault e); [discriminate|].
  destruct (insert_or_replace _ _ _) as [[j t]|]; [|discriminate].
  injection H as <- <-. auto.
Qed.

Lemma setting_write_replaces_the_row_witness :
  exists i,
    rows_of_key "theme"
      (after (update_user_setting store_week_later "theme" "dark"
                db_two_settings) db_two_settings) =
      [(i, {| setting_key := "theme"; setting_value := "dark";
              updated_at := now store_week_later |})]%list /\
    Forall (fun j => j < i) [1; 2]%list.
Proof.
  destruct (setting_write_replaces_the_row store_week_later "theme" "dark"
              db_two_settings
              (after (update_user_setting store_week_later "theme" "dark"
                        db_two_settings) db_two_settings)
              tt eq_refl) as (i & H1 & H2 & _).
  exists i. split; [exact H1 | exact H2].
Defined.

Lemma get_user_setting_frame (e e' : StoreEnv) (k k' v default : string)
    (d d' : DB) (u : unit) :
  update_user_setting e k' v d = Ok (u, d') ->
  k' <> k ->
  get_user_setting e' k default d' = get_user_setting e' k default d.
Proof.
  intros H Hk. pose proof (rows_of_key_update e k' v d u d' k H Hk) as Hrows.
  unfold get_user_setting, connect, bind.
  destruct (fault e'); [reflexivity|].
  rewrite !find_is_first_of_filter.
  change (filter _ (rows (user_settings d'))) with (rows_of_key k d').
  change (filter _ (rows (user_settings d))) with (rows_of_key k d).
  now rewrite Hrows.
Qed.

(** A write leaves what every other key reads as it was. *)
Theorem setting_write_leaves_other_keys (e e' : StoreEnv)
    (k k' v default : string) (d d' : DB) (u : unit) :
  update_user_setting e k' v d = Ok (u, d') ->
  k' <> k ->
  get_user_setting e' k default d' = get_user_setting e' k default d.
Proof. apply get_user_setting_frame. Qed.

Lemma setting_write_leaves_other_keys_witness :
  get_user_setting store_week_later "theme" "none"
    (after (update_user_setting store_week_later "name" "Kim" db_two_settings)
           db_two_settings) =
  get_user_setting store_week_later "theme" "none" db_two_settings.
Proof.
  apply (setting_write_leaves_other_keys store_week_later store_week_later
           "theme" "name" "Kim" "none" db_two_settings
           (after (update_user_setting store_week_later "name" "Kim"
                     db_two_settings) db_two_settings)
           tt eq_refl).
  discriminate.
Defined.

(** Whatever was written, and whichever writes failed, the table never
    holds two rows for one key. *)
Theorem settings_keys_stay_unique
    (writes : list (StoreEnv * (string * string))) (k : string) :
  (length (rows_of_key k (set_all writes (init_database None))) <= 1)%nat.
Proof.
  assert (H : forall d,
             (forall k, (length (rows_of_key k d) <= 1)%nat) ->
             forall k, (length (rows_of_key k (set_all writes d)) <= 1)%nat).
  { induction writes as [|[e [k' v]] writes IH]; intros d Hd k0; [apply Hd|].
    unfold set_all in *. cbn [fold_left fst snd].
    destruct (update_user_setting e k' v d) as [[u d']|] eqn:E.
    - apply IH. intro k1. destruct (string_dec k' k1) as [<-|Hk].
      + destruct (rows_of_key_written _ _ _ _ _ _ E) as (i & -> & _).
        simpl. lia.
      + rewrite (rows_of_key_update _ _ _ _ _ _ _ E Hk). apply Hd.
    - apply IH, Hd. }
  apply H. intro k0. simpl. lia.
Qed.

(* ===================================================================== *)
(** * Further properties: the chat endpoint *)
(* ===================================================================== *)

(** The crisis check answers yes for the messages in which one of the six
    phrases occurs in some case, and for no other message; stripping the
    message does not change its answer. *)
Theorem crisis_check_is_exact (message : string) :
  (is_crisis message = true <->
   exists k, In k crisis_keywords /\ occurs_ci k message) /\
  is_crisis (strip message) = is_crisis message.
Proof. split; [apply is_crisis_iff | apply is_crisis_strip]. Qed.

(** A call sends exactly one request to the completion service when the
    message is neither empty after stripping nor a crisis, whatever the
    service answers and whether or not the turn can be logged after it;
    otherwise it sends none. *)
Theorem one_completion_request_at_most (e : Env) (d : json_object)
    (m : string) (w : World) :
  lookup "message" d = Some (Some m) ->
  sent (snd (chat_with_ai e (Some d) w)) =
  if truthy (strip m) && negb (is_crisis m)
  then (sent w ++ [(MINDMATE_SYSTEM_PROMPT, strip m)])%list
  else sent w.
Proof.
  intro Hm. rewrite <- is_crisis_strip.
  destruct (truthy (strip m)) eqn:Ht; cbn [andb].
  2:{ now rewrite (chat_empty e d m w Hm Ht). }
  destruct (is_crisis (strip m)) eqn:Hc; cbn [negb].
  - rewrite (chat_crisis e d m w Hm Hc). cbv zeta.
    destruct (log_turn _ _ _ _ _) as [w'|x] eqn:E; [|reflexivity].
    apply (log_turn_sent _ _ _ _ _ _ E).
  - rewrite (chat_normal e d m w Hm Ht Hc). cbv zeta.
    destruct (log_turn _ _ _ _ _) as [w'|x] eqn:E; cbn [snd].
    + rewrite (log_turn_sent _ _ _ _ _ _ E). now rewrite generate_world.
    + now rewrite generate_world.
Qed.

Lemma one_completion_request_at_most_witness :
  sent (snd (chat_with_ai (env_store_locked "Take a short walk.")
               (Some [("message", Some " I had a long day ")]) initial_world)) =
  [(MINDMATE_SYSTEM_PROMPT, "I had a long day")]%list /\
  sent (snd (chat_with_ai (env_online "Take a short walk.")
               (Some [("message", Some (nbsp ++ em_space))]) initial_world)) =
  []%list /\
  sent (snd (chat_with_ai (env_online "Take a short walk.")
               (Some [("message", Some (kelvin_sign ++ "ill myself"))])
               initial_world)) =
  []%list.
Proof.
  split; [|split].
  - exact (one_completion_request_at_most (env_store_locked "Take a short walk.")
             [("message", Some " I had a long day ")] " I had a long day "
             initial_world eq_refl).
  - exact (one_completion_request_at_most (env_online "Take a short walk.")
             [("message", Some (nbsp ++ em_space))] (nbsp ++ em_space)
             initial_world eq_refl).
  - exact (one_completion_request_at_most (env_online "Take a short walk.")
             [("message", Some (kelvin_sign ++ "ill myself"))]
             (kelvin_sign ++ "ill myself") initial_world eq_refl).
Defined.

(** Whatever the request, a call leaves the tables of moods, journal
    entries, breathing sessions and settings as they were, and adds to
    the chat log one row or none. *)
Theorem chat_touches_only_the_chat_log (e : Env) (data : option json_object)
    (w : World) :
  let d' := db (snd (chat_with_ai e data w)) in
  moods d' = moods (db w) /\
  journal_entries d' = journal_entries (db w) /\
  breathing_sessions d' = breathing_sessions (db w) /\
  user_settings d' = user_settings (db w) /\
  (rows (chat_conversations d') = rows (chat_conversations (db w)) \/
   exists i row,
     rows (chat_conversations d') =
     (rows (chat_conversations (db w)) ++ [(i, row)])%list).
Proof.
  cbv zeta. destruct (chat_with_ai e data w) as [r w'] eqn:Hchat. cbn [snd].
  destruct (Z.eq_dec (status r) 200) as [Hst|Hst].
  - destruct (chat_200_message _ _ _ _ _ Hchat Hst) as (d & m & -> & Hm).
    destruct (chat_200 e d m w r w' Hm Hchat Hst)
      as (reply & w1 & i & d' & _ & Hlog & -> & _).
    cbn [db].
    pose proof (log_chat_conversation_row _ _ _ _ _ _ _ Hlog) as Hrow.
    apply log_chat_conversation_Ok in Hlog as (_ & _ & H3 & H4 & H5 & H6).
    repeat split; auto. right. eauto.
  - rewrite (chat_not_200 _ _ _ _ _ Hchat Hst). auto 6.
Qed.

(** The row logged for a turn that is answered with status 200 holds the
    stripped message, the reply that is returned and the time of the
    store.  Its conversation id is the one returned when the request
    brought a non-empty one, and when it brought none and the fresh uuid
    is used; a [null] id is returned as [null] and logged as "conv_"
    followed by the formatted time. *)
Theorem logged_turn_is_the_answered_turn (e : Env) (d : json_object)
    (m : string) (w : World) (r : response) (w' : World) :
  lookup "message" d = Some (Some m) ->
  chat_with_ai e (Some d) w = (r, w') ->
  status r = 200 ->
  exists i row,
    rows (chat_conversations (db w')) =
      (rows (chat_conversations (db w)) ++ [(i, row)])%list /\
    user_message row = strip m /\
    lookup "reply" (body r) = Some (JStr (ai_response row)) /\
    chat_timestamp row = now (store e) /\
    (forall c, lookup "conversation_id" d = Some (Some c) -> c <> "" ->
       conversation_id row = c /\
       lookup "conversation_id" (body r) = Some (JStr c)) /\
    (lookup "conversation_id" d = None -> uuid4 e <> "" ->
       conversation_id row = uuid4 e /\
       lookup "conversation_id" (body r) = Some (JStr (uuid4 e))) /\
    (lookup "conversation_id" d = Some None ->
       conversation_id row = "conv_" ++ strftime_now (store e) /\
       lookup "conversation_id" (body r) = Some JNull).
Proof.
  intros Hm Hchat Hst.
  destruct (chat_200 e d m w r w' Hm Hchat Hst)
    as (reply & w1 & i & d' & _ & Hlog & -> & Hreply & Hc).
  apply log_chat_conversation_row in Hlog.
  eexists i, _. split; [exact Hlog|]. cbn [user_message ai_response
    conversation_id chat_timestamp].
  split; [reflexivity|]. split; [exact Hreply|]. split; [reflexivity|].
  unfold dict_get in *.
  split; [|split].
  - intros c Hcid Hne. rewrite Hcid in *. split; [|exact Hc].
    cbn. apply truthy_true in Hne. now rewrite Hne.
  - intros Hcid Hne. rewrite Hcid in *. split; [|exact Hc].
    cbn. apply truthy_true in Hne. now rewrite Hne.
  - intros Hcid. rewrite Hcid in *. split; [reflexivity | exact Hc].
Qed.

Lemma logged_turn_is_the_answered_turn_witness :
  let d := [("message", Some (nbsp ++ " hello there " ++ em_space));
            ("conversation_id", Some "c-42")] in
  let r := chat_with_ai (env_online " Hi! ") (Some d) initial_world in
  exists i row,
    rows (chat_conversations (db (snd r))) = [(i, row)]%list /\
    user_message row = "hello there" /\
    ai_response row = "Hi!" /\
    conversation_id row = "c-42" /\
    lookup "conversation_id" (body (fst r)) = Some (JStr "c-42").
Proof.
  cbv zeta.
  destruct (logged_turn_is_the_answered_turn (env_online " Hi! ")
              [("message", Some (nbsp ++ " hello there " ++ em_space));
               ("conversation_id", Some "c-42")]
              (nbsp ++ " hello there " ++ em_space) initial_world _ _
              eq_refl eq_refl eq_refl)
    as (i & row & H1 & H2 & H3 & _ & H5 & _).
  destruct (H5 "c-42" eq_refl) as [H6 H7]; [discriminate|].
  exists i, row. split; [exact H1|]. split; [exact H2|].
  split; [|split; [exact H6 | exact H7]].
  cbn in H3. now injection H3.
Defined.

Lemma reply_when_remote_answers_witness :
  lookup "reply"
    (body (fst (chat_with_ai
                  (env_online (nbsp ++ " Breathe in, breathe out. " ++ em_space))
                  (Some [("message", Some "I had a long day")])
                  initial_world))) =
  Some (JStr "Breathe in, breathe out.").
Proof.
  exact (reply_when_remote_answers
           (env_online (nbsp ++ " Breathe in, breathe out. " ++ em_space))
           [("message", Some "I had a long day")] "I had a long day"
           initial_world
           (Some (nbsp ++ " Breathe in, breathe out. " ++ em_space)) _ _
           eq_refl eq_refl eq_refl eq_refl eq_refl eq_refl).
Defined.

Lemma storage_error_on_crisis_path_witness :
  chat_with_ai (env_store_locked "x")
    (Some [("message", Some "it is a CRISIS")]) initial_world =
  (error 500 "Chat error: database is locked", initial_world).
Proof.
  exact (storage_error_on_crisis_path (env_store_locked "x")
           [("message", Some "it is a CRISIS")] "it is a CRISIS"
           initial_world "database is locked" eq_refl eq_refl eq_refl).
Defined.

(* ===================================================================== *)
(** * Further properties: the views of settings, journal and moods *)
(* ===================================================================== *)

Module ViewFacts.

Import Views.

Lemma get_user_setting_env (e1 e2 : StoreEnv) (k default : string) (d : DB) :
  fault e1 = None -> fault e2 = None ->
  get_user_setting e1 k default d = get_user_setting e2 k default d.
Proof.
  intros H1 H2. unfold get_user_setting, connect, bind. now rewrite H1, H2.
Qed.

Lemma get_user_setting_returns (e : StoreEnv) (k default : string) (d : DB) :
  fault e = None -> exists v, get_user_setting e k default d = Ok v.
Proof.
  intro H. unfold get_user_setting, connect, bind. rewrite H. eauto.
Qed.

(** What the GET branch answers when the store works: for each of its
    four keys the value that [get_user_setting] reads. *)
Lemma settings_get_reads (e : Env) (data : option json_object) (d : DB)
    (key default : string) :
  (forall k, fault (store_at e k) = None) ->
  In (key, default) settings_defaults ->
  exists v,
    get_user_setting (store_at e 0) key default d = Ok v /\
    user_settings e GET data d =
      ({| code := 200;
          payload := payload (fst (user_settings e GET data d)) |}, d) /\
    lookup key (payload (fst (user_settings e GET data d))) = Some (VStr v).
Proof.
  intros He Hin. cbn [user_settings]. unfold read_settings.
  destruct (get_user_setting_returns (store_at e 0) "notifications" "true" d (He 0%nat)) as [v0 E0].
  destruct (get_user_setting_returns (store_at e 1) "theme" "light" d (He 1%nat)) as [v1 E1].
  destruct (get_user_setting_returns (store_at e 2) "reminder_frequency" "daily" d (He 2%nat)) as [v2 E2].
  destruct (get_user_setting_returns (store_at e 3) "name" "Friend" d (He 3%nat)) as [v3 E3].
  rewrite E0, E1, E2, E3. cbn [bind fst payload].
  destruct Hin as [H|[H|[H|[H|[]]]]]; injection H as <- <-.
  - exists v0. auto.
  - exists v1. rewrite (get_user_setting_env _ (store_at e 1)); auto.
  - exists v2. rewrite (get_user_setting_env _ (store_at e 2)); auto.
  - exists v3. rewrite (get_user_setting_env _ (store_at e 3)); auto.
Qed.

(** The loop of the POST branch leaves the keys it does not name as they
    read before, whether it ends or raises. *)
Lemma update_settings_frame (e : Env) (e0 : StoreEnv) (k : nat)
    (items : json_object) (d d' : DB) (o : option string)
    (key default : string) :
  update_settings e k items d = (o, d') ->
  ~ In key (map fst items) ->
  get_user_setting e0 key default d' = get_user_setting e0 key default d.
Proof.
  revert k d. induction items as [|[k1 v1] items IH]; intros k d H Hn.
  - now injection H as <- <-.
  - cbn [update_settings] in H. cbn [map fst In] in Hn.
    destruct (update_user_setting _ _ _ _) as [[u d1]|x] eqn:E.
    + rewrite (IH _ _ H) by tauto.
      apply (get_user_setting_frame _ _ _ _ _ _ _ _ _ E). tauto.
    + now injection H as <- <-.
Qed.

(** After the loop has ended, each key it names reads as the text of the
    value it was given. *)
Lemma update_settings_written (e : Env) (e0 : StoreEnv) (k : nat)
    (items : json_object) (d d' : DB) (key default : string)
    (value : option string) :
  update_settings e k items d = (None, d') ->
  NoDup (map fst items) ->
  In (key, value) items ->
  fault e0 = None ->
  get_user_setting e0 key default d' = Ok (str value).
Proof.
  revert k d. induction items as [|[k1 v1] items IH]; intros k d H Hnd Hin He0;
    [contradiction|].
  cbn [update_settings] in H. cbn [map fst] in Hnd. inversion Hnd; subst.
  destruct (update_user_setting _ _ _ _) as [[u d1]|x] eqn:E; [|discriminate].
  destruct Hin as [[= <- <-]|Hin].
  - rewrite (update_settings_frame _ _ _ _ _ _ _ _ _ H) by assumption.
    apply (get_after_update _ _ _ _ _ _ _ _ E He0).
  - now apply (IH _ _ H).
Qed.

Lemma update_settings_app (e : Env) (k : nat) (done rest : json_object)
    (d d1 : DB) :
  update_settings e k done d = (None, d1) ->
  update_settings e k (done ++ rest)%list d =
  update_settings e (k + length done) rest d1.
Proof.
  revert k d. induction done as [|[k1 v1] done IH]; intros k d H.
  - injection H as <-. now rewrite Nat.add_0_r.
  - cbn [update_settings app] in *.
    destruct (update_user_setting _ _ _ _) as [[u d2]|x]; [|discriminate].
    rewrite (IH _ _ H). cbn [length]. now rewrite Nat.add_succ_r.
Qed.

End ViewFacts.

Import Views ViewFacts.

(** Settings that were posted, under keys that are all different, read
    back through the GET branch as the text of the values posted (a
    [null] as "None"); the keys of the GET branch that were not posted
    read as before the POST. *)
Theorem posted_settings_read_back (e e' : Views.Env) (items : json_object)
    (d d' : DB) (r : result) :
  user_settings e POST (Some items) d = (r, d') ->
  code r = 200 ->
  NoDup (map fst items) ->
  (forall k, fault (store_at e' k) = None) ->
  let settings := payload (fst (user_settings e' GET None d')) in
  (forall key default value,
     In (key, default) settings_defaults -> In (key, value) items ->
     lookup key settings = Some (VStr (str value))) /\
  (forall key default,
     In (key, default) settings_defaults -> ~ In key (map fst items) ->
     lookup key settings =
     lookup key (payload (fst (user_settings e' GET None d)))).
Proof.
  intros Hpost Hcode Hnd He'. cbv zeta.
  assert (Hloop : update_settings e 0 items d = (None, d')).
  { cbn [user_settings] in Hpost. destruct items as [|p items].
    - injection Hpost as <- <-. discriminate.
    - destruct (update_settings e 0 (p :: items) d) as [[x|] d1].
      + injection Hpost as <- <-. discriminate.
      + now injection Hpost as _ <-. }
  split.
  - intros key default value Hk Hin.
    destruct (settings_get_reads e' None d' key default He' Hk)
      as (v & Hv & _ & ->).
    rewrite (update_settings_written _ _ _ _ _ _ _ default _ Hloop Hnd Hin (He' 0%nat))
      in Hv.
    now injection Hv as <-.
  - intros key default Hk Hn.
    destruct (settings_get_reads e' None d' key default He' Hk)
      as (v & Hv & _ & ->).
    destruct (settings_get_reads e' None d key default He' Hk)
      as (v0 & Hv0 & _ & ->).
    rewrite (update_settings_frame _ _ _ _ _ _ _ _ default Hloop Hn) in Hv.
    congruence.
Qed.

Lemma posted_settings_read_back_witness :
  let d' := snd (user_settings view_env_ok POST
                   (Some [("theme", Some "dark"); ("name", None)])
                   db_two_settings) in
  payload (fst (user_settings view_env_ok GET None d')) =
  [("notifications", VStr "true"); ("theme", VStr "dark");
   ("reminder_frequency", VStr "daily"); ("name", VStr "None")]%list /\
  lookup "theme" (payload (fst (user_settings view_env_ok GET None d'))) =
  Some (VStr (str (Some "dark"))).
Proof.
  cbv zeta. split; [reflexivity|].
  refine (proj1 (posted_settings_read_back view_env_ok view_env_ok
                   [("theme", Some "dark"); ("name", None)]
                   db_two_settings _ _ eq_refl eq_refl _ (fun _ => eq_refl))
            "theme" "light" (Some "dark") _ _).
  - repeat constructor; simpl; intuition discriminate.
  - simpl. tauto.
  - simpl. tauto.
Defined.

(** The POST branch is not all or nothing: when the store fails at one
    setting, the request is answered with status 500 and the settings
    before that one stay written. *)
Theorem settings_post_keeps_what_it_wrote (e : Views.Env)
    (done rest : json_object) (key : string) (value : option string)
    (d d1 : DB) (x : string) :
  update_settings e 0 done d = (None, d1) ->
  fault (store_at e (length done)) = Some x ->
  user_settings e POST (Some (done ++ (key, value) :: rest)%list) d =
  (failure 500 ("Settings update error: " ++ x), d1).
Proof.
  intros Hdone Hfault.
  assert (Hloop : update_settings e 0 (done ++ (key, value) :: rest)%list d
                  = (Some x, d1)).
  { rewrite (update_settings_app e 0 done _ d d1 Hdone).
    cbn [update_settings Nat.add].
    unfold update_user_setting, connect, bind. now rewrite Hfault. }
  cbn [user_settings]. destruct (done ++ (key, value) :: rest)%list eqn:E.
  - destruct done; discriminate.
  - now rewrite Hloop.
Qed.

Lemma settings_post_keeps_what_it_wrote_witness :
  let r := user_settings (view_env_locked_at 1) POST
             (Some [("theme", Some "dark"); ("name", Some "Kim")])
             db_two_settings in
  fst r = failure 500 "Settings update error: database is locked" /\
  get_user_setting store_ok "theme" "" (snd r) = Ok "dark" /\
  get_user_setting store_ok "name" "" (snd r) = Ok "Sam".
Proof.
  cbv zeta. split; [|split; reflexivity].
  exact (f_equal fst
           (settings_post_keeps_what_it_wrote (view_env_locked_at 1)
              [("theme", Some "dark")] [] "name" (Some "Kim")
              db_two_settings _ "database is locked" eq_refl eq_refl)).
Defined.

(** The journal view refuses, with status 400 and without touching the
    store, a request whose content is empty after stripping.  A request
    that it answers with status 200 has added one entry, with the
    stripped content, the stripped title and the other fields as given
    (each the empty text when the request does not name it), and the id
    returned is the rowid of that entry.  Any other answer leaves the
    store as it was. *)
Theorem journal_view_stores_stripped_text (e : Views.Env)
    (d : list (string * string)) (c : string) (db : DB) :
  lookup "content" d = Some c ->
  (truthy (strip c) = false ->
   save_user_journal e (Some d) db =
   (failure 400 "Journal content cannot be empty", db)) /\
  (forall r db',
     save_user_journal e (Some d) db = (r, db') ->
     (code r = 200 ->
      truthy (strip c) = true /\
      exists i,
        rows (journal_entries db') =
        (rows (journal_entries db) ++
         [(i, {| title := strip (dict_get d "title" "");
                 content := strip c;
                 mood_at_time := dict_get d "mood_at_time" "";
                 tags := dict_get d "tags" "";
                 journal_timestamp := now (store_at e 0) |})])%list /\
        lookup "entry_id" (payload r) = Some (VInt i)) /\
     (code r <> 200 -> db' = db)).
Proof.
  intro Hc. unfold save_user_journal.
  destruct d as [|p d]; [discriminate|]. rewrite Hc.
  destruct (truthy (strip c)) eqn:Ht; cbn [negb]; cbv zeta.
  - split; [discriminate|]. intros r db' H.
    destruct (save_journal_entry _ _ _ _ _ _) as [[i d1]|x] eqn:E;
      injection H as <- <-; cbn [code payload].
    + split; [|intro Hn; now elim Hn]. intros _. split; [reflexivity|].
      exists i. split; [|reflexivity].
      unfold save_journal_entry, connect, bind in E.
      destruct (fault (store_at e 0)); [discriminate|].
      destruct (insert_into _ _) as [[k t]|] eqn:Ei; [|discriminate].
      injection E as <- <-. apply insert_into_Ok in Ei as [-> _]. reflexivity.
    + split; [discriminate | reflexivity].
  - split; [reflexivity|]. intros r db' H. injection H as <- <-.
    split; [discriminate | reflexivity].
Qed.

Lemma journal_view_stores_stripped_text_witness :
  let d := [("title", " Monday "); ("content", (nbsp ++ " Dear diary.  ")%string)]%list in
  save_user_journal view_env_ok (Some [("content", "   ")]%list)
    (init_database None) =
    (failure 400 "Journal content cannot be empty", init_database None) /\
  save_user_journal view_env_ok (Some [("content", nbsp)]%list)
    (init_database None) =
    (failure 400 "Journal content cannot be empty", init_database None) /\
  map snd (rows (journal_entries
                   (snd (save_user_journal view_env_ok (Some d)
                           (init_database None))))) =
    [{| title := "Monday"; content := "Dear diary."; mood_at_time := "";
        tags := ""; journal_timestamp := now store_ok |}]%list.
Proof.
  cbv zeta. split; [|split].
  - apply (proj1 (journal_view_stores_stripped_text view_env_ok
                    [("content", "   ")]%list "   " (init_database None)
                    eq_refl)).
    reflexivity.
  - apply (proj1 (journal_view_stores_stripped_text view_env_ok
                    [("content", nbsp)]%list nbsp (init_database None)
                    eq_refl)).
    reflexivity.
  - destruct (proj2 (journal_view_stores_stripped_text view_env_ok
                       [("title", " Monday ");
                        ("content", (nbsp ++ " Dear diary.  ")%string)]%list
                       (nbsp ++ " Dear diary.  ") (init_database None) eq_refl)
                _ _ eq_refl) as [H _].
    destruct (H eq_refl) as (_ & i & Hrows & _).
    exact (f_equal (map snd) Hrows).
Defined.

(** The mood view refuses a request without a mood type or without a
    mood emoji, with status 400 and without touching the store.  A
    request that it answers with status 200 has added one mood, with the
    intensity given, or 5 when none is given, and with the notes given or
    the empty text; the intensity is checked against no range but that
    of a 64-bit integer; the id returned is the rowid of that mood.  An
    intensity that does not fit 64 bits is answered with the 500 error
    of the binding.  Any answer other than 200 leaves the store as it
    was. *)
Theorem mood_view_fills_in_defaults (e : Views.Env) (f : mood_data) (db : DB) :
  (data_mood_type f = None \/ data_mood_emoji f = None ->
   log_user_mood e (Some f) db =
   (failure 400 "Missing mood_type or mood_emoji", db)) /\
  (forall r db',
     log_user_mood e (Some f) db = (r, db') ->
     (code r = 200 ->
      exists t em i n,
        data_mood_type f = Some t /\ data_mood_emoji f = Some em /\
        n = match data_intensity f with
            | Some n => n
            | None => 5
            end /\
        - 2 ^ 63 <= n < 2 ^ 63 /\
        rows (moods db') =
        (rows (moods db) ++
         [(i, {| mood_type := t; mood_emoji := em;
                 intensity := n;
                 notes := match data_notes f with
                          | Some n => n
                          | None => ""
                          end;
                 mood_timestamp := now (store_at e 0) |})])%list /\
        lookup "mood_id" (payload r) = Some (VInt i) /\
        lookup "message" (payload r) =
          Some (VStr ("Mood '" ++ t ++ "' logged successfully"))) /\
     (code r <> 200 -> db' = db)) /\
  (forall t em n,
     data_mood_type f = Some t -> data_mood_emoji f = Some em ->
     data_intensity f = Some n ->
     fault (store_at e 0) = None ->
     n < - 2 ^ 63 \/ 2 ^ 63 <= n ->
     log_user_mood e (Some f) db =
     (failure 500
        "Mood logging error: Python int too large to convert to SQLite INTEGER",
      db)).
Proof.
  unfold log_user_mood. split; [|split].
  - intros [H|H]; rewrite H; [reflexivity|].
    now destruct (data_mood_type f).
  - intros r db' H.
    destruct (data_mood_type f) as [t|];
      [|injection H as <- <-; split; [discriminate | reflexivity]].
    destruct (data_mood_emoji f) as [em|];
      [|injection H as <- <-; split; [discriminate | reflexivity]].
    cbv zeta in H.
    destruct (log_mood _ _ _ _ _ _) as [[i d1]|x] eqn:E;
      injection H as <- <-; cbn [code payload].
    + split; [|intro Hn; now elim Hn]. intros _.
      apply log_mood_row in E as [Hb Hrows].
      exists t, em, i, (match data_intensity f with Some n => n | None => 5 end).
      split; [reflexivity|]. split; [reflexivity|]. split; [reflexivity|].
      split; [|split; [exact Hrows | split; reflexivity]].
      unfold bind_int, max_rowid in Hb.
      change (2 ^ 63) with 9223372036854775808.
      destruct (Z.leb_spec (-9223372036854775808)
                  (match data_intensity f with Some n => n | None => 5 end));
        destruct (Z.leb_spec
                    (match data_intensity f with Some n => n | None => 5 end)
                    9223372036854775807);
        cbn [andb] in Hb; try discriminate; lia.
    + split; [discriminate | reflexivity].
  - intros t em n -> -> -> He Hn. cbv zeta.
    now rewrite (log_mood_overflow _ _ _ _ _ _ He Hn).
Qed.

Lemma mood_view_fills_in_defaults_witness :
  let f := {| data_mood_type := Some "excited"; data_mood_emoji := Some ":D";
              data_intensity := None; data_notes := None |} in
  log_user_mood view_env_ok
    (Some {| data_mood_type := Some "excited"; data_mood_emoji := None;
             data_intensity := Some 9; data_notes := None |})
    (init_database None) =
    (failure 400 "Missing mood_type or mood_emoji", init_database None) /\
  map snd (rows (moods (snd (log_user_mood view_env_ok (Some f)
                               (init_database None))))) =
    [{| mood_type := "excited"; mood_emoji := ":D"; intensity := 5;
        notes := ""; mood_timestamp := now store_ok |}]%list /\
  log_user_mood view_env_ok
    (Some {| data_mood_type := Some "excited"; data_mood_emoji := Some ":D";
             data_intensity := Some 9223372036854775808;
             data_notes := None |})
    (init_database None) =
    (failure 500
       "Mood logging error: Python int too large to convert to SQLite INTEGER",
     init_database None).
Proof.
  cbv zeta. split; [|split].
  - apply (proj1 (mood_view_fills_in_defaults view_env_ok _ (init_database None))).
    right. reflexivity.
  - destruct (proj1 (proj2 (mood_view_fills_in_defaults view_env_ok
                       {| data_mood_type := Some "excited";
                          data_mood_emoji := Some ":D";
                          data_intensity := None; data_notes := None |}
                       (init_database None)))
                _ _ eq_refl) as [H _].
    destruct (H eq_refl) as (t & em & i & n & Ht & Hem & Hn & _ & Hrows & _).
    injection Ht as <-. injection Hem as <-. cbn in Hn. subst n.
    exact (f_equal (map snd) Hrows).
  - apply (proj2 (proj2 (mood_view_fills_in_defaults view_env_ok _
                           (init_database None)))
             "excited" ":D" 9223372036854775808);
      try reflexivity.
    right. vm_compute. discriminate.
Defined.

(* ===================================================================== *)
(** * Further properties: replies, ids and the default average *)
(* ===================================================================== *)

Lemma first_match_strip (table : list (string * string)) (message : string) :
  forallb keyword (map fst table) = true ->
  first_match table (lower (strip message)) = first_match table (lower message).
Proof.
  induction table as [|[k r] table IH]; intro H; [reflexivity|].
  cbn [forallb map fst] in H. apply andb_true_iff in H as [Hk H].
  cbn [first_match].
  replace (contains k (lower (strip message)))
    with (contains k (lower message)).
  - now rewrite (IH H).
  - apply eq_true_iff_eq. rewrite !(contains_lower_iff k) by exact Hk. split.
    + now apply occurs_ci_strip.
    + apply occurs_ci_of_strip.
Qed.

(** Spaces around a message do not change the fallback response. *)
Theorem fallback_ignores_surrounding_space (message : string) :
  fallback (strip message) = fallback message.
Proof. unfold fallback. now rewrite first_match_strip. Qed.

(** Whatever calls were made, no row of the chat log has the empty text
    as conversation id. *)
Theorem logged_conversation_ids_are_not_empty (steps : list (App.Env * call)) :
  Forall (fun ir => conversation_id (snd ir) <> "")
         (rows (chat_conversations (db (run_all steps initial_world)))).
Proof.
  assert (Hdef : forall se c, conversation_id_or_default se c <> "").
  { intros se [c|]; cbn; [|discriminate].
    destruct (truthy c) eqn:E; [now apply truthy_true | discriminate]. }
  assert (Hstep : forall e c w,
    Forall (fun ir => conversation_id (snd ir) <> "")
           (rows (chat_conversations (db w))) ->
    Forall (fun ir => conversation_id (snd ir) <> "")
           (rows (chat_conversations (db (snd (run e c w)))))).
  { intros e c w Hw. destruct (run e c w) as [[|] w'] eqn:Hrun; cbn [snd].
    2:{ now rewrite (run_false _ _ _ _ Hrun). }
    destruct c as [a b n s|a b c s|a b s|data]; cbn [run] in Hrun.
    - apply gateway_true in Hrun as (i & d' & H & ->).
      apply log_mood_Ok in H as (_ & _ & _ & -> & _). exact Hw.
    - apply gateway_true in Hrun as (i & d' & H & ->).
      apply save_journal_entry_Ok in H as (_ & _ & _ & -> & _). exact Hw.
    - apply gateway_true in Hrun as (i & d' & H & ->).
      apply log_breathing_session_Ok in H as (_ & _ & _ & _ & -> & _).
      exact Hw.
    - destruct (chat_with_ai e data w) as [r w2] eqn:Hchat.
      injection Hrun as Hst <-. apply Z.eqb_eq in Hst.
      destruct (chat_200_message _ _ _ _ _ Hchat Hst) as (d & m & -> & Hm).
      destruct (chat_200 e d m w r w2 Hm Hchat Hst)
        as (reply & w1 & i & d' & _ & Hlog & -> & _).
      apply log_chat_conversation_row in Hlog. cbn [db]. rewrite Hlog.
      apply Forall_app. split; [exact Hw|]. constructor; [|constructor].
      apply Hdef. }
  unfold run_all. generalize initial_world (Forall_nil
    (fun ir : Z * chat_conversation => conversation_id (snd ir) <> "")
    : Forall _ (rows (chat_conversations (db initial_world)))).
  induction steps as [|[e c] steps IH]; intros w Hw; [exact Hw|].
  cbn [fold_left fst snd]. apply IH, Hstep, Hw.
Qed.

(** While the intensities of the last seven days are small enough for
    the float sum of [AVG] to be exact (each at most [B] in magnitude,
    with 20 times their number times [B] below [2 ^ 53]): the average
    reported is the default 5, an [int], exactly when they sum to 0, as
    they do when there are none; otherwise it is a float with one
    decimal that is at most 0.05 off their mean. *)
Theorem default_average_means_zero_sum (e : StoreEnv) (d : DB)
    (s : mood_statistics) (B : Z) :
  get_mood_statistics e d = Ok s ->
  let xs := last_7_days_intensities e d in
  Forall (fun x => Z.abs x <= B) xs ->
  20 * (Z.of_nat (length xs) * B) < 2 ^ 53 ->
  (fold_right Z.add 0 xs = 0 -> avg_intensity s = PyInt 5) /\
  (fold_right Z.add 0 xs <> 0 ->
   exists tenths,
     avg_intensity s = PyFloat (tenths # 10) /\
     2 * Z.abs (tenths * Z.of_nat (length xs) - 10 * fold_right Z.add 0 xs)
     <= Z.of_nat (length xs)).
Proof.
  intros Hs xs Hall Hb. rewrite (avg_intensity_eq e d s Hs). fold xs.
  exact (average_near_mean xs B Hall Hb).
Qed.

Lemma default_average_means_zero_sum_witness :
  (exists s,
     get_mood_statistics store_week_later (db_intensities [-4; 4]) = Ok s /\
     avg_intensity s = PyInt 5) /\
  (exists s tenths,
     get_mood_statistics store_week_later db_tie = Ok s /\
     avg_intensity s = PyFloat (tenths # 10) /\
     2 * Z.abs (tenths * 20 - 10 * 23) <= 20).
Proof.
  split.
  - eexists. split; [reflexivity|].
    refine (proj1 (default_average_means_zero_sum store_week_later
                     (db_intensities [-4; 4]) _ 4 eq_refl _ _) _).
    + vm_compute. repeat constructor; discriminate.
    + vm_compute. reflexivity.
    + reflexivity.
  - assert (HA : Forall (fun x => Z.abs x <= 2)
                   (last_7_days_intensities store_week_later db_tie))
      by (vm_compute; repeat constructor; discriminate).
    assert (HB : 20 * (Z.of_nat (length (last_7_days_intensities
                                           store_week_later db_tie)) * 2)
                 < 2 ^ 53) by (vm_compute; reflexivity).
    eexists.
    destruct (proj2 (default_average_means_zero_sum store_week_later
                       db_tie _ 2 eq_refl HA HB)) as (tenths & H1 & H2).
    + vm_compute. discriminate.
    + exists tenths. split; [reflexivity|]. split; [exact H1 | exact H2].
Defined.

(** The mean 1.15 is held as the float just below it, and is reported
    as 1.1; 4.25 is a float, and the tie goes to the even 4.2. *)
Example ties_follow_the_float :
  fmap_avg (get_mood_statistics store_week_later db_tie)
  = Some (PyFloat (11 # 10)) /\
  fmap_avg (get_mood_statistics store_week_later
              (db_intensities [4; 4; 4; 5]))
  = Some (PyFloat (42 # 10)).
Proof. split; vm_compute; reflexivity. Qed.
